(** * career-paths-api: resilience layer, evaluation logic and ingestion

    A shallow embedding of the core of the repository:
    - [app/integrations/circuit_breaker.py] and [app/integrations/retry.py]
      (module [Resilience]);
    - [app/domain/evaluation_logic.py] (module [EvaluationLogic]);
    - the persistence pipelines of [app/services] and [app/db/repositories]
      (module [Persistence]);
    - the switch between dummy and production mode of the AI clients of
      [app/integrations] (module [Clients]);
    - the domain entities of [app/domain/entities] and the mappers of
      [app/schemas/mappers] (modules [Entities] and [Mappers]).

    Python [int] is [Z]; Python [float] quantities (times, delays, scores)
    are exact rationals [Q]; [dict]s with a fixed key set are [gmap]s;
    database tables are lists of rows in insertion order. *)

From Stdlib Require Import ZArith QArith Qminmax Qpower Lia.
From stdpp Require Import gmap strings list fin_maps pretty.

(** ** Exceptions and results *)

(** A raised exception: its class name and its message. Every exception of
    the model derives from Python's [Exception]. *)
Record Exn := mkExn { exn_class : string; exn_msg : string }.

Inductive Result (A : Type) : Type :=
| Ok (a : A)
| Raise (e : Exn).
Arguments Ok {A} a.
Arguments Raise {A} e.

Definition is_ok {A} (r : Result A) : bool :=
  match r with Ok _ => true | Raise _ => false end.

(** ** Python floats *)

(** A Python [float] is an IEEE 754 binary64 number. The model computes
    with exact rationals. An operation of the code ([+], [*], [/])
    returns the float nearest to the exact result, so model and code agree
    wherever the exact result is itself a float; [sum] agrees with the
    exact sum when every partial sum is a float. Statements about exact
    values carry these conditions as hypotheses; statements about counts,
    order and bounds do not need them. *)
Module PyFloat.

(** [q] is a finite binary64 number: [m * 2 ^ e] with [|m| < 2 ^ 53],
    [-1074 <= e] and [|q| < 2 ^ 1024]. *)
Definition representable (q : Q) : bool :=
  let r := Qred q in
  let n := Z.abs (Qnum r) in
  let d := Zpos (Qden r) in
  let j := Z.log2 d in
  if (n =? 0)%Z then true
  else
    (d =? 2 ^ j)%Z && (j <=? 1074)%Z && (Z.log2 n - j <=? 1023)%Z
    && ((Z.log2 n <=? 52)%Z || (n mod 2 ^ (Z.log2 n - 52) =? 0)%Z).

(** The values [sum(l)] goes through, from the left. *)
Fixpoint partial_sums (acc : Q) (l : list Q) : list Q :=
  match l with
  | [] => []
  | x :: rest => (acc + x)%Q :: partial_sums (acc + x)%Q rest
  end.

(** [sum(l) / len(l)] is computed without rounding: the numbers, the
    partial sums and the quotient are floats. *)
Definition exact_mean (l : list Q) : bool :=
  forallb representable l
  && forallb representable (partial_sums 0%Q l)
  && representable
       (fold_right Qplus 0%Q l / inject_Z (Z.of_nat (length l)))%Q.

(** Each of the numbers is a float. *)
Definition all_representable (l : list Q) : bool := forallb representable l.

End PyFloat.

(** ** The resilience layer *)

Module Resilience.

(** What the outside world records: each invocation of the protected
    function and each [asyncio.sleep(d)]. *)
Inductive Event :=
| Invoke
| Sleep (d : Q).

(** [clock] is the value [time.time()] returns. *)
Record World := mkWorld { clock : Q; trace : list Event }.

Definition is_invoke (e : Event) : bool :=
  match e with Invoke => true | Sleep _ => false end.

Fixpoint calls_in (tr : list Event) : nat :=
  match tr with
  | [] => 0
  | Invoke :: tr' => S (calls_in tr')
  | Sleep _ :: tr' => calls_in tr'
  end.


(** Number of times the protected function has been invoked so far. *)
Definition call_count (w : World) : nat := calls_in (trace w).

(** An awaitable callable: it runs in the world and returns or raises. *)
Definition Computation (T : Type) : Type := World -> Result T * World.

(** One scripted invocation: what it does and how long it takes. *)
Record Attempt (T : Type) := mkAttempt { outcome : Result T; took : Q }.
Arguments mkAttempt {T} outcome took.
Arguments outcome {T} a.
Arguments took {T} a.

(** [tests/helpers/async_mocks.py], [CallSequenceMock]: the n-th
    invocation behaves as the n-th entry of the script. *)
Definition scripted {T} (script : nat -> Attempt T) : Computation T :=
  fun w =>
    let a := script (call_count w) in
    (outcome a,
     {| clock := (clock w + took a)%Q; trace := trace w ++ [Invoke] |}).

(** [asyncio.sleep(delay)] *)
Definition sleep (delay : Q) (w : World) : World :=
  {| clock := (clock w + Qmax 0 delay)%Q; trace := trace w ++ [Sleep delay] |}.

(** *** circuit_breaker.py *)

Inductive CircuitState := CLOSED | OPEN | HALF_OPEN.

Record CircuitBreaker := mkBreaker {
  failure_threshold : Z;
  timeout : Q;
  name : string;
  failure_count : Z;
  last_failure_time : option Q;
  state : CircuitState
}.

(** [CircuitBreaker.__init__] *)
Definition CircuitBreaker_init (threshold : Z) (tmo : Q) (nm : string)
  : CircuitBreaker :=
  {| failure_threshold := threshold; timeout := tmo; name := nm;
     failure_count := 0; last_failure_time := None; state := CLOSED |}.

Definition set_state (cb : CircuitBreaker) (s : CircuitState) : CircuitBreaker :=
  {| failure_threshold := failure_threshold cb; timeout := timeout cb;
     name := name cb; failure_count := failure_count cb;
     last_failure_time := last_failure_time cb; state := s |}.

(** [CircuitBreaker._should_attempt_reset] *)
Definition _should_attempt_reset (cb : CircuitBreaker) (w : World) : bool :=
  match last_failure_time cb with
  | None => false
  | Some t => Qle_bool (timeout cb) (clock w - t)
  end.

Definition circuit_open_error (cb : CircuitBreaker) : Exn :=
  mkExn "ExternalServiceError"
        ("Circuit breaker '" +:+ name cb +:+ "' is OPEN").

(** [CircuitBreaker.call], lines 69-78: the gate in front of the call.
    [inr e] is the rejection, [inl cb'] the breaker the call runs under. *)
Definition admit_call (cb : CircuitBreaker) (w : World) : CircuitBreaker + Exn :=
  match state cb with
  | OPEN =>
      if _should_attempt_reset cb w
      then inl (set_state cb HALF_OPEN)
      else inr (circuit_open_error cb)
  | _ => inl cb
  end.

(** Lines 83-87: bookkeeping after the function returned. *)
Definition on_success (cb : CircuitBreaker) : CircuitBreaker :=
  match state cb with
  | HALF_OPEN =>
      {| failure_threshold := failure_threshold cb; timeout := timeout cb;
         name := name cb; failure_count := 0; last_failure_time := None;
         state := CLOSED |}
  | _ => cb
  end.

(** Lines 91-104: bookkeeping after the function raised; [now] is the
    [time.time()] read in the handler. *)
Definition on_failure (cb : CircuitBreaker) (now : Q) : CircuitBreaker :=
  let count := (failure_count cb + 1)%Z in
  {| failure_threshold := failure_threshold cb; timeout := timeout cb;
     name := name cb; failure_count := count;
     last_failure_time := Some now;
     state := if (failure_threshold cb <=? count)%Z then OPEN else state cb |}.

(** Lines 80-104: the [try] block, run under breaker [cb]. *)
Definition guarded {T} (cb : CircuitBreaker) (func : Computation T) (w : World)
  : Result T * CircuitBreaker * World :=
  let '(r, w1) := func w in
  match r with
  | Ok v => (Ok v, on_success cb, w1)
  | Raise e => (Raise e, on_failure cb (clock w1), w1)
  end.

(** [CircuitBreaker.call] *)
Definition call {T} (cb : CircuitBreaker) (func : Computation T) (w : World)
  : Result T * CircuitBreaker * World :=
  match admit_call cb w with
  | inr e => (Raise e, cb, w)
  | inl cb1 => guarded cb1 func w
  end.

(** A sequence of calls through one breaker, as a test drives it. *)
Fixpoint call_all {T} (cb : CircuitBreaker) (funcs : list (Computation T))
  (w : World) : CircuitBreaker * World :=
  match funcs with
  | [] => (cb, w)
  | f :: rest => let '(_, cb1, w1) := call cb f w in call_all cb1 rest w1
  end.

(** Breakers that calls can produce from a freshly built one. *)
Inductive reachable (T : Type) (threshold : Z) (tmo : Q) (nm : string)
  : CircuitBreaker -> Prop :=
| reach_init : reachable T threshold tmo nm (CircuitBreaker_init threshold tmo nm)
| reach_call cb (func : Computation T) w r cb1 w1 :
    reachable T threshold tmo nm cb ->
    call cb func w = (r, cb1, w1) ->
    reachable T threshold tmo nm cb1.

(** *** retry.py *)

(** The [for attempt in range(1, max_attempts + 1)] loop of
    [retry_with_backoff]; [remaining] counts the iterations left. *)
Fixpoint retry_loop {T} (func : Computation T) (max_attempts : Z)
  (backoff_factor : Q) (remaining : nat) (attempt : Z) (delay : Q)
  (last_exception : option Exn) (w : World) : Result T * World :=
  match remaining with
  | O =>
      match last_exception with
      | Some e => (Raise e, w)
      | None => (Raise (mkExn "RuntimeError" "Retry failed without exception"), w)
      end
  | S remaining' =>
      let '(r, w1) := func w in
      match r with
      | Ok v => (Ok v, w1)
      | Raise e =>
          if (attempt <? max_attempts)%Z
          then retry_loop func max_attempts backoff_factor remaining'
                 (attempt + 1)%Z (delay * backoff_factor)%Q (Some e)
                 (sleep delay w1)
          else retry_loop func max_attempts backoff_factor remaining'
                 (attempt + 1)%Z delay (Some e) w1
      end
  end.

(** [retry_with_backoff] *)
Definition retry_with_backoff {T} (func : Computation T) (max_retries : Z)
  (initial_delay backoff_factor : Q) : Computation T :=
  let max_attempts := (max_retries + 1)%Z in
  retry_loop func max_attempts backoff_factor (Z.to_nat max_attempts) 1%Z
    initial_delay None.

(** [with_retry]: the wrapper forwards [*args] after the keyword
    arguments [max_retries=], [initial_delay=], [backoff_factor=]. Python
    binds positional arguments first, so any positional argument lands on
    [max_retries] and the call raises [TypeError] before [func] runs.
    [nargs] is the number of positional arguments of the call. *)
Definition with_retry {T} (max_retries : Z) (initial_delay backoff_factor : Q)
  (func : Computation T) (nargs : nat) : Computation T :=
  match nargs with
  | O => retry_with_backoff func max_retries initial_delay backoff_factor
  | S _ =>
      fun w =>
        (Raise (mkExn "TypeError"
           "retry_with_backoff() got multiple values for argument 'max_retries'"),
         w)
  end.

(** [AICareerClient._call_production_api]: [with_circuit_breaker] is the
    outer decorator, [with_retry] the inner one; the method is called with
    positional arguments [(self, skills_data, user_profile)]. *)
Definition protected_call {T} (cb : CircuitBreaker) (max_retries : Z)
  (initial_delay : Q) (http_post : Computation T) (nargs : nat) (w : World)
  : Result T * CircuitBreaker * World :=
  call cb (with_retry max_retries initial_delay 2 http_post nargs) w.

Definition _call_production_api {T} (cb : CircuitBreaker) (max_retries : Z)
  (initial_delay : Q) (http_post : Computation T) (w : World)
  : Result T * CircuitBreaker * World :=
  protected_call cb max_retries initial_delay http_post 3 w.

(** How a callable behaves whatever the world: [true] when it always
    returns, [false] when it always raises. *)
Definition behaves {T} (func : Computation T) (ok : bool) : Prop :=
  forall w, is_ok (func w).1 = ok.

Fixpoint count_failures (outcomes : list bool) : nat :=
  match outcomes with
  | [] => 0
  | true :: rest => count_failures rest
  | false :: rest => S (count_failures rest)
  end.

(** The delays [retry_with_backoff] passes to [asyncio.sleep]: the value of
    [delay] at each of the first [n] failed attempts. *)
Fixpoint backoff_delays (delay backoff_factor : Q) (n : nat) : list Q :=
  match n with
  | O => []
  | S n' => delay :: backoff_delays (delay * backoff_factor)%Q backoff_factor n'
  end.

(** [Invoke], then for each delay a [Sleep] followed by an [Invoke]. *)
Fixpoint attempts_trace (delays : list Q) : list Event :=
  match delays with
  | [] => [Invoke]
  | d :: rest => Invoke :: Sleep d :: attempts_trace rest
  end.

(** Test doubles, as [create_always_failing_mock] and [CallSequenceMock]
    build them. *)
Definition timeout_error : Exn := mkExn "TimeoutError" "Service timeout".

Definition always_failing : Computation nat :=
  scripted (fun _ => mkAttempt (Raise timeout_error) 0).

Definition always_ok : Computation nat :=
  scripted (fun n => mkAttempt (Ok n) 0).

(** Fails on the first two invocations, then returns 7
    ([create_failing_mock(fail_times=2, ...)]). *)
Definition failing_twice : nat -> Attempt nat :=
  fun n => if n <? 2 then mkAttempt (Raise timeout_error) 0
           else mkAttempt (Ok 7) 0.

(** The configuration of a breaker never changes. *)
Definition same_config (cb cb1 : CircuitBreaker) : Prop :=
  failure_threshold cb1 = failure_threshold cb /\
  timeout cb1 = timeout cb /\ name cb1 = name cb.

(** What holds of every breaker that calls can produce: it is never left
    HALF_OPEN, and it is OPEN only with the threshold reached and a failure
    time recorded. *)
Definition breaker_inv (threshold : Z) (tmo : Q) (nm : string)
  (cb : CircuitBreaker) : Prop :=
  failure_threshold cb = threshold /\ timeout cb = tmo /\ name cb = nm /\
  (state cb = CLOSED \/
   (state cb = OPEN /\ (threshold <= failure_count cb)%Z /\
    is_Some (last_failure_time cb))).

End Resilience.

(** ** Domain logic: [app/domain/evaluation_logic.py] *)

Module EvaluationLogic.

Definition UUID := nat.

(** [app/domain/entities/evaluation.py] *)
Record CompetencyScore := mkScore {
  skill_id : UUID;
  score : Q;
  comments : option string
}.

Record EvaluationEntity := mkEvaluation {
  id : UUID;
  user_id : UUID;
  evaluation_cycle_id : UUID;
  evaluator_id : UUID;
  evaluator_relationship : string;
  status : string;
  competency_scores : list CompetencyScore
}.

(** [EvaluationEntity.is_submitted] *)
Definition is_submitted (e : EvaluationEntity) : bool :=
  String.eqb (status e) "submitted".

(** *** is_cycle_complete_for_user *)

(** The [counts] dictionary as first built. *)
Definition initial_counts : gmap string Z :=
  <["self" := 0%Z]> (<["manager" := 0%Z]> (<["peer" := 0%Z]>
    (<["direct_report" := 0%Z]> ∅))).

(** Body of the [for evaluation in evaluations] loop. *)
Definition count_step (counts : gmap string Z) (evaluation : EvaluationEntity)
  : gmap string Z :=
  if is_submitted evaluation then
    let rel := evaluator_relationship evaluation in
    match counts !! rel with
    | Some n => <[rel := (n + 1)%Z]> counts
    | None => counts
    end
  else counts.

(** [counts[key]] for a key the dictionary holds. *)
Definition count_of (counts : gmap string Z) (key : string) : Z :=
  default 0%Z (counts !! key).

(** [missing_parts.append(part)] under [if cond]. *)
Definition append_if (cond : bool) (part : string) (parts : list string)
  : list string :=
  if cond then parts ++ [part] else parts.

Definition peer_part (min_peers has : Z) : string :=
  "at least " +:+ pretty min_peers +:+ " peer evaluations (has "
  +:+ pretty has +:+ ")".

Definition direct_report_part (min_direct_reports has : Z) : string :=
  "at least " +:+ pretty min_direct_reports
  +:+ " direct report evaluations (has " +:+ pretty has +:+ ")".

Definition missing_parts_of (counts : gmap string Z)
  (min_peers min_direct_reports : Z) : list string :=
  let missing_parts := [] in
  let missing_parts :=
    append_if (count_of counts "self" <? 1)%Z "self-evaluation" missing_parts in
  let missing_parts :=
    append_if (count_of counts "manager" <? 1)%Z "manager evaluation"
      missing_parts in
  let missing_parts :=
    append_if (count_of counts "peer" <? min_peers)%Z
      (peer_part min_peers (count_of counts "peer")) missing_parts in
  let missing_parts :=
    append_if (count_of counts "direct_report" <? min_direct_reports)%Z
      (direct_report_part min_direct_reports (count_of counts "direct_report"))
      missing_parts in
  missing_parts.

Definition is_cycle_complete_for_user (evaluations : list EvaluationEntity)
  (min_peers min_direct_reports : Z) : bool * option string :=
  let counts := foldl count_step initial_counts evaluations in
  let missing_parts := missing_parts_of counts min_peers min_direct_reports in
  match missing_parts with
  | [] => (true, None)
  | _ :: _ => (false, Some ("Missing: " +:+ String.concat ", " missing_parts))
  end.

(** Number of submitted evaluations of one relationship kind. *)
Definition submitted_of_kind (kind : string) (e : EvaluationEntity) : bool :=
  is_submitted e && String.eqb (evaluator_relationship e) kind.

Definition submitted_count (kind : string) (evaluations : list EvaluationEntity)
  : Z :=
  Z.of_nat (length (List.filter (submitted_of_kind kind) evaluations)).

(** [sub] occurs in [s]. *)
Definition occurs_in (sub s : string) : Prop :=
  exists pre post, s = pre +:+ sub +:+ post.

(** *** aggregate_competency_scores *)

(** A Python [dict] keyed by skill id, in insertion order. *)
Fixpoint od_get {V} (k : UUID) (d : list (UUID * V)) : option V :=
  match d with
  | [] => None
  | (k1, v) :: rest => if Nat.eqb k1 k then Some v else od_get k rest
  end.

(** [d[k] = v]: in place when the key is there, at the end otherwise. *)
Fixpoint od_set {V} (k : UUID) (v : V) (d : list (UUID * V))
  : list (UUID * V) :=
  match d with
  | [] => [(k, v)]
  | (k1, v1) :: rest =>
      if Nat.eqb k1 k then (k, v) :: rest else (k1, v1) :: od_set k v rest
  end.

(** The dictionary a skill gets when first met. *)
Definition empty_scores : gmap string (list Q) :=
  <["self" := []]> (<["peer" := []]> (<["manager" := []]>
    (<["direct_report" := []]> ∅))).

Definition key_error (key : string) : Exn := mkExn "KeyError" key.

(** Body of the [for comp_score in evaluation.competency_scores] loop;
    [scores_by_skill[skill_id][rel]] raises [KeyError] for a relationship
    that is not one of the four keys. *)
Definition add_score (rel : string)
  (scores_by_skill : list (UUID * gmap string (list Q)))
  (comp_score : CompetencyScore)
  : Result (list (UUID * gmap string (list Q))) :=
  let by_rel :=
    match od_get (skill_id comp_score) scores_by_skill with
    | Some by_rel => by_rel
    | None => empty_scores
    end in
  match by_rel !! rel with
  | Some scores =>
      Ok (od_set (skill_id comp_score)
            (<[rel := scores ++ [score comp_score]]> by_rel) scores_by_skill)
  | None => Raise (key_error rel)
  end.

Fixpoint add_scores (rel : string)
  (scores_by_skill : list (UUID * gmap string (list Q)))
  (comp_scores : list CompetencyScore)
  : Result (list (UUID * gmap string (list Q))) :=
  match comp_scores with
  | [] => Ok scores_by_skill
  | cs :: rest =>
      match add_score rel scores_by_skill cs with
      | Ok d => add_scores rel d rest
      | Raise e => Raise e
      end
  end.

(** The [for evaluation in evaluations] loop. *)
Fixpoint collect_scores (scores_by_skill : list (UUID * gmap string (list Q)))
  (evaluations : list EvaluationEntity)
  : Result (list (UUID * gmap string (list Q))) :=
  match evaluations with
  | [] => Ok scores_by_skill
  | evaluation :: rest =>
      if negb (is_submitted evaluation) then collect_scores scores_by_skill rest
      else
        match add_scores (evaluator_relationship evaluation) scores_by_skill
                (competency_scores evaluation) with
        | Ok d => collect_scores d rest
        | Raise e => Raise e
        end
  end.

(** [sum(scores)] *)
Definition Qsum (scores : list Q) : Q := foldl Qplus 0%Q scores.

Definition Qlen (scores : list Q) : Q := inject_Z (Z.of_nat (length scores)).

(** [sum(scores) / len(scores) if scores else None] *)
Definition average (scores : list Q) : option Q :=
  match scores with
  | [] => None
  | _ :: _ => Some (Qsum scores / Qlen scores)%Q
  end.

(** The confidence heuristic on the total number of scores. *)
Definition confidence_for (total_n : nat) : Q :=
  if 5 <=? total_n then 0.9%Q
  else if 3 <=? total_n then 0.7%Q
  else if 1 <=? total_n then 0.5%Q
  else 0.0%Q.

Record RawStats := mkRawStats {
  raw_self_scores : list Q;
  raw_peer_scores : list Q;
  raw_manager_scores : list Q;
  raw_direct_report_scores : list Q;
  raw_self_avg : option Q;
  raw_peer_avg : option Q;
  raw_manager_avg : option Q;
  raw_direct_report_avg : option Q;
  raw_n_self : nat;
  raw_n_peer : nat;
  raw_n_manager : nat;
  raw_n_direct_report : nat
}.

Record SkillStats := mkSkillStats {
  overall_avg : Q;
  self_avg : option Q;
  peer_avg : option Q;
  manager_avg : option Q;
  direct_report_avg : option Q;
  n_self : nat;
  n_peer : nat;
  n_manager : nat;
  n_direct_report : nat;
  confidence : Q;
  raw_stats : RawStats
}.

(** [scores_by_rel[key]] for one of the four keys. *)
Definition scores_at (scores_by_rel : gmap string (list Q)) (key : string)
  : list Q :=
  default [] (scores_by_rel !! key).

(** Body of the [for skill_id, scores_by_rel in scores_by_skill.items()]
    loop. *)
Definition skill_stats (scores_by_rel : gmap string (list Q)) : SkillStats :=
  let self_scores := scores_at scores_by_rel "self" in
  let peer_scores := scores_at scores_by_rel "peer" in
  let manager_scores := scores_at scores_by_rel "manager" in
  let direct_report_scores := scores_at scores_by_rel "direct_report" in
  let self_avg := average self_scores in
  let peer_avg := average peer_scores in
  let manager_avg := average manager_scores in
  let direct_report_avg := average direct_report_scores in
  let all_scores :=
    self_scores ++ peer_scores ++ manager_scores ++ direct_report_scores in
  let overall_avg :=
    match all_scores with
    | [] => 0.0%Q
    | _ :: _ => (Qsum all_scores / Qlen all_scores)%Q
    end in
  let total_n := length all_scores in
  let confidence := confidence_for total_n in
  let raw_stats :=
    {| raw_self_scores := self_scores; raw_peer_scores := peer_scores;
       raw_manager_scores := manager_scores;
       raw_direct_report_scores := direct_report_scores;
       raw_self_avg := self_avg; raw_peer_avg := peer_avg;
       raw_manager_avg := manager_avg;
       raw_direct_report_avg := direct_report_avg;
       raw_n_self := length self_scores; raw_n_peer := length peer_scores;
       raw_n_manager := length manager_scores;
       raw_n_direct_report := length direct_report_scores |} in
  {| overall_avg := overall_avg; self_avg := self_avg; peer_avg := peer_avg;
     manager_avg := manager_avg; direct_report_avg := direct_report_avg;
     n_self := length self_scores; n_peer := length peer_scores;
     n_manager := length manager_scores;
     n_direct_report := length direct_report_scores;
     confidence := confidence; raw_stats := raw_stats |}.

Definition aggregate_competency_scores (evaluations : list EvaluationEntity)
  : Result (list (UUID * SkillStats)) :=
  match collect_scores [] evaluations with
  | Ok scores_by_skill =>
      Ok (map (fun '(skill_id, scores_by_rel) =>
                 (skill_id, skill_stats scores_by_rel)) scores_by_skill)
  | Raise e => Raise e
  end.

(** The scores a skill received from submitted evaluations of one kind, in
    the order of the evaluations. *)
Definition kind_scores (evaluations : list EvaluationEntity) (skill : UUID)
  (kind : string) : list Q :=
  flat_map
    (fun e =>
       if submitted_of_kind kind e
       then map score
              (List.filter (fun cs => Nat.eqb (skill_id cs) skill)
                 (competency_scores e))
       else [])
    evaluations.

Definition relationship_kinds : list string :=
  ["self"; "peer"; "manager"; "direct_report"].

(** The relationship of a submitted evaluation that carries scores is one
    of the four kinds of the data model. *)
Definition known_relationship (e : EvaluationEntity) : Prop :=
  In (evaluator_relationship e) relationship_kinds.

(** The scenario of the specification: one skill, self 9.0, manager 8.0,
    two peers 7.0. *)
Definition scenario_evaluations : list EvaluationEntity :=
  [ mkEvaluation 1 10 20 10 "self" "submitted" [mkScore 100 9 None];
    mkEvaluation 2 10 20 11 "manager" "submitted" [mkScore 100 8 None];
    mkEvaluation 3 10 20 12 "peer" "submitted" [mkScore 100 7 None];
    mkEvaluation 4 10 20 13 "peer" "submitted" [mkScore 100 7 None] ].



(** The score lists collected so far for a skill and a kind. *)
Definition collected (scores_by_skill : list (UUID * gmap string (list Q)))
  (skill : UUID) (kind : string) : list Q :=
  match od_get skill scores_by_skill with
  | Some by_rel => scores_at by_rel kind
  | None => []
  end.

(** Every per-skill dictionary holds the four relationship keys. *)
Definition four_keys (scores_by_skill : list (UUID * gmap string (list Q)))
  : Prop :=
  forall skill by_rel,
    od_get skill scores_by_skill = Some by_rel ->
    forall kind, In kind relationship_kinds -> is_Some (by_rel !! kind).

(** A submitted evaluation scores the skill. *)
Definition scored_in (evaluations : list EvaluationEntity) (skill : UUID)
  : Prop :=
  exists e cs, In e evaluations /\ is_submitted e = true /\
               In cs (competency_scores e) /\ skill_id cs = skill.


End EvaluationLogic.

(** ** Persistence: repositories, unit of work and services *)

Module Persistence.
Import EvaluationLogic.

(** *** Rows of the tables ([app/db/models]); columns no modelled code
    reads or writes (timestamps, free-text notes) are left out. *)

Record User := mkUser { u_id : UUID; u_role_id : option UUID }.

Record Role := mkRole {
  r_id : UUID;
  r_name : string;
  r_job_family : option string;
  r_seniority_level : option string;
  r_is_active : bool
}.

Record Skill := mkSkill { s_id : UUID; s_name : string }.

Record SkillsAssessment := mkAssessment {
  sa_id : UUID;
  sa_user_id : UUID;
  sa_evaluation_cycle_id : option UUID;
  sa_status : string;
  sa_processed_at : Z
}.

Record UserSkillScore := mkUserSkillScore {
  uss_id : UUID;
  uss_user_id : UUID;
  uss_evaluation_cycle_id : UUID;
  uss_skill_id : UUID;
  uss_source : string;
  uss_score : Q;
  uss_confidence : Q;
  uss_raw_stats : RawStats
}.

Record CareerPath := mkCareerPath {
  cp_id : UUID;
  cp_user_id : UUID;
  cp_skills_assessment_id : UUID;
  cp_path_name : option string;
  cp_recommended : bool;
  cp_feasibility_score : option Q;
  cp_total_duration_months : option Z;
  cp_status : string
}.

Record CareerPathStep := mkCareerPathStep {
  st_id : UUID;
  st_career_path_id : UUID;
  st_step_number : option Z;
  st_target_role_id : option UUID;
  st_description : string;
  st_duration_months : option Z
}.

Record DevelopmentAction := mkDevelopmentAction {
  da_id : UUID;
  da_career_path_step_id : UUID;
  da_skill_id : option UUID;
  da_action_type : string;
  da_title : string
}.

Record SkillsAssessmentItem := mkAssessmentItem {
  it_id : UUID;
  it_skills_assessment_id : UUID;
  it_item_type : string;
  it_label : option string;
  it_score : option Q;
  it_gap_score : option Q;
  it_priority : option string;
  it_readiness_percentage : option Q;
  it_evidence : option string
}.

(** *** The two external JSON contracts *)

Record CompetencyData := mkCompetencyData {
  cd_name : option string;
  cd_development_actions : list string
}.

Record StepData := mkStepData {
  sd_step_number : option Z;
  sd_target_role : option string;
  sd_duration_months : option Z;
  sd_required_competencies : list CompetencyData
}.

Record PathData := mkPathData {
  pd_path_name : option string;
  pd_recommended : option bool;
  pd_feasibility_score : option Q;
  pd_total_duration_months : option Z;
  pd_steps : list StepData
}.

(** [ai_response.get("generated_paths", [])] *)
Record CareerPathsResponse := mkCareerPathsResponse {
  generated_paths : list PathData
}.

Record StrengthData := mkStrengthData {
  str_skill : option string;
  str_score : option Q;
  str_evidence : option string
}.

(** [current_level] and [target_level] are words ("Intermedio",
    "Avanzado") or absent. *)
Record GrowthAreaData := mkGrowthAreaData {
  ga_skill : option string;
  ga_gap_score : option Q;
  ga_priority : option string;
  ga_current_level : option string;
  ga_target_level : option string
}.

Record HiddenTalentData := mkHiddenTalentData {
  ht_skill : option string;
  ht_potential_score : option Q;
  ht_evidence : option string
}.

(** [readiness_percentage] is a JSON number or null. *)
Record ReadinessData := mkReadinessData {
  rd_role : option string;
  rd_readiness_percentage : option Q
}.

Record AssessmentResponse := mkAssessmentResponse {
  strengths : list StrengthData;
  growth_areas : list GrowthAreaData;
  hidden_talents : list HiddenTalentData;
  readiness_for_roles : list ReadinessData
}.

Record CareerRequest := mkCareerRequest {
  rq_user_id : UUID;
  rq_skills_assessment_id : UUID;
  rq_current_position : string;
  rq_career_interests : list string;
  rq_time_horizon_years : Z;
  rq_organization_structure : list Role
}.

Inductive Payload :=
| CareerRequestPayload (r : CareerRequest)
| CareerResponsePayload (r : CareerPathsResponse)
| AssessmentRequestPayload
| AssessmentResponsePayload (r : AssessmentResponse).

Record AICallsLog := mkAICallsLog {
  log_id : UUID;
  log_service_name : string;
  log_user_id : option UUID;
  log_evaluation_cycle_id : option UUID;
  log_skills_assessment_id : option UUID;
  log_career_path_id : option UUID;
  log_request_payload : Payload;
  log_response_payload : option Payload;
  log_status : string;
  log_error_message : option string;
  log_latency_ms : option Z
}.

(** *** The database and the session *)

Record Database := mkDatabase {
  users : list User;
  roles : list Role;
  skills : list Skill;
  evaluations : list EvaluationEntity;
  user_skill_scores : list UserSkillScore;
  skills_assessments : list SkillsAssessment;
  skills_assessment_items : list SkillsAssessmentItem;
  career_paths : list CareerPath;
  career_path_steps : list CareerPathStep;
  development_actions : list DevelopmentAction;
  ai_calls_log : list AICallsLog
}.

Definition set_user_skill_scores (v : list UserSkillScore) (db : Database) :=
  mkDatabase (users db) (roles db) (skills db) (evaluations db) v
    (skills_assessments db) (skills_assessment_items db) (career_paths db)
    (career_path_steps db) (development_actions db) (ai_calls_log db).

Definition set_skills_assessments (v : list SkillsAssessment) (db : Database) :=
  mkDatabase (users db) (roles db) (skills db) (evaluations db)
    (user_skill_scores db) v (skills_assessment_items db) (career_paths db)
    (career_path_steps db) (development_actions db) (ai_calls_log db).

Definition set_skills_assessment_items (v : list SkillsAssessmentItem)
  (db : Database) :=
  mkDatabase (users db) (roles db) (skills db) (evaluations db)
    (user_skill_scores db) (skills_assessments db) v (career_paths db)
    (career_path_steps db) (development_actions db) (ai_calls_log db).

Definition set_career_paths (v : list CareerPath) (db : Database) :=
  mkDatabase (users db) (roles db) (skills db) (evaluations db)
    (user_skill_scores db) (skills_assessments db)
    (skills_assessment_items db) v (career_path_steps db)
    (development_actions db) (ai_calls_log db).

Definition set_career_path_steps (v : list CareerPathStep) (db : Database) :=
  mkDatabase (users db) (roles db) (skills db) (evaluations db)
    (user_skill_scores db) (skills_assessments db)
    (skills_assessment_items db) (career_paths db) v
    (development_actions db) (ai_calls_log db).

Definition set_development_actions (v : list DevelopmentAction)
  (db : Database) :=
  mkDatabase (users db) (roles db) (skills db) (evaluations db)
    (user_skill_scores db) (skills_assessments db)
    (skills_assessment_items db) (career_paths db) (career_path_steps db) v
    (ai_calls_log db).

Definition set_ai_calls_log (v : list AICallsLog) (db : Database) :=
  mkDatabase (users db) (roles db) (skills db) (evaluations db)
    (user_skill_scores db) (skills_assessments db)
    (skills_assessment_items db) (career_paths db) (career_path_steps db)
    (development_actions db) v.

(** An [AsyncSession]: [committed] is what other transactions see,
    [working] what this one sees (each repository write is followed by a
    flush, and no modelled flush violates a constraint), [next_uuid] the
    next value of [uuid4()], [commits] the states committed so far, oldest
    first. *)
Record Session := mkSession {
  committed : Database;
  working : Database;
  next_uuid : UUID;
  commits : list Database
}.

(** Code that runs against the session and returns or raises. *)
Definition M (A : Type) : Type := Session -> Result A * Session.

Definition ret {A} (a : A) : M A := fun s => (Ok a, s).

Definition bind {A B} (m : M A) (k : A -> M B) : M B :=
  fun s =>
    match m s with
    | (Ok a, s1) => k a s1
    | (Raise e, s1) => (Raise e, s1)
    end.

Definition raise {A} (e : Exn) : M A := fun s => (Raise e, s).

Notation "x <- m ;; k" := (bind m (fun x => k))
  (at level 100, m at next level, right associativity).
Notation "m ;;; k" := (bind m (fun _ => k))
  (at level 100, right associativity).

Definition read {A} (f : Database -> A) : M A := fun s => (Ok (f (working s)), s).

Definition write (f : Database -> Database) : M unit :=
  fun s =>
    (Ok tt, mkSession (committed s) (f (working s)) (next_uuid s) (commits s)).

Definition uuid4 : M UUID :=
  fun s =>
    (Ok (next_uuid s),
     mkSession (committed s) (working s) (S (next_uuid s)) (commits s)).

(** [UnitOfWork.commit] *)
Definition commit : M unit :=
  fun s =>
    (Ok tt,
     mkSession (working s) (working s) (next_uuid s) (commits s ++ [working s])).

(** [UnitOfWork.rollback]; closing the session of a request that raised
    does the same. *)
Definition rollback (s : Session) : Session :=
  mkSession (committed s) (committed s) (next_uuid s) (commits s).

(** A request: the service call, and the rollback when it raised. *)
Definition request {A} (m : M A) (s : Session) : Result A * Session :=
  match m s with
  | (Ok a, s1) => (Ok a, s1)
  | (Raise e, s1) => (Raise e, rollback s1)
  end.

(** [Result.scalar_one_or_none] *)
Definition scalar_one_or_none {A} (rows : list A) : Result (option A) :=
  match rows with
  | [] => Ok None
  | [row] => Ok (Some row)
  | _ :: _ :: _ =>
      Raise (mkExn "MultipleResultsFound"
               "Multiple rows were found when one or none was required")
  end.

Definition lift {A} (r : Result A) : M A := fun s => (r, s).

(** *** Lookups *)

Definition users_get_by_id (user_id : UUID) : M (option User) :=
  rows <- read users ;;
  lift (scalar_one_or_none
          (List.filter (fun u => Nat.eqb (u_id u) user_id) rows)).

Definition roles_get_by_id (role_id : UUID) : M (option Role) :=
  rows <- read roles ;;
  lift (scalar_one_or_none
          (List.filter (fun r => Nat.eqb (r_id r) role_id) rows)).

Definition roles_get_by_name (name : string) : M (option Role) :=
  rows <- read roles ;;
  lift (scalar_one_or_none
          (List.filter (fun r => String.eqb (r_name r) name) rows)).

Definition skills_get_by_name (name : string) : M (option Skill) :=
  rows <- read skills ;;
  lift (scalar_one_or_none
          (List.filter (fun k => String.eqb (s_name k) name) rows)).

(** [ORDER BY name]: insertion of a role in a list sorted by name (the
    byte order of the names stands for the database collation). *)
Fixpoint insert_by_name (r : Role) (sorted : list Role) : list Role :=
  match sorted with
  | [] => [r]
  | r1 :: rest =>
      if String.leb (r_name r) (r_name r1) then r :: sorted
      else r1 :: insert_by_name r rest
  end.

Definition roles_get_all_active (limit : nat) : M (list Role) :=
  rows <- read roles ;;
  ret (take limit
         (fold_right insert_by_name [] (List.filter r_is_active rows))).

Definition skills_assessments_get_by_id (assessment_id : UUID)
  : M (option SkillsAssessment) :=
  rows <- read skills_assessments ;;
  lift (scalar_one_or_none
          (List.filter (fun a => Nat.eqb (sa_id a) assessment_id) rows)).

(** [ORDER BY processed_at DESC LIMIT 1] over a user's completed
    assessments. *)
Fixpoint latest_assessment (rows : list SkillsAssessment)
  : option SkillsAssessment :=
  match rows with
  | [] => None
  | a :: rest =>
      match latest_assessment rest with
      | Some b =>
          if (sa_processed_at a <? sa_processed_at b)%Z then Some b
          else Some a
      | None => Some a
      end
  end.

Definition skills_assessments_get_latest_by_user_id (user_id : UUID)
  : M (option SkillsAssessment) :=
  rows <- read skills_assessments ;;
  ret (latest_assessment
         (List.filter
            (fun a => Nat.eqb (sa_user_id a) user_id
                      && String.eqb (sa_status a) "completed") rows)).

(** *** Career-path repositories
    ([app/db/repositories/career_path/career_path_repository.py]) *)

Definition career_paths_create (career_path : CareerPath) : M CareerPath :=
  write (fun db => set_career_paths (career_paths db ++ [career_path]) db) ;;;
  ret career_path.

Definition career_paths_get_by_id (path_id : UUID) : M (option CareerPath) :=
  rows <- read career_paths ;;
  lift (scalar_one_or_none
          (List.filter (fun p => Nat.eqb (cp_id p) path_id) rows)).

Definition career_path_steps_create_bulk (steps : list CareerPathStep)
  : M (list CareerPathStep) :=
  write (fun db => set_career_path_steps (career_path_steps db ++ steps) db) ;;;
  ret steps.

Definition development_actions_create_bulk (actions : list DevelopmentAction)
  : M (list DevelopmentAction) :=
  write (fun db =>
           set_development_actions (development_actions db ++ actions) db) ;;;
  ret actions.

Definition with_status (path : CareerPath) (status : string) : CareerPath :=
  mkCareerPath (cp_id path) (cp_user_id path) (cp_skills_assessment_id path)
    (cp_path_name path) (cp_recommended path) (cp_feasibility_score path)
    (cp_total_duration_months path) status.

(** The bulk [UPDATE ... SET status = 'discarded'] of [accept_path]: rows
    of the user, other than [path_id], whose status is proposed or
    accepted. *)
Definition discard_other (path_id user_id : UUID) (row : CareerPath)
  : CareerPath :=
  if Nat.eqb (cp_user_id row) user_id
     && negb (Nat.eqb (cp_id row) path_id)
     && (String.eqb (cp_status row) "proposed"
         || String.eqb (cp_status row) "accepted")
  then with_status row "discarded"
  else row.

(** The flush of the modified [path] object: an [UPDATE] by primary key. *)
Definition flush_status (path : CareerPath) (row : CareerPath) : CareerPath :=
  if Nat.eqb (cp_id row) (cp_id path)
  then with_status row (cp_status path)
  else row.

(** [CareerPathRepository.accept_path]. The session is created with
    [autoflush=False], so the bulk update runs before the new status of
    [path] is written by [session.flush()]. *)
Definition repo_accept_path (path_id user_id : UUID) : M (option CareerPath) :=
  path <- career_paths_get_by_id path_id ;;
  match path with
  | None => ret None
  | Some path =>
      if negb (Nat.eqb (cp_user_id path) user_id) then ret None
      else
        let path := with_status path "accepted" in
        write (fun db =>
                 set_career_paths
                   (map (discard_other path_id user_id) (career_paths db)) db) ;;;
        write (fun db =>
                 set_career_paths
                   (map (flush_status path) (career_paths db)) db) ;;;
        ret (Some path)
  end.

(** *** The audit log repository *)

Definition ai_calls_log_create (log : AICallsLog) : M AICallsLog :=
  write (fun db => set_ai_calls_log (ai_calls_log db ++ [log]) db) ;;;
  ret log.

(** [AICallsLogRepository.update]: the flush writes the modified object
    over its row. *)
Definition ai_calls_log_update (log : AICallsLog) : M AICallsLog :=
  write (fun db =>
           set_ai_calls_log
             (map (fun row => if Nat.eqb (log_id row) (log_id log)
                              then log else row)
                (ai_calls_log db)) db) ;;;
  ret log.

(** *** [CareerPathService] ([app/services/career_path_service.py]) *)

(** [sub in s] *)
Fixpoint contains (sub s : string) : bool :=
  String.prefix sub s
  || match s with
     | EmptyString => false
     | String _ rest => contains sub rest
     end.

(** The keyword heuristic of lines 251-261. *)
Definition action_type_of (action_title : string) : string :=
  if contains "Curso" action_title || contains "Course" action_title
  then "course"
  else if contains "Proyecto" action_title || contains "Project" action_title
  then "project"
  else if contains "Mentoría" action_title
          || contains "Mentoring" action_title
  then "mentoring"
  else if contains "Shadowing" action_title then "shadowing"
  else if contains "Certificación" action_title
          || contains "Certification" action_title
  then "certification"
  else "other".

(** [str(x)] of an optional string inside an f-string. *)
Definition str_opt (x : option string) : string :=
  match x with Some v => v | None => "None" end.

(** Lines 202-221: one step of a path. *)
Definition build_step (path_id : UUID) (step_data : StepData)
  : M CareerPathStep :=
  let target_role_name := sd_target_role step_data in
  target_role_id <-
    match target_role_name with
    | Some (String c rest) =>
        role <- roles_get_by_name (String c rest) ;;
        ret (option_map r_id role)
    | _ => ret None
    end ;;
  step_id <- uuid4 ;;
  ret (mkCareerPathStep step_id path_id (sd_step_number step_data)
         target_role_id ("Progress to " +:+ str_opt target_role_name)
         (sd_duration_months step_data)).

Fixpoint build_steps (path_id : UUID) (steps_data : list StepData)
  : M (list CareerPathStep) :=
  match steps_data with
  | [] => ret []
  | step_data :: rest =>
      step <- build_step path_id step_data ;;
      steps <- build_steps path_id rest ;;
      ret (step :: steps)
  end.

(** Lines 248-271: the actions of one competency. *)
Fixpoint build_actions (step_id : UUID) (skill_id : option UUID)
  (titles : list string) : M (list DevelopmentAction) :=
  match titles with
  | [] => ret []
  | action_title :: rest =>
      let action_type := action_type_of action_title in
      action_id <- uuid4 ;;
      actions <- build_actions step_id skill_id rest ;;
      ret (mkDevelopmentAction action_id step_id skill_id action_type
             action_title :: actions)
  end.

(** Lines 237-271: the actions of one step. *)
Fixpoint step_actions (step_id : UUID) (competencies : list CompetencyData)
  : M (list DevelopmentAction) :=
  match competencies with
  | [] => ret []
  | competency :: rest =>
      skill_id <-
        match cd_name competency with
        | Some (String c name) =>
            skill <- skills_get_by_name (String c name) ;;
            ret (option_map s_id skill)
        | _ => ret None
        end ;;
      actions <- build_actions step_id skill_id
                   (cd_development_actions competency) ;;
      more <- step_actions step_id rest ;;
      ret (actions ++ more)
  end.

(** Lines 232-278: [for step, step_data in zip(created_steps, steps_data)]. *)
Fixpoint persist_actions (pairs : list (CareerPathStep * StepData)) : M unit :=
  match pairs with
  | [] => ret tt
  | (step, step_data) :: rest =>
      actions <- step_actions (st_id step)
                   (sd_required_competencies step_data) ;;
      match actions with
      | [] => ret tt
      | _ :: _ => development_actions_create_bulk actions ;;; ret tt
      end ;;;
      persist_actions rest
  end.

(** Lines 183-280: one generated path. *)
Definition persist_path (user_id assessment_id : UUID) (path_data : PathData)
  : M CareerPath :=
  path_id <- uuid4 ;;
  created_path <-
    career_paths_create
      (mkCareerPath path_id user_id assessment_id (pd_path_name path_data)
         (default false (pd_recommended path_data))
         (pd_feasibility_score path_data)
         (pd_total_duration_months path_data) "proposed") ;;
  let steps_data := pd_steps path_data in
  created_steps <- build_steps (cp_id created_path) steps_data ;;
  match created_steps with
  | [] => ret tt
  | _ :: _ => career_path_steps_create_bulk created_steps ;;; ret tt
  end ;;;
  persist_actions (zip created_steps steps_data) ;;;
  ret created_path.

Fixpoint persist_paths (user_id assessment_id : UUID) (paths : list PathData)
  : M (list CareerPath) :=
  match paths with
  | [] => ret []
  | path_data :: rest =>
      created_path <- persist_path user_id assessment_id path_data ;;
      created_paths <- persist_paths user_id assessment_id rest ;;
      ret (created_path :: created_paths)
  end.

Definition not_found (msg : string) : Exn := mkExn "NotFoundError" msg.

Definition service_error (msg : string) : Exn :=
  mkExn "ExternalServiceError" msg.

(** *** The response schema
    ([app/schemas/career_path/career_path.py],
    [CareerPathMapper.orm_to_response]) *)

(** Strings hold UTF-8; a character starts at every byte that is not a
    continuation byte [10xxxxxx]. [min_length] and [max_length] of the
    schemas, and [String(n)] of the tables, count characters. *)
Definition is_continuation (c : Ascii.ascii) : bool :=
  (128 <=? Ascii.nat_of_ascii c) && (Ascii.nat_of_ascii c <? 192).

Fixpoint char_length (s : string) : nat :=
  match s with
  | EmptyString => 0
  | String c rest =>
      (if is_continuation c then 0 else 1) + char_length rest
  end.

(** [CareerPathResponse], without its timestamps and metadata. *)
Record CareerPathResponse := mkPathResponse {
  pr_id : UUID;
  pr_user_id : UUID;
  pr_skills_assessment_id : option UUID;
  pr_path_name : string;
  pr_recommended : bool;
  pr_feasibility_score : option Q;
  pr_total_duration_months : option Z;
  pr_status : string
}.

(** [path_name: str = Field(..., min_length=1, max_length=200)] *)
Definition path_name_valid (path_name : option string) : bool :=
  match path_name with
  | Some v => (1 <=? char_length v) && (char_length v <=? 200)
  | None => false
  end.

(** [feasibility_score: Optional[float] = Field(None, ge=0.0, le=1.0)] *)
Definition feasibility_score_valid (feasibility_score : option Q) : bool :=
  match feasibility_score with
  | Some v => Qle_bool 0.0 v && Qle_bool v 1.0
  | None => true
  end.

(** [total_duration_months: Optional[int] = Field(None, ge=0)] *)
Definition total_duration_months_valid (months : option Z) : bool :=
  match months with
  | Some v => (0 <=? v)%Z
  | None => true
  end.

(** The fields of a row that fail the validation. *)
Definition validation_errors (orm : CareerPath) : nat :=
  (if path_name_valid (cp_path_name orm) then 0 else 1)
  + (if feasibility_score_valid (cp_feasibility_score orm) then 0 else 1)
  + (if total_duration_months_valid (cp_total_duration_months orm)
     then 0 else 1).

(** The [ValidationError] of pydantic (not the application's exception of
    that name); of its message, the first line. *)
Definition response_validation_error (errors : nat) : Exn :=
  mkExn "pydantic.ValidationError"
    (pretty errors
     +:+ (if errors =? 1 then " validation error"
          else " validation errors")
     +:+ " for CareerPathResponse").

(** [CareerPathMapper.orm_to_response(orm)], that is
    [CareerPathResponse.model_validate(orm)]. *)
Definition orm_to_response (orm : CareerPath) : Result CareerPathResponse :=
  match cp_path_name orm with
  | Some path_name =>
      if validation_errors orm =? 0
      then Ok (mkPathResponse (cp_id orm) (cp_user_id orm)
                 (Some (cp_skills_assessment_id orm)) path_name
                 (cp_recommended orm) (cp_feasibility_score orm)
                 (cp_total_duration_months orm) (cp_status orm))
      else Raise (response_validation_error (validation_errors orm))
  | None => Raise (response_validation_error (validation_errors orm))
  end.

(** [[CareerPathMapper.orm_to_response(path) for path in created_paths]] *)
Fixpoint orms_to_responses (orms : list CareerPath)
  : Result (list CareerPathResponse) :=
  match orms with
  | [] => Ok []
  | orm :: rest =>
      match orm_to_response orm with
      | Raise e => Raise e
      | Ok response =>
          match orms_to_responses rest with
          | Raise e => Raise e
          | Ok responses => Ok (response :: responses)
          end
      end
  end.

Definition with_outcome (log : AICallsLog) (career_path_id : option UUID)
  (status : string) (response : option Payload) (error : option string)
  (latency_ms : option Z) : AICallsLog :=
  mkAICallsLog (log_id log) (log_service_name log) (log_user_id log)
    (log_evaluation_cycle_id log) (log_skills_assessment_id log)
    career_path_id (log_request_payload log) response status error latency_ms.

(** [CareerPathService.generate_career_paths], lines 135-300: the call of
    the external service, the audit of a failure, the persistence of a
    response. *)
Definition ingest_career_paths
  (ai_call : CareerRequest -> Result CareerPathsResponse) (latency_ms : Z)
  (user_id assessment_id : UUID) (request_payload : CareerRequest)
  (created_log : AICallsLog) : M (list CareerPathResponse) :=
  match ai_call request_payload with
  | Raise e =>
      ai_calls_log_update
        (with_outcome created_log (log_career_path_id created_log)
           "error" (log_response_payload created_log)
           (Some (exn_msg e)) (log_latency_ms created_log)) ;;;
      commit ;;;
      raise (service_error
               ("AI Career Path service failed: " +:+ exn_msg e))
  | Ok ai_response =>
      created_paths <-
        persist_paths user_id assessment_id (generated_paths ai_response) ;;
      let career_path_id :=
        match created_paths with
        | first :: _ => Some (cp_id first)
        | [] => log_career_path_id created_log
        end in
      ai_calls_log_update
        (with_outcome created_log career_path_id "success"
           (Some (CareerResponsePayload ai_response))
           (log_error_message created_log) (Some latency_ms)) ;;;
      commit ;;;
      lift (orms_to_responses created_paths)
  end.

(** [CareerPathService.generate_career_paths], lines 44-133 and the call
    of the part above. [ai_call] is [AICareerClient.generate_career_paths]
    as this request meets it: the response, or the exception it raises;
    [latency_ms] is the measured duration of the call. *)
Definition generate_career_paths
  (ai_call : CareerRequest -> Result CareerPathsResponse) (latency_ms : Z)
  (user_id : UUID) (skills_assessment_id : option UUID)
  (career_interests : option (list string)) (time_horizon_years : Z)
  : M (list CareerPathResponse) :=
  user <- users_get_by_id user_id ;;
  match user with
  | None => raise (not_found ("User " +:+ pretty user_id +:+ " not found"))
  | Some user =>
      assessment <-
        match skills_assessment_id with
        | Some assessment_id =>
            found <- skills_assessments_get_by_id assessment_id ;;
            match found with
            | Some a => ret a
            | None =>
                raise (not_found ("Skills assessment " +:+ pretty assessment_id
                                  +:+ " not found"))
            end
        | None =>
            found <- skills_assessments_get_latest_by_user_id user_id ;;
            match found with
            | Some a => ret a
            | None =>
                raise (not_found
                         ("No skills assessment found for user "
                          +:+ pretty user_id
                          +:+ ". Please complete 360° evaluation and skills "
                          +:+ "assessment first."))
            end
        end ;;
      current_position <-
        match u_role_id user with
        | Some role_id =>
            role <- roles_get_by_id role_id ;;
            ret (match role with Some r => r_name r | None => "Unknown" end)
        | None => ret "Unknown"
        end ;;
      organization_structure <- roles_get_all_active 1000 ;;
      let request_payload :=
        mkCareerRequest user_id (sa_id assessment) current_position
          (default [] career_interests) time_horizon_years
          organization_structure in
      new_log_id <- uuid4 ;;
      created_log <-
        ai_calls_log_create
          (mkAICallsLog new_log_id "career_paths" (Some user_id)
             (sa_evaluation_cycle_id assessment) (Some (sa_id assessment))
             None (CareerRequestPayload request_payload) None "pending" None
             None) ;;
      commit ;;;
      ingest_career_paths ai_call latency_ms user_id (sa_id assessment)
        request_payload created_log
  end.

(** [CareerPathService.accept_path] *)
Definition accept_path (path_id user_id : UUID) : M CareerPathResponse :=
  path <- career_paths_get_by_id path_id ;;
  match path with
  | None =>
      raise (not_found ("Career path " +:+ pretty path_id +:+ " not found"))
  | Some path =>
      if negb (Nat.eqb (cp_user_id path) user_id)
      then raise (mkExn "ValidationError" "Career path does not belong to user")
      else if negb (String.eqb (cp_status path) "proposed")
      then raise (mkExn "ConflictError" "Only proposed paths can be accepted")
      else
        accepted_path <- repo_accept_path path_id user_id ;;
        match accepted_path with
        | None =>
            raise (not_found ("Career path " +:+ pretty path_id
                              +:+ " not found or doesn't belong to user "
                              +:+ pretty user_id))
        | Some accepted_path =>
            commit ;;; lift (orm_to_response accepted_path)
        end
  end.

(** *** Aggregation writer ([app/services/evaluation_service.py]) *)

Definition of_pair (user_id cycle_id : UUID) (row : UserSkillScore) : bool :=
  Nat.eqb (uss_user_id row) user_id
  && Nat.eqb (uss_evaluation_cycle_id row) cycle_id.

(** [UserSkillScoreRepository.delete_by_user_and_cycle] (no [source]
    filter); returns the number of rows deleted. *)
Definition user_skill_scores_delete_by_user_and_cycle (user_id cycle_id : UUID)
  : M nat :=
  rows <- read user_skill_scores ;;
  write (fun db =>
           set_user_skill_scores
             (List.filter (fun row => negb (of_pair user_id cycle_id row))
                (user_skill_scores db)) db) ;;;
  ret (length (List.filter (of_pair user_id cycle_id) rows)).

(** [UserSkillScoreRepository.create_bulk] *)
Definition user_skill_scores_create_bulk (scores : list UserSkillScore)
  : M (list UserSkillScore) :=
  write (fun db =>
           set_user_skill_scores (user_skill_scores db ++ scores) db) ;;;
  ret scores.

(** The [for skill_id, stats in aggregated.items()] loop. *)
Fixpoint new_scores_of (user_id cycle_id : UUID)
  (aggregated : list (UUID * SkillStats)) : M (list UserSkillScore) :=
  match aggregated with
  | [] => ret []
  | (skill_id, stats) :: rest =>
      row_id <- uuid4 ;;
      more <- new_scores_of user_id cycle_id rest ;;
      ret (mkUserSkillScore row_id user_id cycle_id skill_id "360_aggregated"
             (overall_avg stats) (confidence stats) (raw_stats stats) :: more)
  end.

(** The query of lines 240-255. *)
Definition submitted_for (user_id cycle_id : UUID) (e : EvaluationEntity)
  : bool :=
  Nat.eqb (EvaluationLogic.user_id e) user_id
  && Nat.eqb (evaluation_cycle_id e) cycle_id
  && String.eqb (status e) "submitted".

(** [EvaluationService._aggregate_user_skill_scores] *)
Definition _aggregate_user_skill_scores (user_id cycle_id : UUID) : M unit :=
  rows <- read evaluations ;;
  let evaluations := List.filter (submitted_for user_id cycle_id) rows in
  aggregated <- lift (aggregate_competency_scores evaluations) ;;
  deleted_count <- user_skill_scores_delete_by_user_and_cycle user_id cycle_id ;;
  new_scores <- new_scores_of user_id cycle_id aggregated ;;
  match new_scores with
  | [] => ret tt
  | _ :: _ => user_skill_scores_create_bulk new_scores ;;; ret tt
  end.

Definition evaluations_get_by_id (evaluation_id : UUID)
  : M (option EvaluationEntity) :=
  rows <- read evaluations ;;
  lift (scalar_one_or_none
          (List.filter (fun e => Nat.eqb (EvaluationLogic.id e) evaluation_id)
             rows)).

Definition evaluations_get_by_user_and_cycle (user_id cycle_id : UUID)
  : M (list EvaluationEntity) :=
  rows <- read evaluations ;;
  ret (List.filter
         (fun e => Nat.eqb (EvaluationLogic.user_id e) user_id
                   && Nat.eqb (evaluation_cycle_id e) cycle_id) rows).

(** [EvaluationService.process_evaluation]; returns the user and the
    cycle of the processed evaluation. *)
Definition process_evaluation (evaluation_id : UUID) : M (UUID * UUID) :=
  evaluation <- evaluations_get_by_id evaluation_id ;;
  match evaluation with
  | None =>
      raise (not_found ("Evaluation " +:+ pretty evaluation_id
                        +:+ " not found"))
  | Some evaluation =>
      let user_id := EvaluationLogic.user_id evaluation in
      let cycle_id := evaluation_cycle_id evaluation in
      user_evaluations <- evaluations_get_by_user_and_cycle user_id cycle_id ;;
      match is_cycle_complete_for_user user_evaluations 2 0 with
      | (false, reason) =>
          raise (mkExn "ConflictError"
                   ("Cycle not complete for user. "
                    +:+ str_opt reason
                    +:+ ". Cannot proceed with AI processing."))
      | (true, _) =>
          _aggregate_user_skill_scores user_id cycle_id ;;;
          commit ;;;
          ret (user_id, cycle_id)
      end
  end.

(** A row without its generated primary key. *)
Definition row_content (row : UserSkillScore)
  : UUID * UUID * UUID * string * Q * Q * RawStats :=
  (uss_user_id row, uss_evaluation_cycle_id row, uss_skill_id row,
   uss_source row, uss_score row, uss_confidence row, uss_raw_stats row).

(** The content the aggregation writes for one skill. *)
Definition aggregated_content (user_id cycle_id : UUID)
  (entry : UUID * SkillStats) : UUID * UUID * UUID * string * Q * Q * RawStats :=
  (user_id, cycle_id, entry.1, "360_aggregated", overall_avg entry.2,
   confidence entry.2, raw_stats entry.2).

(** A session whose evaluations are those of the scenario (subject 10,
    cycle 20), with one stale score of that pair and one score of another
    pair. *)
Definition scenario_session : Session :=
  let stale_stats := raw_stats (skill_stats empty_scores) in
  let db :=
    mkDatabase [] [] [] scenario_evaluations
      [mkUserSkillScore 1 10 20 999 "360_aggregated" 5 0.5 stale_stats;
       mkUserSkillScore 2 11 20 100 "360_aggregated" 6 0.5 stale_stats]
      [] [] [] [] [] [] in
  mkSession db db 50 [].

(** *** Skills-assessment ingestion
    ([app/services/skills_assessment_service.py]) *)

(** Lines 298-305: the percentage is first divided by 1.0, then the name
    [normalized] is bound again to the percentage divided by 100.0. *)
Definition normalized_readiness (readiness_pct : option Q) : option Q :=
  let normalized :=
    match readiness_pct with
    | Some p => Some (p / 1.0)%Q
    | None => None
    end in
  let normalized :=
    match readiness_pct with
    | Some p => Some (p / 100.0)%Q
    | None => None
    end in
  normalized.

Definition strength_item (assessment_id item_id : UUID) (strength : StrengthData)
  : SkillsAssessmentItem :=
  mkAssessmentItem item_id assessment_id "strength" (str_skill strength)
    (str_score strength) None None None (str_evidence strength).

Definition growth_area_item (assessment_id item_id : UUID)
  (growth_area : GrowthAreaData) : SkillsAssessmentItem :=
  mkAssessmentItem item_id assessment_id "growth_area" (ga_skill growth_area)
    None (ga_gap_score growth_area) (ga_priority growth_area) None
    (Some ("Current: " +:+ str_opt (ga_current_level growth_area)
           +:+ ", Target: " +:+ str_opt (ga_target_level growth_area))).

Definition hidden_talent_item (assessment_id item_id : UUID)
  (talent : HiddenTalentData) : SkillsAssessmentItem :=
  mkAssessmentItem item_id assessment_id "hidden_talent" (ht_skill talent)
    (ht_potential_score talent) None None None (ht_evidence talent).

Definition role_readiness_item (assessment_id item_id : UUID)
  (readiness : ReadinessData) : SkillsAssessmentItem :=
  let readiness_pct := rd_readiness_percentage readiness in
  let normalized := normalized_readiness readiness_pct in
  mkAssessmentItem item_id assessment_id "role_readiness" (rd_role readiness)
    None None None normalized None.

(** One of the four [for ... : item = SkillsAssessmentItem(id=uuid4(), ...);
    items.append(item)] loops. *)
Fixpoint items_of {A} (make : UUID -> A -> SkillsAssessmentItem)
  (entries : list A) : M (list SkillsAssessmentItem) :=
  match entries with
  | [] => ret []
  | entry :: rest =>
      item_id <- uuid4 ;;
      more <- items_of make rest ;;
      ret (make item_id entry :: more)
  end.

Definition skills_assessments_create (assessment : SkillsAssessment)
  : M SkillsAssessment :=
  write (fun db =>
           set_skills_assessments (skills_assessments db ++ [assessment]) db) ;;;
  ret assessment.

Definition skills_assessment_items_create_bulk
  (items : list SkillsAssessmentItem) : M (list SkillsAssessmentItem) :=
  write (fun db =>
           set_skills_assessment_items (skills_assessment_items db ++ items)
             db) ;;;
  ret items.

(** [ORDER BY score DESC]: insertion of a row in a list sorted by
    falling score (rows of equal score in the order of the table, where
    the database may choose any). *)
Fixpoint insert_by_score (row : UserSkillScore) (sorted : list UserSkillScore)
  : list UserSkillScore :=
  match sorted with
  | [] => [row]
  | row1 :: rest =>
      if Qle_bool (uss_score row1) (uss_score row) then row :: sorted
      else row1 :: insert_by_score row rest
  end.

(** [UserSkillScoreRepository.get_by_user_and_cycle] *)
Definition user_skill_scores_get_by_user_and_cycle (user_id cycle_id : UUID)
  : M (list UserSkillScore) :=
  rows <- read user_skill_scores ;;
  ret (fold_right insert_by_score []
         (List.filter (of_pair user_id cycle_id) rows)).

(** Lines 244-320: the items of the four categories, in the order
    strengths, growth areas, hidden talents, role readiness. *)
Definition build_assessment_items (aid : UUID) (ai_response : AssessmentResponse)
  : M (list SkillsAssessmentItem) :=
  items1 <- items_of (strength_item aid) (strengths ai_response) ;;
  items2 <- items_of (growth_area_item aid) (growth_areas ai_response) ;;
  items3 <- items_of (hidden_talent_item aid) (hidden_talents ai_response) ;;
  items4 <- items_of (role_readiness_item aid)
              (readiness_for_roles ai_response) ;;
  ret (items1 ++ items2 ++ items3 ++ items4).

(** [SkillsAssessmentService.generate_assessment]. [ai_call] is the outcome
    of [AISkillsClient.assess_skills], [latency_ms] its measured duration,
    [now] the clock at [processed_at]. The content of the request payload
    (built from the skill scores by batch reads) is not modelled. *)
Definition generate_assessment (ai_call : Result AssessmentResponse)
  (latency_ms now : Z) (user_id cycle_id : UUID) : M SkillsAssessment :=
  user <- users_get_by_id user_id ;;
  match user with
  | None => raise (not_found ("User " +:+ pretty user_id +:+ " not found"))
  | Some user =>
      skill_scores <- user_skill_scores_get_by_user_and_cycle user_id cycle_id ;;
      match skill_scores with
      | [] =>
          raise (not_found
                   ("No skill scores found for user "
                    +:+ pretty user_id +:+ " in cycle " +:+ pretty cycle_id
                    +:+ ". Please ensure 360° evaluations have been "
                    +:+ "completed and aggregated."))
      | _ :: _ =>
          current_position <-
            match u_role_id user with
            | Some role_id =>
                role <- roles_get_by_id role_id ;;
                ret (match role with
                     | Some r => r_name r
                     | None => "Unknown"
                     end)
            | None => ret "Unknown"
            end ;;
          new_log_id <- uuid4 ;;
          created_log <-
            ai_calls_log_create
              (mkAICallsLog new_log_id "skills_assessment" (Some user_id)
                 (Some cycle_id) None None AssessmentRequestPayload None
                 "pending" None None) ;;
          commit ;;;
          match ai_call with
          | Raise e =>
              ai_calls_log_update
                (with_outcome created_log (log_career_path_id created_log)
                   "error" (log_response_payload created_log)
                   (Some (exn_msg e)) (log_latency_ms created_log)) ;;;
              commit ;;;
              raise (service_error
                       ("AI Skills Assessment service failed: " +:+ exn_msg e))
          | Ok ai_response =>
              assessment_id <- uuid4 ;;
              created_assessment <-
                skills_assessments_create
                  (mkAssessment assessment_id user_id (Some cycle_id)
                     "completed" now) ;;
              let aid := sa_id created_assessment in
              items <- build_assessment_items aid ai_response ;;
              match items with
              | [] => ret tt
              | _ :: _ => skills_assessment_items_create_bulk items ;;; ret tt
              end ;;;
              ai_calls_log_update
                (mkAICallsLog (log_id created_log)
                   (log_service_name created_log) (log_user_id created_log)
                   (log_evaluation_cycle_id created_log) (Some aid)
                   (log_career_path_id created_log)
                   (log_request_payload created_log)
                   (Some (AssessmentResponsePayload ai_response)) "success"
                   (log_error_message created_log) (Some latency_ms)) ;;;
              commit ;;;
              ret created_assessment
          end
      end
  end.

(** What an ingested readiness entry must look like. *)
Definition readiness_stored (entry : ReadinessData)
  (item : SkillsAssessmentItem) : Prop :=
  it_item_type item = "role_readiness" /\
  it_label item = rd_role entry /\
  it_readiness_percentage item
  = match rd_readiness_percentage entry with
    | Some p => Some (p / 100.0)%Q
    | None => None
    end.

Definition is_role_readiness (item : SkillsAssessmentItem) : bool :=
  String.eqb (it_item_type item) "role_readiness".

(** A response with one strength and two readiness entries, one of them
    without a percentage. *)
Definition demo_assessment_response : AssessmentResponse :=
  mkAssessmentResponse
    [mkStrengthData (Some "Liderazgo") (Some 8.5%Q) (Some "360")]
    [] []
    [mkReadinessData (Some "Gerente Regional") (Some 85%Q);
     mkReadinessData (Some "Director") None].

(** A session with a user and an aggregated score for cycle 20. *)
Definition demo_assessment_session : Session :=
  let db :=
    mkDatabase [mkUser 10 None] [] [] []
      [mkUserSkillScore 1 10 20 100 "360_aggregated" 7.75 0.7
         (raw_stats (skill_stats empty_scores))]
      [] [] [] [] [] [] in
  mkSession db db 50 [].

(** *** What ingestion is to achieve *)

(** The database without its career-path tables. *)
Definition without_paths (db : Database) : Database :=
  set_development_actions [] (set_career_path_steps [] (set_career_paths [] db)).

(** [s1] is [s] with more career paths, steps and actions at the end of
    their tables, possibly more identifiers drawn, nothing else changed
    and nothing committed. *)
Definition extends (s s1 : Session) (paths : list CareerPath)
  (steps : list CareerPathStep) (actions : list DevelopmentAction) : Prop :=
  committed s1 = committed s /\ commits s1 = commits s /\
  next_uuid s <= next_uuid s1 /\
  without_paths (working s1) = without_paths (working s) /\
  career_paths (working s1) = career_paths (working s) ++ paths /\
  career_path_steps (working s1) = career_path_steps (working s) ++ steps /\
  development_actions (working s1) = development_actions (working s) ++ actions.

(** The action titles the response lists for a step. *)
Definition titles_of (step_data : StepData) : list string :=
  flat_map cd_development_actions (sd_required_competencies step_data).

(** *** What the tables admit ([app/db/models])

    The repositories flush after each insert, and a row that violates a
    constraint of its table makes the flush raise. The model's inserts do
    not check; the statements about ingestion are for responses whose rows
    the tables admit. *)

Definition int32 (z : Z) : bool :=
  (-2147483648 <=? z)%Z && (z <=? 2147483647)%Z.

Definition optional {A} (ok : A -> bool) (x : option A) : bool :=
  match x with
  | Some a => ok a
  | None => true
  end.

Definition within (lo hi q : Q) : bool := Qle_bool lo q && Qle_bool q hi.

(** [career_path_steps]: [step_number] is an [Integer] and not null,
    [duration_months] an [Integer]; [development_actions]: [title] is a
    [String(200)]. *)
Definition storable_step (step_data : StepData) : bool :=
  match sd_step_number step_data with
  | Some n => int32 n
  | None => false
  end
  && optional int32 (sd_duration_months step_data)
  && forallb (fun title => char_length title <=? 200) (titles_of step_data).

(** [career_paths]: [path_name] is a [String(200)] and not null,
    [feasibility_score] has [CHECK (feasibility_score >= 0 AND
    feasibility_score <= 1)], [total_duration_months] is an [Integer];
    [career_path_steps] has [UNIQUE (career_path_id, step_number)]. *)
Definition storable_path (path_data : PathData) : bool :=
  match pd_path_name path_data with
  | Some v => char_length v <=? 200
  | None => false
  end
  && optional (within 0 1) (pd_feasibility_score path_data)
  && optional int32 (pd_total_duration_months path_data)
  && forallb storable_step (pd_steps path_data)
  && bool_decide (NoDup (map sd_step_number (pd_steps path_data))).

(** What [CareerPathResponse] asks of a created path beyond its table:
    a name of at least one character and a duration that is not
    negative. *)
Definition presentable_path (path_data : PathData) : bool :=
  path_name_valid (pd_path_name path_data)
  && feasibility_score_valid (pd_feasibility_score path_data)
  && total_duration_months_valid (pd_total_duration_months path_data).

(** [skills_assessment_items]: [label] is a [String(150)], [priority] a
    [String(50)]; [score] and [gap_score] have [CHECK (... >= 0 AND ... <=
    10)], [readiness_percentage], stored as the percentage divided by 100,
    has [CHECK (... >= 0 AND ... <= 1)]. *)
Definition storable_label (label : option string) : bool :=
  optional (fun v => char_length v <=? 150) label.

Definition storable_assessment (response : AssessmentResponse) : bool :=
  forallb (fun e => storable_label (str_skill e)
                    && optional (within 0 10) (str_score e))
    (strengths response)
  && forallb (fun e => storable_label (ga_skill e)
                       && optional (within 0 10) (ga_gap_score e)
                       && optional (fun v => char_length v <=? 50)
                            (ga_priority e))
       (growth_areas response)
  && forallb (fun e => storable_label (ht_skill e)
                       && optional (within 0 10) (ht_potential_score e))
       (hidden_talents response)
  && forallb (fun e => storable_label (rd_role e)
                       && optional (within 0 100) (rd_readiness_percentage e))
       (readiness_for_roles response).

(** The same constraints, on a row of [skills_assessment_items]. *)
Definition item_admitted (item : SkillsAssessmentItem) : bool :=
  (char_length (it_item_type item) <=? 50)
  && storable_label (it_label item)
  && optional (within 0 10) (it_score item)
  && optional (within 0 10) (it_gap_score item)
  && optional (fun v => char_length v <=? 50) (it_priority item)
  && optional (within 0 1) (it_readiness_percentage item).

(** The step and the title of each action: one action per listed title of
    the step, in order. *)
Definition actions_match (step : CareerPathStep) (step_data : StepData)
  (actions : list DevelopmentAction) : Prop :=
  map (fun a => (da_career_path_step_id a, da_title a)) actions
  = map (fun t => (st_id step, t)) (titles_of step_data).

(** A persisted step of a path, as the response gives it. *)
Definition step_matches (path : CareerPath) (step_data : StepData)
  (step : CareerPathStep) : Prop :=
  st_career_path_id step = cp_id path /\
  st_step_number step = sd_step_number step_data /\
  st_duration_months step = sd_duration_months step_data.

(** A persisted path, as the response gives it. *)
Definition path_matches (user_id : UUID) (path_data : PathData)
  (path : CareerPath) : Prop :=
  cp_user_id path = user_id /\ cp_status path = "proposed" /\
  cp_path_name path = pd_path_name path_data /\
  cp_feasibility_score path = pd_feasibility_score path_data /\
  cp_total_duration_months path = pd_total_duration_months path_data.

(** Names are unique in the catalogues ([unique=True] columns). *)
Definition unique_names (db : Database) : Prop :=
  NoDup (map r_name (roles db)) /\ NoDup (map s_name (skills db)).

(** [s1] differs from [s] by identifiers drawn at most. *)
Definition same_data (s s1 : Session) : Prop :=
  committed s1 = committed s /\ working s1 = working s /\
  commits s1 = commits s /\ next_uuid s <= next_uuid s1.

(** The assessment the request is based on: the one asked for, or the
    latest completed one of the user. *)
Definition assessment_selected (db : Database) (user_id : UUID)
  (skills_assessment_id : option UUID) (assessment : SkillsAssessment) : Prop :=
  match skills_assessment_id with
  | Some assessment_id =>
      List.filter (fun a => Nat.eqb (sa_id a) assessment_id)
        (skills_assessments db) = [assessment]
  | None =>
      latest_assessment
        (List.filter
           (fun a => Nat.eqb (sa_user_id a) user_id
                     && String.eqb (sa_status a) "completed")
           (skills_assessments db)) = Some assessment
  end.

(** At most one role row has the identifier of the user's role. *)
Definition role_lookup_ok (db : Database) (user : User) : Prop :=
  match u_role_id user with
  | Some role_id =>
      length (List.filter (fun r => Nat.eqb (r_id r) role_id) (roles db)) <= 1
  | None => True
  end.

(** The audit row written before the call. *)
Definition pending_log (log_id : UUID) (user_id : UUID)
  (assessment : SkillsAssessment) (request_payload : CareerRequest)
  : AICallsLog :=
  mkAICallsLog log_id "career_paths" (Some user_id)
    (sa_evaluation_cycle_id assessment) (Some (sa_id assessment)) None
    (CareerRequestPayload request_payload) None "pending" None None.

(** A step row of [path] with number [n]. *)
Definition numbered (path : CareerPath) (n : Z) (step : CareerPathStep)
  : Prop :=
  st_career_path_id step = cp_id path /\ st_step_number step = Some n.

(** [db1] has the career-path tables of [db]. *)
Definition same_path_tables (db db1 : Database) : Prop :=
  career_paths db1 = career_paths db /\
  career_path_steps db1 = career_path_steps db /\
  development_actions db1 = development_actions db.

(** *** What the accept-path transition is to achieve *)

(** The transition as the specification words it: the accepted path
    becomes "accepted"; every other path of the subject that is proposed
    or accepted becomes "discarded"; nothing else changes. *)
Definition accepted_transition (path_id user_id : UUID) (row : CareerPath)
  : CareerPath :=
  if Nat.eqb (cp_id row) path_id then with_status row "accepted"
  else if Nat.eqb (cp_user_id row) user_id
          && (String.eqb (cp_status row) "proposed"
              || String.eqb (cp_status row) "accepted")
  then with_status row "discarded"
  else row.

(** The accepted paths of a subject. *)
Definition accepted_of (user_id : UUID) (paths : list CareerPath)
  : list CareerPath :=
  List.filter
    (fun p => Nat.eqb (cp_user_id p) user_id
              && String.eqb (cp_status p) "accepted") paths.

(** No subject owns two accepted paths. *)
Definition one_accepted_per_user (paths : list CareerPath) : Prop :=
  forall user_id, length (accepted_of user_id paths) <= 1.

(** The working state, the committed state and every state committed so
    far have at most one accepted path per subject. *)
Definition session_inv (s : Session) : Prop :=
  one_accepted_per_user (career_paths (working s)) /\
  one_accepted_per_user (career_paths (committed s)) /\
  Forall (fun db => one_accepted_per_user (career_paths db)) (commits s).

(** Code that keeps [session_inv], whether it returns or raises. *)
Definition preserves {A} (m : M A) : Prop :=
  forall s, session_inv s -> session_inv (m s).2.

(** The operations that write career paths. *)
Inductive Operation :=
| Generate (ai_call : CareerRequest -> Result CareerPathsResponse)
    (latency_ms : Z) (user_id : UUID) (skills_assessment_id : option UUID)
    (career_interests : option (list string)) (time_horizon_years : Z)
| Accept (path_id user_id : UUID).

Definition run_operation (op : Operation) (s : Session) : Session :=
  match op with
  | Generate ai_call latency_ms user_id assessment interests horizon =>
      (request (generate_career_paths ai_call latency_ms user_id assessment
                  interests horizon) s).2
  | Accept path_id user_id => (request (accept_path path_id user_id) s).2
  end.

(** Sessions reachable from a database without career paths. *)
Inductive reachable_session : Session -> Prop :=
| reach_start db uuids :
    career_paths db = [] ->
    reachable_session (mkSession db db uuids [db])
| reach_operation s op :
    reachable_session s -> reachable_session (run_operation op s).

(** [AICareerClient._get_dummy_career_paths]: the generated paths of the
    dummy response (two paths of two steps each). *)
Definition dummy_career_paths : CareerPathsResponse :=
  mkCareerPathsResponse
    [ mkPathData (Some "Ruta de Liderazgo Regional") (Some true) (Some 0.85%Q)
        (Some 24%Z)
        [ mkStepData (Some 1%Z) (Some "Gerente de Sucursal Senior") (Some 12%Z)
            [ mkCompetencyData (Some "Pensamiento Estratégico")
                [ "Curso: Estrategia de Negocios Avanzada";
                  "Proyecto: Plan estratégico para sucursal";
                  "Mentoría con Gerente Regional" ] ];
          mkStepData (Some 2%Z) (Some "Gerente Regional") (Some 12%Z)
            [ mkCompetencyData (Some "Gestión de P&L")
                [ "Certificación: Finanzas para Managers";
                  "Shadowing: Director Financiero";
                  "Proyecto: Análisis de rentabilidad regional" ] ] ];
      mkPathData (Some "Ruta de Especialización en Operaciones") (Some false)
        (Some 0.72%Q) (Some 18%Z)
        [ mkStepData (Some 1%Z) (Some "Especialista Senior en Operaciones")
            (Some 9%Z)
            [ mkCompetencyData (Some "Optimización de Procesos")
                [ "Curso: Lean Six Sigma";
                  "Proyecto: Mejora de procesos en sucursal" ] ];
          mkStepData (Some 2%Z) (Some "Gerente de Operaciones") (Some 9%Z)
            [ mkCompetencyData (Some "Gestión de Proyectos")
                [ "Certificación: Project Management Professional (PMP)";
                  "Shadowing: Director de Operaciones" ] ] ] ].

(** A small database: one user with a role and a completed assessment, two
    roles, one skill, no career path yet. *)
Definition demo_database : Database :=
  mkDatabase
    [mkUser 1 (Some 2)]
    [mkRole 2 "Gerente de Sucursal" None None true;
     mkRole 3 "Gerente Regional" None None true]
    [mkSkill 4 "Pensamiento Estratégico"]
    [] []
    [mkAssessment 5 1 (Some 6) "completed" 0]
    [] [] [] [] [].

Definition demo_session : Session := mkSession demo_database demo_database 100 [].

(** The demo session after the dummy response has been ingested. *)
Definition demo_generated : Session :=
  (request (generate_career_paths (fun _ => Ok dummy_career_paths) 42 1 None
              None 3) demo_session).2.

(** The external service as the demo request meets it: answering with the
    dummy response, or timing out. *)
Definition answering : CareerRequest -> Result CareerPathsResponse :=
  fun _ => Ok dummy_career_paths.

Definition timing_out : CareerRequest -> Result CareerPathsResponse :=
  fun _ => Raise (mkExn "TimeoutError" "AI service timed out").

(** The external service answering with one path whose name is empty: the
    table admits it, the response schema ([min_length=1]) does not. *)
Definition nameless : CareerRequest -> Result CareerPathsResponse :=
  fun _ => Ok (mkCareerPathsResponse
                 [mkPathData (Some EmptyString) None None None []]).

Definition demo_first_path : CareerPath :=
  mkCareerPath 101 1 5 (Some "Ruta de Liderazgo Regional") true (Some 0.85%Q)
    (Some 24%Z) "proposed".

End Persistence.

(** ** The AI clients
    ([app/integrations/ai_career_client.py],
    [app/integrations/ai_skills_client.py]) *)

Module Clients.
Import Resilience.

(** The exception [with_retry] ends in when its wrapper is called with a
    positional argument. *)
Definition retry_type_error : Exn :=
  mkExn "TypeError"
    "retry_with_backoff() got multiple values for argument 'max_retries'".

(** [AISkillsClient._call_production_api]: decorated as the career client's
    method is; the call passes its arguments by keyword, so [self] is the
    one positional argument the wrappers receive. *)
Definition AISkillsClient_call_production_api {T} (cb : CircuitBreaker)
  (max_retries : Z) (initial_delay : Q) (http_post : Computation T) (w : World)
  : Result T * CircuitBreaker * World :=
  protected_call cb max_retries initial_delay http_post 1 w.

(** [AICareerClient.generate_career_paths]: the dummy response after half
    a second in dummy mode, the protected production call otherwise.
    [dummy] is what [_get_dummy_career_paths] builds. *)
Definition AICareerClient_generate_career_paths {T} (use_ai_dummy_mode : bool)
  (dummy : T) (cb : CircuitBreaker) (max_retries : Z) (initial_delay : Q)
  (http_post : Computation T) (w : World)
  : Result T * CircuitBreaker * World :=
  if use_ai_dummy_mode then (Ok dummy, cb, sleep 0.5%Q w)
  else _call_production_api cb max_retries initial_delay http_post w.

(** [AISkillsClient.assess_skills]: the same switch, with a sleep of one
    second. *)
Definition AISkillsClient_assess_skills {T} (use_ai_dummy_mode : bool)
  (dummy : T) (cb : CircuitBreaker) (max_retries : Z) (initial_delay : Q)
  (http_post : Computation T) (w : World)
  : Result T * CircuitBreaker * World :=
  if use_ai_dummy_mode then (Ok dummy, cb, sleep 1.0%Q w)
  else AISkillsClient_call_production_api cb max_retries initial_delay
         http_post w.



(** The breaker after [n] counted failures, the last one at time [now]. *)
Definition failed_breaker (threshold : Z) (tmo : Q) (nm : string) (n : nat)
  (now : Q) : CircuitBreaker :=
  mkBreaker threshold tmo nm (Z.of_nat n)
    (match n with O => None | S _ => Some now end)
    (if (threshold <=? Z.of_nat n)%Z then OPEN else CLOSED).

(** The exception a production call ends in, whatever the request: the
    rejection of an open circuit, or the [TypeError] of the retry
    wrapper. *)
Definition production_exn (cb : CircuitBreaker) (w : World) : Exn :=
  match admit_call cb w with
  | inr e => e
  | inl _ => retry_type_error
  end.

End Clients.

(** ** Domain entities and mappers
    ([app/domain/entities], [app/schemas/mappers]) *)

Module Entities.
Import EvaluationLogic.

Definition value_error (msg : string) : Exn := mkExn "ValueError" msg.

(** [lo <= x <= hi] *)
Definition between (lo hi x : Q) : bool := Qle_bool lo x && Qle_bool x hi.

(** [max(a, b)] of Python: [b] when it is greater, [a] otherwise. *)
Definition py_max (a b : Q) : Q := if Qle_bool b a then a else b.

(** *** [app/domain/entities/evaluation.py] *)

(** [CompetencyScore.is_high_score], [CompetencyScore.is_low_score] *)
Definition is_high_score (cs : CompetencyScore) : bool :=
  Qle_bool 8.0 (score cs).

Definition is_low_score (cs : CompetencyScore) : bool :=
  Qle_bool (score cs) 5.0.

Definition is_pending (e : EvaluationEntity) : bool :=
  String.eqb (status e) "pending".

(** [EvaluationEntity.has_competency] *)
Definition has_competency (e : EvaluationEntity) (skill : UUID) : bool :=
  existsb (fun cs => Nat.eqb (skill_id cs) skill) (competency_scores e).

(** [EvaluationEntity.get_competency_score] *)
Definition get_competency_score (e : EvaluationEntity) (skill : UUID)
  : option CompetencyScore :=
  List.find (fun cs => Nat.eqb (skill_id cs) skill) (competency_scores e).

(** [EvaluationEntity.average_score] *)
Definition average_score (e : EvaluationEntity) : Q :=
  match competency_scores e with
  | [] => 0.0%Q
  | _ :: _ =>
      (Qsum (map score (competency_scores e))
       / Qlen (map score (competency_scores e)))%Q
  end.

Definition is_self_evaluation (e : EvaluationEntity) : bool :=
  String.eqb (evaluator_relationship e) "self".

Definition is_peer_evaluation (e : EvaluationEntity) : bool :=
  String.eqb (evaluator_relationship e) "peer".

Definition is_manager_evaluation (e : EvaluationEntity) : bool :=
  String.eqb (evaluator_relationship e) "manager".

Definition is_direct_report_evaluation (e : EvaluationEntity) : bool :=
  String.eqb (evaluator_relationship e) "direct_report".

(** *** [app/domain/entities/skill_profile.py] *)

Record UserSkillScore := mkSkillScore {
  v_skill_id : UUID;
  v_score : Q;
  v_confidence : Q;
  v_source : string;
  v_raw_stats : RawStats
}.

Definition is_high_confidence (s : UserSkillScore) : bool :=
  Qle_bool 0.8 (v_confidence s).

Definition is_strong_skill (s : UserSkillScore) : bool :=
  Qle_bool 8.0 (v_score s) && is_high_confidence s.

(** [self.score < 6.0] *)
Definition needs_development (s : UserSkillScore) : bool :=
  negb (Qle_bool 6.0 (v_score s)).

Record SkillProfile := mkProfile {
  sp_user_id : UUID;
  sp_cycle_id : UUID;
  sp_skills : list UserSkillScore
}.

Definition get_skill_score (p : SkillProfile) (skill : UUID)
  : option UserSkillScore :=
  List.find (fun s => Nat.eqb (v_skill_id s) skill) (sp_skills p).

Definition has_skill (p : SkillProfile) (skill : UUID) : bool :=
  existsb (fun s => Nat.eqb (v_skill_id s) skill) (sp_skills p).

Definition profile_average_score (p : SkillProfile) : Q :=
  match sp_skills p with
  | [] => 0.0%Q
  | _ :: _ =>
      (Qsum (map v_score (sp_skills p)) / Qlen (map v_score (sp_skills p)))%Q
  end.

Definition average_confidence (p : SkillProfile) : Q :=
  match sp_skills p with
  | [] => 0.0%Q
  | _ :: _ =>
      (Qsum (map v_confidence (sp_skills p))
       / Qlen (map v_confidence (sp_skills p)))%Q
  end.

(** [get_strengths(threshold=8.0)]: [s.score >= threshold] *)
Definition get_strengths (p : SkillProfile) (threshold : Q)
  : list UserSkillScore :=
  List.filter (fun s => Qle_bool threshold (v_score s)) (sp_skills p).

(** [get_development_areas(threshold=6.0)]: [s.score < threshold] *)
Definition get_development_areas (p : SkillProfile) (threshold : Q)
  : list UserSkillScore :=
  List.filter (fun s => negb (Qle_bool threshold (v_score s))) (sp_skills p).

Definition get_high_confidence_skills (p : SkillProfile)
  : list UserSkillScore :=
  List.filter is_high_confidence (sp_skills p).

(** [SkillProfile.skill_gap] *)
Definition skill_gap (p : SkillProfile) (skill : UUID) (target_level : Q)
  : option Q :=
  match get_skill_score p skill with
  | None => None
  | Some s => Some (py_max 0.0 (target_level - v_score s))
  end.

(** *** Rows as the mappers read them
    ([app/db/models/evaluation]) *)

Record CompetencyScoreORM := mkScoreORM {
  cso_skill_id : UUID;
  cso_score : Q;
  cso_comments : option string
}.

Record EvaluationORM := mkEvaluationORM {
  eo_id : UUID;
  eo_user_id : UUID;
  eo_evaluation_cycle_id : UUID;
  eo_evaluator_id : UUID;
  eo_evaluator_relationship : string;
  eo_status : string;
  eo_competency_scores : list CompetencyScoreORM
}.

Section Constructors.
(** How an f-string prints a float. *)
Context (float_repr : Q -> string).

(** [CompetencyScore(...)]: the constructor of the dataclass, followed by
    [__post_init__]. *)
Definition CompetencyScore_new (skill_id : UUID) (score : Q)
  (comments : option string) : Result CompetencyScore :=
  if negb (between 0.0 10.0 score)
  then Raise (value_error ("Score must be between 0 and 10, got "
                           +:+ float_repr score))
  else Ok (mkScore skill_id score comments).

(** [UserSkillScore(...)] of the domain, with its [__post_init__]. *)
Definition UserSkillScore_new (skill_id : UUID) (score confidence : Q)
  (source : string) (raw_stats : RawStats) : Result UserSkillScore :=
  if negb (between 0.0 10.0 score)
  then Raise (value_error ("Score must be between 0 and 10, got "
                           +:+ float_repr score))
  else if negb (between 0.0 1.0 confidence)
  then Raise (value_error ("Confidence must be between 0 and 1, got "
                           +:+ float_repr confidence))
  else Ok (mkSkillScore skill_id score confidence source raw_stats).

(** The list comprehension of [EvaluationMapper.orm_to_entity]. *)
Fixpoint scores_of_orm (rows : list CompetencyScoreORM)
  : Result (list CompetencyScore) :=
  match rows with
  | [] => Ok []
  | row :: rest =>
      match CompetencyScore_new (cso_skill_id row) (cso_score row)
              (cso_comments row) with
      | Raise e => Raise e
      | Ok cs =>
          match scores_of_orm rest with
          | Raise e => Raise e
          | Ok css => Ok (cs :: css)
          end
      end
  end.

(** [EvaluationMapper.orm_to_entity] *)
Definition orm_to_entity (orm : EvaluationORM) : Result EvaluationEntity :=
  match scores_of_orm (eo_competency_scores orm) with
  | Raise e => Raise e
  | Ok scores =>
      Ok (mkEvaluation (eo_id orm) (eo_user_id orm)
            (eo_evaluation_cycle_id orm) (eo_evaluator_id orm)
            (eo_evaluator_relationship orm) (eo_status orm) scores)
  end.

(** [EvaluationMapper.orms_to_entities] *)
Fixpoint orms_to_entities (orms : list EvaluationORM)
  : Result (list EvaluationEntity) :=
  match orms with
  | [] => Ok []
  | orm :: rest =>
      match orm_to_entity orm with
      | Raise e => Raise e
      | Ok entity =>
          match orms_to_entities rest with
          | Raise e => Raise e
          | Ok entities => Ok (entity :: entities)
          end
      end
  end.

End Constructors.

(** The entity a row stands for when its scores pass the validation. *)
Definition entity_of (orm : EvaluationORM) : EvaluationEntity :=
  mkEvaluation (eo_id orm) (eo_user_id orm) (eo_evaluation_cycle_id orm)
    (eo_evaluator_id orm) (eo_evaluator_relationship orm) (eo_status orm)
    (map (fun row => mkScore (cso_skill_id row) (cso_score row)
                       (cso_comments row))
       (eo_competency_scores orm)).

(** A score within the bounds of the data model. *)
Definition valid_score (x : Q) : Prop := (0 <= x <= 10)%Q.

Definition valid_scores (e : EvaluationEntity) : Prop :=
  Forall (fun cs => valid_score (score cs)) (competency_scores e).


(** A submitted evaluation with scores has one of the four relationship
    kinds. *)
Definition aggregable (e : EvaluationEntity) : Prop :=
  is_submitted e = true -> competency_scores e <> [] -> known_relationship e.

(** What [collect_scores] keeps true of its dictionary: each skill's
    dictionary has exactly the four relationship keys, holds a score, and
    holds only scores that satisfy [P]. *)
Definition store_inv (P : Q -> Prop)
  (scores_by_skill : list (UUID * gmap string (list Q))) : Prop :=
  forall skill by_rel,
    In (skill, by_rel) scores_by_skill ->
    (forall kind, is_Some (by_rel !! kind) <-> In kind relationship_kinds) /\
    (forall kind l, by_rel !! kind = Some l -> Forall P l) /\
    (exists kind l, by_rel !! kind = Some l /\ l <> []).

(** The scores of the submitted evaluations satisfy [P]. *)
Definition submitted_scores (P : Q -> Prop) (e : EvaluationEntity) : Prop :=
  is_submitted e = true -> Forall (fun cs => P (score cs)) (competency_scores e).

(** The values the aggregation may give to [confidence] for a skill. *)
Definition graded_confidence (c : Q) : Prop :=
  c = 0.9%Q \/ c = 0.7%Q \/ c = 0.5%Q.

Definition optional_valid (avg : option Q) : Prop :=
  match avg with
  | Some x => valid_score x
  | None => True
  end.

End Entities.

(** ** [app/schemas/mappers/skill_profile_mapper.py] *)

Module Mappers.
Import EvaluationLogic.

Section Repr.
(** How an f-string prints a float. *)
Context (float_repr : Q -> string).

(** [SkillProfileMapper.orm_to_skill_score]; [orm.confidence] is falsy
    when it is 0. *)
Definition orm_to_skill_score (orm : Persistence.UserSkillScore)
  : Result Entities.UserSkillScore :=
  Entities.UserSkillScore_new float_repr (Persistence.uss_skill_id orm)
    (Persistence.uss_score orm)
    (if Qeq_bool (Persistence.uss_confidence orm) 0 then 0.0%Q
     else Persistence.uss_confidence orm)
    (Persistence.uss_source orm) (Persistence.uss_raw_stats orm).

(** The list comprehension of [orms_to_profile]. *)
Fixpoint skill_scores_of (orms : list Persistence.UserSkillScore)
  : Result (list Entities.UserSkillScore) :=
  match orms with
  | [] => Ok []
  | orm :: rest =>
      match orm_to_skill_score orm with
      | Raise e => Raise e
      | Ok skill =>
          match skill_scores_of rest with
          | Raise e => Raise e
          | Ok skills => Ok (skill :: skills)
          end
      end
  end.

(** [SkillProfileMapper.orms_to_profile] *)
Definition orms_to_profile (orms : list Persistence.UserSkillScore)
  : Result Entities.SkillProfile :=
  match orms with
  | [] =>
      Raise (Entities.value_error
               "Cannot create profile from empty skill scores list")
  | first :: _ =>
      match skill_scores_of orms with
      | Raise e => Raise e
      | Ok skills =>
          Ok (Entities.mkProfile (Persistence.uss_user_id first)
                (Persistence.uss_evaluation_cycle_id first) skills)
      end
  end.

End Repr.

(** The check constraints of [user_skill_scores]. *)
Definition row_in_range (row : Persistence.UserSkillScore) : Prop :=
  (0 <= Persistence.uss_score row <= 10)%Q /\
  (0 <= Persistence.uss_confidence row <= 1)%Q.

End Mappers.

(** ** What the services are to achieve, continued *)

Module ServiceSpec.
Import EvaluationLogic Persistence.



Definition not_proposed : Exn :=
  mkExn "ConflictError" "Only proposed paths can be accepted".

(** The rows with a given primary key. *)
Definition paths_with_id (path_id : UUID) (s : Session) : list CareerPath :=
  List.filter (fun p => Nat.eqb (cp_id p) path_id) (career_paths (working s)).

(** The evaluations with a given primary key. *)
Definition evaluations_with_id (evaluation_id : UUID) (s : Session)
  : list EvaluationEntity :=
  List.filter (fun e => Nat.eqb (EvaluationLogic.id e) evaluation_id)
    (evaluations (working s)).

(** The evaluations of the subject and cycle of [evaluation]. *)
Definition evaluations_beside (evaluation : EvaluationEntity) (s : Session)
  : list EvaluationEntity :=
  List.filter
    (fun e => Nat.eqb (EvaluationLogic.user_id e)
                (EvaluationLogic.user_id evaluation)
              && Nat.eqb (evaluation_cycle_id e)
                   (evaluation_cycle_id evaluation))
    (evaluations (working s)).

Definition cycle_incomplete (reason : option string) : Exn :=
  mkExn "ConflictError"
    ("Cycle not complete for user. " +:+ str_opt reason
     +:+ ". Cannot proceed with AI processing.").

(** A computation that never commits. *)
Definition no_commit {A} (m : M A) : Prop :=
  forall s, committed (m s).2 = committed s /\ commits (m s).2 = commits s.

(** A computation that leaves the audit table as it is. *)
Definition keeps_audit {A} (m : M A) : Prop :=
  forall s, ai_calls_log (working (m s).2) = ai_calls_log (working s).

(** The users with a given primary key. *)
Definition users_with_id (user_id : UUID) (s : Session) : list User :=
  List.filter (fun u => Nat.eqb (u_id u) user_id) (users (working s)).

(** The status the audit row of a failed request is left with: the call
    itself failed, or the persistence after it did. *)
Definition failed_status (outcome : Result CareerPathsResponse) : string :=
  match outcome with
  | Raise _ => "error"
  | Ok _ => "pending"
  end.

(** Steps and listed action titles of a response. *)
Definition steps_in (paths : list PathData) : nat :=
  sum_list_with (fun pd => length (pd_steps pd)) paths.

Definition titles_in_steps (steps : list StepData) : nat :=
  sum_list_with (fun sd => length (titles_of sd)) steps.

Definition titles_in (paths : list PathData) : nat :=
  sum_list_with (fun pd => titles_in_steps (pd_steps pd)) paths.

(** The demo database with the role name "Gerente Regional" held twice
    (what the unique constraint of the catalogue excludes): looking that
    role up raises. *)
Definition clashing_database : Database :=
  mkDatabase
    [mkUser 1 (Some 2)]
    [mkRole 2 "Gerente de Sucursal" None None true;
     mkRole 3 "Gerente Regional" None None true;
     mkRole 7 "Gerente Regional" None None true]
    [mkSkill 4 "Pensamiento Estratégico"]
    [] []
    [mkAssessment 5 1 (Some 6) "completed" 0]
    [] [] [] [] [].

Definition clashing_session : Session :=
  mkSession clashing_database clashing_database 100 [].

(** The completed assessments of a user. *)
Definition completed_of (user_id : UUID) (s : Session)
  : list SkillsAssessment :=
  List.filter
    (fun a => Nat.eqb (sa_user_id a) user_id
              && String.eqb (sa_status a) "completed")
    (skills_assessments (working s)).

(** The item types and labels a response is to be stored with, in the
    order of the service. *)
Definition item_types (response : AssessmentResponse) : list string :=
  replicate (length (strengths response)) "strength"
  ++ replicate (length (growth_areas response)) "growth_area"
  ++ replicate (length (hidden_talents response)) "hidden_talent"
  ++ replicate (length (readiness_for_roles response)) "role_readiness".

Definition item_labels (response : AssessmentResponse)
  : list (option string) :=
  map str_skill (strengths response)
  ++ map ga_skill (growth_areas response)
  ++ map ht_skill (hidden_talents response)
  ++ map rd_role (readiness_for_roles response).

(** The readiness the items of a response are to be stored with. *)
Definition item_readiness (response : AssessmentResponse)
  : list (option Q) :=
  replicate (length (strengths response) + length (growth_areas response)
             + length (hidden_talents response)) None
  ++ map (fun entry => normalized_readiness (rd_readiness_percentage entry))
       (readiness_for_roles response).

(** The check constraint of [readiness_percentage]. *)
Definition readiness_in_range (stored : option Q) : Prop :=
  match stored with
  | Some q => (0 <= q <= 1)%Q
  | None => True
  end.

(** The skill scores of a subject in a cycle. *)
Definition scores_of_pair (user_id cycle_id : UUID) (s : Session)
  : list UserSkillScore :=
  List.filter (of_pair user_id cycle_id) (user_skill_scores (working s)).

(** A percentage on the external scale. *)
Definition percentage_in_range (entry : ReadinessData) : Prop :=
  match rd_readiness_percentage entry with
  | Some p => (0 <= p <= 100)%Q
  | None => True
  end.

End ServiceSpec.

(** * Theorems *)

Module ResilienceTheory.
Import Resilience.

Section Breaker.
Context {T : Type}.

Lemma behaves_true (f : Computation T) w :
  behaves f true -> exists v w1, f w = (Ok v, w1).
Proof.
  intros H. specialize (H w). destruct (f w) as [[v|e] w1]; simpl in H.
  - eauto.
  - discriminate.
Qed.

Lemma behaves_false (f : Computation T) w :
  behaves f false -> exists e w1, f w = (Raise e, w1).
Proof.
  intros H. specialize (H w). destruct (f w) as [[v|e] w1]; simpl in H.
  - discriminate.
  - eauto.
Qed.

Lemma call_closed_ok cb (f : Computation T) w v w1 :
  state cb = CLOSED -> f w = (Ok v, w1) -> call cb f w = (Ok v, cb, w1).
Proof.
  intros Hs Hf. unfold call, admit_call, guarded, on_success.
  rewrite Hs, Hf, Hs. reflexivity.
Qed.

Lemma call_closed_raise cb (f : Computation T) w e w1 :
  state cb = CLOSED -> f w = (Raise e, w1) ->
  call cb f w = (Raise e, on_failure cb (clock w1), w1).
Proof.
  intros Hs Hf. unfold call, admit_call, guarded. rewrite Hs, Hf. reflexivity.
Qed.

Lemma call_all_app cb (l1 l2 : list (Computation T)) w :
  call_all cb (l1 ++ l2) w =
  call_all (call_all cb l1 w).1 l2 (call_all cb l1 w).2.
Proof.
  revert cb w. induction l1 as [|f l1 IH]; intros cb w; simpl.
  - reflexivity.
  - destruct (call cb f w) as [[r cb1] w1]. apply IH.
Qed.

(** While fewer than [failure_threshold] failures have accumulated the
    breaker stays CLOSED and counts exactly the failures, successes in
    between notwithstanding. *)
Lemma closed_run (funcs : list (Computation T)) :
  forall outcomes cb w,
    Forall2 behaves funcs outcomes ->
    state cb = CLOSED ->
    (failure_count cb + Z.of_nat (count_failures outcomes)
     < failure_threshold cb)%Z ->
    let cb1 := (call_all cb funcs w).1 in
    state cb1 = CLOSED /\
    failure_count cb1
    = (failure_count cb + Z.of_nat (count_failures outcomes))%Z /\
    same_config cb cb1.
Proof.
  induction funcs as [|f funcs IH]; intros outcomes cb w HF Hs Hlt.
  - inversion HF; subst. simpl. unfold same_config.
    repeat split; try done. lia.
  - inversion HF as [|? b ? outs Hb HF']; subst. simpl.
    destruct b; simpl in Hlt.
    + destruct (behaves_true f w Hb) as (v & w1 & Hf).
      rewrite (call_closed_ok cb f w v w1 Hs Hf).
      apply IH; assumption.
    + destruct (behaves_false f w Hb) as (e & w1 & Hf).
      rewrite (call_closed_raise cb f w e w1 Hs Hf).
      assert (Hs1 : state (on_failure cb (clock w1)) = CLOSED).
      { unfold on_failure; simpl.
        destruct (Z.leb_spec (failure_threshold cb) (failure_count cb + 1));
          [lia | exact Hs]. }
      specialize (IH outs (on_failure cb (clock w1)) w1 HF' Hs1).
      simpl in IH. destruct IH as (H1 & H2 & H3); [lia|].
      unfold same_config in *. simpl in H3.
      repeat split; try tauto. rewrite H2. lia.
Qed.

(** One more failure, the one that reaches the threshold, opens it. *)
Lemma closed_run_then_open (funcs : list (Computation T)) outcomes f cb w :
  Forall2 behaves funcs outcomes ->
  behaves f false ->
  state cb = CLOSED ->
  (failure_count cb + Z.of_nat (count_failures outcomes)
   = failure_threshold cb - 1)%Z ->
  let end_ := call_all cb (funcs ++ [f]) w in
  state end_.1 = OPEN /\ failure_count end_.1 = failure_threshold cb /\
  last_failure_time end_.1 = Some (clock end_.2) /\ same_config cb end_.1.
Proof.
  intros HF Hf Hs Hc. rewrite call_all_app.
  pose proof (closed_run funcs outcomes cb w HF Hs ltac:(lia)) as (H1 & H2 & H3).
  destruct (call_all cb funcs w) as [cb1 w1]; simpl in *.
  destruct (behaves_false f w1 Hf) as (e & w2 & Hfw).
  rewrite (call_closed_raise cb1 f w1 e w2 H1 Hfw). simpl.
  destruct H3 as (Ht & Hto & Hn). rewrite Ht.
  destruct (Z.leb_spec (failure_threshold cb) (failure_count cb1 + 1)); [|lia].
  unfold same_config; simpl. repeat split; try assumption. lia.
Qed.

Lemma reachable_inv threshold tmo nm cb :
  reachable T threshold tmo nm cb -> breaker_inv threshold tmo nm cb.
Proof.
  induction 1 as [|cb func w r cb1 w1 Hr IH Hcall].
  - unfold breaker_inv; simpl. tauto.
  - destruct IH as (Ht & Hto & Hn & Hst).
    unfold call, admit_call in Hcall.
    destruct Hst as [Hc | (Ho & Hge & Hl)].
    + rewrite Hc in Hcall. unfold guarded in Hcall.
      destruct (func w) as [[v|e] w2]; inversion Hcall; subst; clear Hcall.
      * unfold on_success. rewrite Hc. unfold breaker_inv. tauto.
      * unfold breaker_inv, on_failure; simpl. repeat split.
        destruct (Z.leb_spec (failure_threshold cb) (failure_count cb + 1)).
        -- right. repeat split; [assumption | eauto].
        -- left. assumption.
    + rewrite Ho in Hcall.
      destruct (_should_attempt_reset cb w).
      * unfold guarded in Hcall.
        destruct (func w) as [[v|e] w2]; inversion Hcall; subst; clear Hcall.
        -- unfold breaker_inv, on_success; simpl. tauto.
        -- unfold breaker_inv, on_failure; simpl. repeat split.
           destruct (Z.leb_spec (failure_threshold cb) (failure_count cb + 1)).
           ++ right. repeat split; [lia | eauto].
           ++ lia.
      * inversion Hcall; subst. unfold breaker_inv. tauto.
Qed.

Lemma count_failures_replicate n : count_failures (replicate n false) = n.
Proof. induction n; simpl; congruence. Qed.

Lemma all_fail_outcomes (fs : list (Computation T)) :
  Forall (fun f => behaves f false) fs ->
  Forall2 behaves fs (replicate (length fs) false).
Proof. induction 1; simpl; constructor; assumption. Qed.

Lemma reject_before_timeout cb t (func : Computation T) w :
  state cb = OPEN -> last_failure_time cb = Some t ->
  (clock w - t < timeout cb)%Q ->
  call cb func w = (Raise (circuit_open_error cb), cb, w).
Proof.
  intros Hs Hl Hlt. unfold call, admit_call, _should_attempt_reset.
  rewrite Hs, Hl.
  destruct (Qle_bool (timeout cb) (clock w - t)) eqn:E; [|reflexivity].
  apply Qle_bool_iff in E. exfalso. exact (Qlt_not_le _ _ Hlt E).
Qed.

Lemma admit_after_timeout cb t w :
  state cb = OPEN -> last_failure_time cb = Some t ->
  (timeout cb <= clock w - t)%Q ->
  admit_call cb w = inl (set_state cb HALF_OPEN).
Proof.
  intros Hs Hl Hle. unfold admit_call, _should_attempt_reset.
  rewrite Hs, Hl. apply Qle_bool_iff in Hle. rewrite Hle. reflexivity.
Qed.

(** C2. Circuit breaker state machine. With a threshold of at least one:
    a fresh breaker that sees [failure_threshold] consecutive failing calls
    is OPEN, with that many failures counted and the time of the last one
    recorded. Every OPEN breaker that calls can produce has a last failure
    time [t]; a call made while [time.time() - t < timeout] raises the
    circuit-open error and leaves breaker and world untouched, whatever
    the wrapped function is (it is not run); a call made once
    [time.time() - t >= timeout] passes the gate in state HALF_OPEN and
    runs the function there: when it returns, the breaker is the freshly
    initialised one (counter 0, no failure time, CLOSED); when it raises,
    the counter is one higher, the failure time is the clock read after
    the failure and the breaker is OPEN again. *)
Theorem circuit_breaker_state_machine (threshold : Z) (tmo : Q) (nm : string) :
  (1 <= threshold)%Z ->
  (forall (fails : list (Computation T)) w0,
      length fails = Z.to_nat threshold ->
      Forall (fun f => behaves f false) fails ->
      let end_ := call_all (CircuitBreaker_init threshold tmo nm) fails w0 in
      state end_.1 = OPEN /\ failure_count end_.1 = threshold /\
      last_failure_time end_.1 = Some (clock end_.2)) /\
  (forall cb, reachable T threshold tmo nm cb -> state cb = OPEN ->
      exists t, last_failure_time cb = Some t /\
      (forall (func : Computation T) w, (clock w - t < tmo)%Q ->
          call cb func w = (Raise (circuit_open_error cb), cb, w)) /\
      (forall (func : Computation T) w, (tmo <= clock w - t)%Q ->
          admit_call cb w = inl (set_state cb HALF_OPEN) /\
          call cb func w = guarded (set_state cb HALF_OPEN) func w /\
          match func w with
          | (Ok v, w1) =>
              call cb func w
              = (Ok v, CircuitBreaker_init threshold tmo nm, w1)
          | (Raise e, w1) =>
              call cb func w
              = (Raise e,
                 mkBreaker threshold tmo nm (failure_count cb + 1)
                   (Some (clock w1)) OPEN,
                 w1)
          end)).
Proof.
  intros Hth. split.
  - intros fails w0 Hlen Hall.
    destruct (exists_last (l := fails)) as (front & f & ->).
    { intros ->. simpl in Hlen. lia. }
    apply Forall_app in Hall as [Hfront Hf].
    inversion Hf as [|? ? Hf' _]; subst.
    rewrite length_app in Hlen; simpl in Hlen.
    pose proof (closed_run_then_open front (replicate (length front) false) f
                  (CircuitBreaker_init threshold tmo nm) w0
                  (all_fail_outcomes front Hfront) Hf' eq_refl) as H.
    simpl in H. rewrite count_failures_replicate in H.
    destruct H as (H1 & H2 & H3 & _); [lia|]. auto.
  - intros cb Hreach Hopen.
    destruct (reachable_inv _ _ _ _ Hreach) as (Ht & Hto & Hn & Hst).
    destruct Hst as [Hc | (_ & Hge & [t Hl])]; [congruence|].
    exists t. split; [assumption|]. split.
    + intros func w Hlt. apply (reject_before_timeout cb t); try assumption.
      rewrite Hto. assumption.
    + intros func w Hle.
      assert (Hadm : admit_call cb w = inl (set_state cb HALF_OPEN)).
      { apply (admit_after_timeout cb t); try assumption.
        rewrite Hto. assumption. }
      split; [assumption|].
      assert (Hcall : call cb func w = guarded (set_state cb HALF_OPEN) func w).
      { unfold call. rewrite Hadm. reflexivity. }
      split; [assumption|].
      rewrite Hcall. unfold guarded.
      destruct (func w) as [[v|e] w1].
      * unfold on_success, CircuitBreaker_init; simpl. congruence.
      * unfold on_failure; simpl. rewrite Ht, Hto, Hn.
        destruct (Z.leb_spec threshold (failure_count cb + 1)); [|lia].
        reflexivity.
Qed.

(** C10. A call that succeeds while the breaker is CLOSED leaves the whole
    breaker, [failure_count] and [last_failure_time] included, as it was.
    A call changes the counter in two ways only: a failure adds one, and a
    success of a call that ran in state HALF_OPEN sets it to 0 (clearing
    the failure time and closing the circuit). So a fresh breaker is OPEN,
    with [failure_threshold] failures counted, as soon as that many calls
    have failed, however many successful calls came in between. *)
Theorem closed_success_keeps_failure_count (threshold : Z) (tmo : Q)
  (nm : string) :
  (forall cb (func : Computation T) w v w1,
      state cb = CLOSED -> func w = (Ok v, w1) ->
      call cb func w = (Ok v, cb, w1)) /\
  (forall cb (func : Computation T) w r cb1 w1,
      call cb func w = (r, cb1, w1) ->
      failure_count cb1 <> failure_count cb ->
      (exists e, r = Raise e /\
                 failure_count cb1 = (failure_count cb + 1)%Z) \/
      (exists v cbh, r = Ok v /\ admit_call cb w = inl cbh /\
                     state cbh = HALF_OPEN /\ failure_count cb1 = 0%Z /\
                     last_failure_time cb1 = None /\ state cb1 = CLOSED)) /\
  (forall (funcs : list (Computation T)) outcomes f w0,
      Forall2 behaves funcs outcomes -> behaves f false ->
      Z.of_nat (count_failures outcomes) = (threshold - 1)%Z ->
      let end_ :=
        call_all (CircuitBreaker_init threshold tmo nm) (funcs ++ [f]) w0 in
      state end_.1 = OPEN /\ failure_count end_.1 = threshold).
Proof.
  split; [|split].
  - intros cb func w v w1. apply call_closed_ok.
  - intros cb func w r cb1 w1 Hcall Hne.
    unfold call in Hcall.
    destruct (admit_call cb w) as [cbh|e] eqn:Hadm.
    + assert (Hcnt : failure_count cbh = failure_count cb).
      { unfold admit_call in Hadm.
        destruct (state cb); try (inversion Hadm; subst; reflexivity).
        destruct (_should_attempt_reset cb w); inversion Hadm; reflexivity. }
      unfold guarded in Hcall.
      destruct (func w) as [[v|e] w2]; inversion Hcall; subst; clear Hcall.
      * right. exists v, cbh. unfold on_success in *.
        destruct (state cbh) eqn:Hs; simpl in *; try congruence.
        repeat split; reflexivity.
      * left. exists e. simpl. split; [reflexivity | congruence].
    + inversion Hcall; subst. congruence.
  - intros funcs outcomes f w0 HF Hf Hc.
    pose proof (closed_run_then_open funcs outcomes f
                  (CircuitBreaker_init threshold tmo nm) w0 HF Hf eq_refl) as H.
    simpl in H. destruct H as (H1 & H2 & _); [lia|]. auto.
Qed.

End Breaker.

Lemma always_failing_behaves : behaves always_failing false.
Proof. intros w. reflexivity. Qed.

Lemma always_ok_behaves : behaves always_ok true.
Proof. intros w. reflexivity. Qed.

(** Two failures open a breaker of threshold 2
    ([test_circuit_breaker_opens_after_threshold]). *)
Lemma circuit_breaker_state_machine_witness :
  (1 <= 2)%Z /\
  let end_ :=
    call_all (CircuitBreaker_init 2 60 "test")
      [always_failing; always_failing] (mkWorld 0 []) in
  state end_.1 = OPEN /\ failure_count end_.1 = 2%Z /\
  last_failure_time end_.1 = Some (clock end_.2).
Proof.
  split; [lia|].
  apply (proj1 (circuit_breaker_state_machine (T:=nat) 2 60 "test"
                  ltac:(lia))).
  - reflexivity.
  - constructor; [apply always_failing_behaves|].
    constructor; [apply always_failing_behaves|]. constructor.
Defined.

(** Failure, success, failure: the breaker of threshold 2 is OPEN
    ([test_circuit_breaker_with_mixed_success_and_failures]). *)
Lemma closed_success_keeps_failure_count_witness :
  Forall2 behaves [always_failing; always_ok] [false; true] /\
  behaves always_failing false /\
  Z.of_nat (count_failures [false; true]) = (2 - 1)%Z /\
  let end_ :=
    call_all (CircuitBreaker_init 2 60 "test")
      ([always_failing; always_ok] ++ [always_failing]) (mkWorld 0 []) in
  state end_.1 = OPEN /\ failure_count end_.1 = 2%Z.
Proof.
  assert (H1 : Forall2 behaves [always_failing; always_ok] [false; true]).
  { constructor; [apply always_failing_behaves|].
    constructor; [apply always_ok_behaves|]. constructor. }
  split; [exact H1|]. split; [apply always_failing_behaves|].
  split; [reflexivity|].
  apply (proj2 (proj2 (closed_success_keeps_failure_count (T:=nat)
                         2 60 "test"))
           [always_failing; always_ok] [false; true] always_failing
           (mkWorld 0 []) H1 always_failing_behaves eq_refl).
Defined.

Section Retry.
Context {T : Type}.

Lemma calls_in_app tr1 tr2 : calls_in (tr1 ++ tr2) = calls_in tr1 + calls_in tr2.
Proof.
  induction tr1 as [|[|d] tr1 IH]; simpl; rewrite ?IH; reflexivity.
Qed.


Lemma calls_in_attempts delays :
  calls_in (attempts_trace delays) = S (length delays).
Proof. induction delays as [|d ds IH]; simpl; rewrite ?IH; reflexivity. Qed.


Lemma length_backoff_delays d b n : length (backoff_delays d b n) = n.
Proof. revert d. induction n; intros d; simpl; rewrite ?IHn; reflexivity. Qed.


Lemma scripted_step (script : nat -> Attempt T) w :
  scripted script w
  = (outcome (script (call_count w)),
     {| clock := (clock w + took (script (call_count w)))%Q;
        trace := trace w ++ [Invoke] |}).
Proof. reflexivity. Qed.

Lemma retry_loop_S (func : Computation T) max_attempts b r attempt delay
  last w :
  retry_loop func max_attempts b (S r) attempt delay last w
  = match func w with
    | (Ok v, w1) => (Ok v, w1)
    | (Raise e, w1) =>
        if (attempt <? max_attempts)%Z
        then retry_loop func max_attempts b r (attempt + 1)%Z
               (delay * b)%Q (Some e) (sleep delay w1)
        else retry_loop func max_attempts b r (attempt + 1)%Z delay
               (Some e) w1
    end.
Proof. simpl. destruct (func w) as [[v|e] w1]; reflexivity. Qed.

(** [k] failures, each with a retry left, then a success. *)
Lemma retry_loop_recovers (script : nat -> Attempt T) (errs : nat -> Exn)
  max_attempts b v k :
  forall remaining attempt delay last w,
    k < remaining ->
    (attempt + Z.of_nat k <= max_attempts)%Z ->
    (forall i, i < k -> outcome (script (call_count w + i)) = Raise (errs i)) ->
    outcome (script (call_count w + k)) = Ok v ->
    let res := retry_loop (scripted script) max_attempts b remaining attempt
                 delay last w in
    res.1 = Ok v /\
    trace res.2 = trace w ++ attempts_trace (backoff_delays delay b k).
Proof.
  revert errs. induction k as [|k IH];
    intros errs remaining attempt delay last w Hrem Hatt Hfail Hok.
  - destruct remaining as [|r]; [lia|].
    rewrite retry_loop_S, scripted_step.
    rewrite Nat.add_0_r in Hok. rewrite Hok.
    simpl. split; reflexivity.
  - destruct remaining as [|r]; [lia|].
    rewrite retry_loop_S, scripted_step.
    pose proof (Hfail 0 ltac:(lia)) as H0. rewrite Nat.add_0_r in H0.
    rewrite H0.
    destruct (Z.ltb_spec attempt max_attempts); [|lia].
    set (w2 := sleep delay _).
    assert (Hc : call_count w2 = S (call_count w)).
    { unfold w2, sleep, call_count; simpl.
      rewrite !calls_in_app; simpl. lia. }
    specialize (IH (fun i => errs (S i)) r (attempt + 1)%Z (delay * b)%Q
                  (Some (errs 0)) w2 ltac:(lia) ltac:(lia)).
    cbv zeta in IH. destruct IH as (H1 & H2).
    + intros i Hi. rewrite Hc.
      replace (S (call_count w) + i) with (call_count w + S i) by lia.
      apply Hfail. lia.
    + rewrite Hc.
      replace (S (call_count w) + k) with (call_count w + S k) by lia.
      exact Hok.
    + split; [exact H1|]. rewrite H2. unfold w2, sleep; simpl.
      rewrite <- !app_assoc. reflexivity.
Qed.

(** Every attempt of the loop fails: the exception of the last one comes
    out, after a sleep between any two attempts. *)
Lemma retry_loop_exhausted (script : nat -> Attempt T) max_attempts b r :
  forall (errs : nat -> Exn) attempt delay last w,
    (attempt + Z.of_nat r = max_attempts)%Z ->
    (forall i, i <= r -> outcome (script (call_count w + i)) = Raise (errs i)) ->
    let res := retry_loop (scripted script) max_attempts b (S r) attempt
                 delay last w in
    res.1 = Raise (errs r) /\
    trace res.2 = trace w ++ attempts_trace (backoff_delays delay b r).
Proof.
  induction r as [|r IH]; intros errs attempt delay last w Hatt Hfail.
  - rewrite retry_loop_S, scripted_step.
    pose proof (Hfail 0 ltac:(lia)) as H0. rewrite Nat.add_0_r in H0.
    rewrite H0.
    destruct (Z.ltb_spec attempt max_attempts); [lia|].
    simpl. split; reflexivity.
  - rewrite retry_loop_S, scripted_step.
    pose proof (Hfail 0 ltac:(lia)) as H0. rewrite Nat.add_0_r in H0.
    rewrite H0.
    destruct (Z.ltb_spec attempt max_attempts); [|lia].
    set (w2 := sleep delay _).
    assert (Hc : call_count w2 = S (call_count w)).
    { unfold w2, sleep, call_count; simpl.
      rewrite !calls_in_app; simpl. lia. }
    specialize (IH (fun i => errs (S i)) (attempt + 1)%Z (delay * b)%Q
                  (Some (errs 0)) w2 ltac:(lia)).
    cbv zeta in IH. destruct IH as (H1 & H2).
    + intros i Hi. rewrite Hc.
      replace (S (call_count w) + i) with (call_count w + S i) by lia.
      apply Hfail. lia.
    + split; [exact H1|]. rewrite H2. unfold w2, sleep; simpl.
      rewrite <- !app_assoc. reflexivity.
Qed.

(** All [max_retries + 1] attempts of [retry_with_backoff] fail: the last
    exception is raised, after that many invocations. *)
Lemma retry_with_backoff_exhausted (script : nat -> Attempt T)
  (errs : nat -> Exn) (max_retries : Z) (initial_delay backoff_factor : Q)
  (w : World) :
  (0 <= max_retries)%Z ->
  (forall i, i <= Z.to_nat max_retries ->
             outcome (script (call_count w + i)) = Raise (errs i)) ->
  let res := retry_with_backoff (scripted script) max_retries initial_delay
               backoff_factor w in
  res.1 = Raise (errs (Z.to_nat max_retries)) /\
  call_count res.2 = call_count w + Z.to_nat (max_retries + 1).
Proof.
  intros Hmax Hfail res.
  assert (Hn : Z.to_nat (max_retries + 1) = S (Z.to_nat max_retries)) by lia.
  pose proof (retry_loop_exhausted script (max_retries + 1) backoff_factor
                (Z.to_nat max_retries) errs 1%Z initial_delay None w
                ltac:(lia) Hfail) as (H1 & H2).
  rewrite <- Hn in H1, H2.
  fold (retry_with_backoff (scripted script) max_retries initial_delay
          backoff_factor w) in H1, H2. fold res in H1, H2.
  split; [exact H1|].
  unfold call_count. rewrite H2, calls_in_app, calls_in_attempts,
    length_backoff_delays. lia.
Qed.


(** C3, as the code has it. [with_retry] sits inside the breaker, so the
    breaker sees one exception per protected call: when every attempt of
    the wrapped function fails, a call the breaker admits raises, and the
    failure counter goes up by exactly 1, while the function was invoked
    [max_retries + 1] times (a call without positional arguments) or not
    at all (a call with positional arguments, which [with_retry] turns
    into a [TypeError]). *)
Theorem retry_inside_breaker_counts_once (script : nat -> Attempt T)
  (errs : nat -> Exn) (cb cbh : CircuitBreaker) (max_retries : Z)
  (initial_delay : Q) (nargs : nat) (w : World) :
  admit_call cb w = inl cbh ->
  (0 <= max_retries)%Z ->
  (forall n, outcome (script n) = Raise (errs n)) ->
  let res := protected_call cb max_retries initial_delay (scripted script)
               nargs w in
  is_ok res.1.1 = false /\
  failure_count res.1.2 = (failure_count cb + 1)%Z /\
  call_count res.2
  = call_count w
    + match nargs with O => Z.to_nat (max_retries + 1) | S _ => 0 end.
Proof.
  intros Hadm Hmax Hfail res.
  assert (Hcnt : failure_count cbh = failure_count cb).
  { unfold admit_call in Hadm.
    destruct (state cb); try (inversion Hadm; subst; reflexivity).
    destruct (_should_attempt_reset cb w); inversion Hadm; reflexivity. }
  unfold res, protected_call, call. rewrite Hadm. unfold guarded.
  destruct nargs as [|n]; simpl with_retry.
  - destruct (retry_with_backoff_exhausted script
                (fun i => errs (call_count w + i)) max_retries
                initial_delay 2 w Hmax) as (H1 & H2);
      [intros; apply Hfail|].
    destruct (retry_with_backoff (scripted script) max_retries initial_delay
                2 w) as [r w1]; simpl in *.
    subst r. simpl. rewrite Hcnt. auto.
  - simpl. rewrite Hcnt. repeat split; lia.
Qed.

End Retry.


(** The breaker admits the call, the wrapped function fails on all four
    attempts, the counter goes from 0 to 1. *)
Lemma retry_inside_breaker_counts_once_witness :
  admit_call (CircuitBreaker_init 5 60 "ai_career_service") (mkWorld 0 [])
  = inl (CircuitBreaker_init 5 60 "ai_career_service") /\
  (0 <= 3)%Z /\
  (forall n : nat, outcome (mkAttempt (T:=nat) (Raise timeout_error) 0)
                   = Raise timeout_error) /\
  let res := protected_call (CircuitBreaker_init 5 60 "ai_career_service")
               3 1 always_failing 0 (mkWorld 0 []) in
  is_ok res.1.1 = false /\ failure_count res.1.2 = (0 + 1)%Z /\
  call_count res.2 = 0 + Z.to_nat (3 + 1).
Proof.
  split; [reflexivity|]. split; [lia|]. split; [reflexivity|].
  apply (retry_inside_breaker_counts_once
           (fun _ => mkAttempt (T:=nat) (Raise timeout_error) 0)
           (fun _ => timeout_error)
           (CircuitBreaker_init 5 60 "ai_career_service")
           (CircuitBreaker_init 5 60 "ai_career_service") 3 1 0
           (mkWorld 0 []) eq_refl ltac:(lia) (fun _ => eq_refl)).
Defined.

(** C3 as the specification words it fails: a protected call whose four
    attempts all fail raises the failure counter from 0 to 1, not to 4
    (nor to 3); and [_call_production_api], called with its positional
    arguments, raises it to 1 without a single attempt. *)
Lemma retry_attempts_not_counted_separately :
  let cb := CircuitBreaker_init 5 60 "ai_career_service" in
  let w := mkWorld 0 [] in
  let res := protected_call cb 3 1 always_failing 0 w in
  let prod := _call_production_api cb 3 1 always_failing w in
  is_ok res.1.1 = false /\
  call_count res.2 - call_count w = 4 /\
  failure_count res.1.2 = 1%Z /\
  (failure_count res.1.2 - failure_count cb)%Z
  <> Z.of_nat (call_count res.2 - call_count w) /\
  res.1.1 = Raise timeout_error /\
  prod.1.1
  = Raise (mkExn "TypeError"
      "retry_with_backoff() got multiple values for argument 'max_retries'") /\
  call_count prod.2 = 0 /\ failure_count prod.1.2 = 1%Z.
Proof. vm_compute. repeat split; discriminate. Qed.

End ResilienceTheory.

Module EvaluationTheory.
Import EvaluationLogic.

(** *** Strings *)

Lemma append_assoc (s1 s2 s3 : string) :
  (s1 +:+ s2) +:+ s3 = s1 +:+ (s2 +:+ s3).
Proof.
  induction s1 as [|a s1 IH]; [reflexivity|].
  change (String a ((s1 +:+ s2) +:+ s3) = String a (s1 +:+ (s2 +:+ s3))).
  rewrite IH. reflexivity.
Qed.

Lemma append_nil_r (s : string) : s +:+ "" = s.
Proof.
  induction s as [|a s IH]; [reflexivity|].
  change (String a (s +:+ "") = String a s). rewrite IH. reflexivity.
Qed.

Lemma occurs_in_refl s : occurs_in s s.
Proof. exists "", "". rewrite append_nil_r. reflexivity. Qed.

Lemma occurs_in_append_l sub a s : occurs_in sub s -> occurs_in sub (a +:+ s).
Proof.
  intros (pre & post & ->). exists (a +:+ pre), post.
  rewrite append_assoc. reflexivity.
Qed.

Lemma occurs_in_append_r sub s b : occurs_in sub s -> occurs_in sub (s +:+ b).
Proof.
  intros (pre & post & ->). exists pre, (post +:+ b).
  rewrite !append_assoc. reflexivity.
Qed.

Lemma occurs_in_trans a b c : occurs_in a b -> occurs_in b c -> occurs_in a c.
Proof.
  intros Hab (pre & post & ->).
  apply occurs_in_append_l, occurs_in_append_r, Hab.
Qed.

(** Every joined part occurs in the result of [sep.join(parts)]. *)
Lemma occurs_in_concat sep part parts :
  In part parts -> occurs_in part (String.concat sep parts).
Proof.
  induction parts as [|x l IH]; intros Hin; [destruct Hin|].
  destruct l as [|y l].
  - destruct Hin as [->|[]]. apply occurs_in_refl.
  - change (String.concat sep (x :: y :: l))
      with (x +:+ sep +:+ String.concat sep (y :: l)).
    destruct Hin as [->|Hin].
    + apply occurs_in_append_r, occurs_in_refl.
    + apply occurs_in_append_l, occurs_in_append_l, IH, Hin.
Qed.

Lemma peer_part_names min_peers has :
  occurs_in "peer evaluations" (peer_part min_peers has).
Proof.
  exists ("at least " +:+ pretty min_peers +:+ " "),
         (" (has " +:+ pretty has +:+ ")").
  unfold peer_part. rewrite !append_assoc. reflexivity.
Qed.

Lemma direct_report_part_names min_direct_reports has :
  occurs_in "direct report evaluations"
    (direct_report_part min_direct_reports has).
Proof.
  exists ("at least " +:+ pretty min_direct_reports +:+ " "),
         (" (has " +:+ pretty has +:+ ")").
  unfold direct_report_part. rewrite !append_assoc. reflexivity.
Qed.

(** *** Counting *)

Lemma submitted_count_cons kind e evs :
  submitted_count kind (e :: evs)
  = ((if submitted_of_kind kind e then 1 else 0)
     + submitted_count kind evs)%Z.
Proof.
  unfold submitted_count. simpl.
  destruct (submitted_of_kind kind e); simpl length; lia.
Qed.

Lemma count_step_lookup (counts : gmap string Z) e kind n :
  counts !! kind = Some n ->
  count_step counts e !! kind
  = Some (n + (if submitted_of_kind kind e then 1 else 0))%Z.
Proof.
  intros Hk. unfold count_step, submitted_of_kind.
  destruct (is_submitted e); simpl.
  - destruct (String.eqb_spec (evaluator_relationship e) kind) as [->|Hne].
    + rewrite Hk. rewrite lookup_insert_eq. reflexivity.
    + destruct (counts !! evaluator_relationship e).
      * rewrite lookup_insert_ne by assumption. rewrite Hk. f_equal. lia.
      * rewrite Hk. f_equal. lia.
  - rewrite Hk. f_equal. lia.
Qed.

(** The loop counts the submitted evaluations of each kind it tracks. *)
Lemma count_fold evs : forall (counts : gmap string Z) kind n,
  counts !! kind = Some n ->
  foldl count_step counts evs !! kind
  = Some (n + submitted_count kind evs)%Z.
Proof.
  induction evs as [|e evs IH]; intros counts kind n Hk; simpl.
  - rewrite Hk. unfold submitted_count. simpl. f_equal. lia.
  - rewrite (IH _ kind _ (count_step_lookup counts e kind n Hk)).
    rewrite submitted_count_cons. f_equal. lia.
Qed.

Lemma count_of_fold evs kind :
  In kind relationship_kinds ->
  count_of (foldl count_step initial_counts evs) kind
  = submitted_count kind evs.
Proof.
  intros Hin. unfold count_of.
  rewrite (count_fold evs initial_counts kind 0%Z).
  - simpl. lia.
  - simpl in Hin. destruct Hin as [<-|[<-|[<-|[<-|[]]]]]; reflexivity.
Qed.

Lemma count_step_skip counts e :
  is_submitted e = false -> count_step counts e = counts.
Proof. intros H. unfold count_step. rewrite H. reflexivity. Qed.

Lemma count_fold_submitted evs : forall counts,
  foldl count_step counts evs
  = foldl count_step counts (List.filter is_submitted evs).
Proof.
  induction evs as [|e evs IH]; intros counts; simpl; [reflexivity|].
  destruct (is_submitted e) eqn:E; simpl.
  - apply IH.
  - rewrite (count_step_skip counts e E). apply IH.
Qed.

Lemma missing_parts_spec (counts : gmap string Z) min_peers min_direct_reports :
  let parts := missing_parts_of counts min_peers min_direct_reports in
  (parts = [] <->
   (1 <= count_of counts "self" /\ 1 <= count_of counts "manager" /\
    min_peers <= count_of counts "peer" /\
    min_direct_reports <= count_of counts "direct_report")%Z) /\
  ((count_of counts "self" < 1)%Z -> In "self-evaluation" parts) /\
  ((count_of counts "manager" < 1)%Z -> In "manager evaluation" parts) /\
  ((count_of counts "peer" < min_peers)%Z ->
   In (peer_part min_peers (count_of counts "peer")) parts) /\
  ((count_of counts "direct_report" < min_direct_reports)%Z ->
   In (direct_report_part min_direct_reports
         (count_of counts "direct_report")) parts).
Proof.
  unfold missing_parts_of, append_if.
  destruct (Z.ltb_spec (count_of counts "self") 1);
    destruct (Z.ltb_spec (count_of counts "manager") 1);
    destruct (Z.ltb_spec (count_of counts "peer") min_peers);
    destruct (Z.ltb_spec (count_of counts "direct_report") min_direct_reports);
    simpl; (split; [split; [intros; try discriminate; lia | intros; try lia; reflexivity] |]);
    repeat split; intros; try lia; tauto.
Qed.

(** C6. Cycle completion check. Evaluations whose status is not
    "submitted" do not influence the result. With [n kind] the number of
    submitted evaluations of a relationship kind, the check returns
    [(True, None)] exactly when [n self >= 1], [n manager >= 1],
    [n peer >= min_peers] and [n direct_report >= min_direct_reports];
    otherwise it returns [(False, reason)], and the reason text contains
    the name of every category that falls short. *)
Theorem cycle_completion_check (evaluations : list EvaluationEntity)
  (min_peers min_direct_reports : Z) :
  let n := fun kind => submitted_count kind evaluations in
  let res :=
    is_cycle_complete_for_user evaluations min_peers min_direct_reports in
  let complete :=
    (1 <= n "self" /\ 1 <= n "manager" /\ min_peers <= n "peer" /\
     min_direct_reports <= n "direct_report")%Z in
  res = is_cycle_complete_for_user (List.filter is_submitted evaluations)
          min_peers min_direct_reports /\
  (res = (true, None) <-> complete) /\
  (~ complete ->
   exists reason,
     res = (false, Some reason) /\
     ((n "self" < 1)%Z -> occurs_in "self-evaluation" reason) /\
     ((n "manager" < 1)%Z -> occurs_in "manager evaluation" reason) /\
     ((n "peer" < min_peers)%Z -> occurs_in "peer evaluations" reason) /\
     ((n "direct_report" < min_direct_reports)%Z ->
      occurs_in "direct report evaluations" reason)).
Proof.
  intros n res complete.
  split.
  { unfold res, is_cycle_complete_for_user.
    rewrite <- count_fold_submitted. reflexivity. }
  pose proof (missing_parts_spec (foldl count_step initial_counts evaluations)
                min_peers min_direct_reports) as Hspec.
  cbv zeta in Hspec.
  rewrite !count_of_fold in Hspec by (simpl; tauto).
  destruct Hspec as (Hnil & Hself & Hman & Hpeer & Hdr).
  fold (n "self") (n "manager") (n "peer") (n "direct_report") in *.
  unfold res, is_cycle_complete_for_user.
  destruct (missing_parts_of (foldl count_step initial_counts evaluations)
              min_peers min_direct_reports) as [|part parts] eqn:Hparts.
  - split.
    + split; [intros _; apply Hnil; reflexivity | reflexivity].
    + intros Hnot. exfalso. apply Hnot, Hnil. reflexivity.
  - split.
    + split; [discriminate|]. intros Hc. apply Hnil in Hc. discriminate.
    + intros _. eexists. split; [reflexivity|].
      repeat split; intros Hlt; apply occurs_in_append_l.
      * apply occurs_in_concat, Hself, Hlt.
      * apply occurs_in_concat, Hman, Hlt.
      * eapply occurs_in_trans;
          [apply peer_part_names | apply occurs_in_concat, Hpeer, Hlt].
      * eapply occurs_in_trans;
          [apply direct_report_part_names
          | apply occurs_in_concat, Hdr, Hlt].
Qed.

(** *** Aggregation *)

Lemma od_get_set_eq {V} k (v : V) d : od_get k (od_set k v d) = Some v.
Proof.
  induction d as [|[k1 v1] d IH]; simpl.
  - rewrite Nat.eqb_refl. reflexivity.
  - destruct (Nat.eqb_spec k1 k) as [->|Hne]; simpl.
    + rewrite Nat.eqb_refl. reflexivity.
    + destruct (Nat.eqb_spec k1 k); [contradiction | exact IH].
Qed.

Lemma od_get_set_ne {V} k k' (v : V) d :
  k <> k' -> od_get k' (od_set k v d) = od_get k' d.
Proof.
  intros Hne. induction d as [|[k1 v1] d IH]; simpl.
  - destruct (Nat.eqb_spec k k'); [contradiction | reflexivity].
  - destruct (Nat.eqb_spec k1 k) as [->|Hne1]; simpl.
    + destruct (Nat.eqb_spec k k'); [contradiction | reflexivity].
    + rewrite IH. reflexivity.
Qed.

(** Setting a key keeps the keys distinct. *)
Lemma od_set_keys {V} k (v : V) d :
  NoDup (map fst d) -> NoDup (map fst (od_set k v d)).
Proof.
  induction d as [|[k1 v1] d IH]; simpl; intros Hnd.
  - constructor; [intros H; inversion H | constructor].
  - inversion Hnd as [|? ? Hnotin Hnd']; subst.
    destruct (Nat.eqb_spec k1 k) as [->|Hne]; simpl.
    + constructor; assumption.
    + constructor; [|apply IH; assumption].
      intros Hin. apply Hnotin.
      clear - Hin Hne. induction d as [|[k2 v2] d IH]; simpl in *.
      * inversion Hin; subst; [congruence|]. inversion H1.
      * destruct (Nat.eqb_spec k2 k) as [->|Hne2]; simpl in *.
        -- inversion Hin; subst; [congruence|]. right. assumption.
        -- inversion Hin; subst; [left|right; apply IH; assumption].
Qed.

Lemma empty_scores_lookup kind :
  In kind relationship_kinds -> empty_scores !! kind = Some [].
Proof.
  simpl. intros [<-|[<-|[<-|[<-|[]]]]]; reflexivity.
Qed.

Lemma four_keys_nil : four_keys [].
Proof. intros skill by_rel H. discriminate. Qed.

(** One score: no [KeyError] for a known relationship, and the score lands
    at the end of the list of its skill and kind, nowhere else. *)
Lemma add_score_spec rel d cs :
  four_keys d -> In rel relationship_kinds ->
  exists d1,
    add_score rel d cs = Ok d1 /\ four_keys d1 /\
    (NoDup (map fst d) -> NoDup (map fst d1)) /\
    (forall skill, is_Some (od_get skill d1)
                   <-> is_Some (od_get skill d) \/ skill = skill_id cs) /\
    (forall skill kind, In kind relationship_kinds ->
       collected d1 skill kind
       = collected d skill kind
         ++ (if Nat.eqb (skill_id cs) skill && String.eqb rel kind
             then [score cs] else [])).
Proof.
  intros Hwf Hrel. unfold add_score.
  set (by_rel := match od_get (skill_id cs) d with
                 | Some b => b | None => empty_scores end).
  assert (Hkeys : forall kind, In kind relationship_kinds ->
                               is_Some (by_rel !! kind)).
  { intros kind Hk. unfold by_rel.
    destruct (od_get (skill_id cs) d) as [b|] eqn:E.
    - exact (Hwf _ _ E kind Hk).
    - rewrite (empty_scores_lookup kind Hk). eauto. }
  assert (Hby : forall kind, In kind relationship_kinds ->
                  scores_at by_rel kind = collected d (skill_id cs) kind).
  { intros kind Hk. unfold collected, by_rel.
    destruct (od_get (skill_id cs) d); [reflexivity|].
    unfold scores_at. rewrite (empty_scores_lookup kind Hk). reflexivity. }
  destruct (Hkeys rel Hrel) as [scores Hscores]. rewrite Hscores.
  eexists. split; [reflexivity|]. split; [|split; [|split]].
  - intros skill b Hget kind Hk.
    destruct (Nat.eq_dec (skill_id cs) skill) as [<-|Hne].
    + rewrite od_get_set_eq in Hget. inversion Hget; subst.
      destruct (String.eqb_spec rel kind) as [->|Hnk].
      * rewrite lookup_insert_eq. eauto.
      * rewrite lookup_insert_ne by assumption. apply Hkeys, Hk.
    + rewrite od_get_set_ne in Hget by assumption. exact (Hwf _ _ Hget kind Hk).
  - apply od_set_keys.
  - intros skill. destruct (Nat.eq_dec (skill_id cs) skill) as [<-|Hne].
    + rewrite od_get_set_eq. split; [intros _; right; reflexivity | eauto].
    + rewrite od_get_set_ne by assumption.
      split; [tauto | intros [H|H]; [exact H | congruence]].
  - intros skill kind Hk. unfold collected at 1.
    destruct (Nat.eqb_spec (skill_id cs) skill) as [<-|Hne]; simpl.
    + rewrite od_get_set_eq. unfold scores_at.
      destruct (String.eqb_spec rel kind) as [->|Hnk].
      * rewrite lookup_insert_eq. simpl.
        rewrite <- (Hby kind Hk). unfold scores_at. rewrite Hscores.
        reflexivity.
      * rewrite lookup_insert_ne by assumption.
        rewrite app_nil_r. apply (Hby kind Hk).
    + rewrite od_get_set_ne by assumption. rewrite app_nil_r. reflexivity.
Qed.

Lemma add_scores_spec rel css : forall d,
  four_keys d -> In rel relationship_kinds ->
  exists d1,
    add_scores rel d css = Ok d1 /\ four_keys d1 /\
    (NoDup (map fst d) -> NoDup (map fst d1)) /\
    (forall skill, is_Some (od_get skill d1)
                   <-> is_Some (od_get skill d)
                       \/ exists cs, In cs css /\ skill_id cs = skill) /\
    (forall skill kind, In kind relationship_kinds ->
       collected d1 skill kind
       = collected d skill kind
         ++ (if String.eqb rel kind
             then map score
                    (List.filter (fun cs => Nat.eqb (skill_id cs) skill) css)
             else [])).
Proof.
  induction css as [|cs css IH]; intros d Hwf Hrel; simpl.
  - exists d. split; [reflexivity|]. split; [assumption|].
    split; [tauto|]. split.
    + intros skill. split; [tauto|]. intros [H|(cs & [] & _)]. exact H.
    + intros skill kind _. destruct (String.eqb rel kind);
        rewrite app_nil_r; reflexivity.
  - destruct (add_score_spec rel d cs Hwf Hrel)
      as (d1 & Hadd & Hwf1 & Hnd1 & Hdom1 & Hcol1).
    rewrite Hadd.
    destruct (IH d1 Hwf1 Hrel) as (d2 & Hadds & Hwf2 & Hnd2 & Hdom2 & Hcol2).
    exists d2. split; [assumption|]. split; [assumption|].
    split; [tauto|]. split.
    + intros skill. rewrite Hdom2, Hdom1. split.
      * intros [[H|H]|(c & Hc & Hs)]; [tauto | | ].
        -- right. exists cs. split; [left; reflexivity | congruence].
        -- right. exists c. split; [right; assumption | assumption].
      * intros [H|(c & [<-|Hc] & Hs)]; [tauto | | ].
        -- left. right. congruence.
        -- right. exists c. tauto.
    + intros skill kind Hk. rewrite (Hcol2 skill kind Hk), (Hcol1 skill kind Hk).
      rewrite <- app_assoc. f_equal.
      destruct (String.eqb rel kind); simpl.
      * rewrite andb_true_r.
        destruct (Nat.eqb (skill_id cs) skill); reflexivity.
      * rewrite andb_false_r. reflexivity.
Qed.

Lemma kind_scores_cons e evs skill kind :
  kind_scores (e :: evs) skill kind
  = (if submitted_of_kind kind e
     then map score
            (List.filter (fun cs => Nat.eqb (skill_id cs) skill)
               (competency_scores e))
     else [])
    ++ kind_scores evs skill kind.
Proof. reflexivity. Qed.

Lemma scored_in_cons e evs skill :
  scored_in (e :: evs) skill
  <-> (is_submitted e = true /\
       exists cs, In cs (competency_scores e) /\ skill_id cs = skill)
      \/ scored_in evs skill.
Proof.
  unfold scored_in. split.
  - intros (e1 & cs & [<-|Hin] & Hsub & Hcs & Hs).
    + left. eauto.
    + right. exists e1, cs. tauto.
  - intros [(Hsub & cs & Hcs & Hs)|(e1 & cs & Hin & H)].
    + exists e, cs. split; [left; reflexivity | tauto].
    + exists e1, cs. split; [right; assumption | tauto].
Qed.

(** The collection loop: with known relationships it never raises; each
    skill scored by a submitted evaluation gets an entry, and under each
    of the four keys the scores of that kind, in order. *)
Lemma collect_scores_spec evs : forall d,
  four_keys d ->
  Forall (fun e => is_submitted e = true -> known_relationship e) evs ->
  exists d1,
    collect_scores d evs = Ok d1 /\ four_keys d1 /\
    (NoDup (map fst d) -> NoDup (map fst d1)) /\
    (forall skill, is_Some (od_get skill d1)
                   <-> is_Some (od_get skill d) \/ scored_in evs skill) /\
    (forall skill kind, In kind relationship_kinds ->
       collected d1 skill kind
       = collected d skill kind ++ kind_scores evs skill kind).
Proof.
  induction evs as [|e evs IH]; intros d Hwf Hall; cbn [collect_scores].
  - exists d. split; [reflexivity|]. split; [assumption|].
    split; [tauto|]. split.
    + intros skill. split; [tauto|].
      intros [H|(e & cs & [] & _)]. exact H.
    + intros skill kind _. unfold kind_scores. simpl.
      rewrite app_nil_r. reflexivity.
  - inversion Hall as [|? ? He Hall']; subst.
    destruct (is_submitted e) eqn:Hsub; cbn [negb].
    + destruct (add_scores_spec (evaluator_relationship e)
                  (competency_scores e) d Hwf (He eq_refl))
        as (d1 & Hadd & Hwf1 & Hnd1 & Hdom1 & Hcol1).
      rewrite Hadd.
      destruct (IH d1 Hwf1 Hall') as (d2 & Hc & Hwf2 & Hnd2 & Hdom2 & Hcol2).
      exists d2. split; [assumption|]. split; [assumption|].
      split; [tauto|]. split.
      * intros skill. rewrite Hdom2, Hdom1, scored_in_cons, Hsub. tauto.
      * intros skill kind Hk.
        rewrite (Hcol2 skill kind Hk), (Hcol1 skill kind Hk).
        rewrite kind_scores_cons. unfold submitted_of_kind. rewrite Hsub.
        simpl. rewrite app_assoc. reflexivity.
    + destruct (IH d Hwf Hall') as (d2 & Hc & Hwf2 & Hnd2 & Hdom2 & Hcol2).
      exists d2. split; [assumption|]. split; [assumption|].
      split; [assumption|]. split.
      * intros skill. rewrite Hdom2, scored_in_cons, Hsub.
        split; [tauto|]. intros [H|[[H _]|H]]; [tauto | discriminate | tauto].
      * intros skill kind Hk. rewrite (Hcol2 skill kind Hk).
        rewrite kind_scores_cons. unfold submitted_of_kind. rewrite Hsub.
        reflexivity.
Qed.

Lemma foldl_Qplus a l : (foldl Qplus a l == a + fold_right Qplus 0 l)%Q.
Proof.
  revert a. induction l as [|x l IH]; intros a; simpl.
  - ring.
  - rewrite IH. ring.
Qed.




Lemma map_fst_map {V W} (f : V -> W) (d : list (UUID * V)) :
  map fst (map (fun '(k1, v) => (k1, f v)) d) = map fst d.
Proof.
  induction d as [|[k1 v] d IH]; simpl; [reflexivity|]. rewrite IH.
  reflexivity.
Qed.


(** With known relationships the aggregation returns, one entry per
    skill. *)
Lemma aggregate_ok evs :
  Forall (fun e => is_submitted e = true -> known_relationship e) evs ->
  exists aggregated,
    aggregate_competency_scores evs = Ok aggregated /\
    NoDup (map fst aggregated).
Proof.
  intros Hall.
  destruct (collect_scores_spec evs [] four_keys_nil Hall)
    as (d & Hc & _ & Hnd & _).
  unfold aggregate_competency_scores. rewrite Hc.
  eexists. split; [reflexivity|].
  rewrite map_fst_map. apply Hnd. constructor.
Qed.


Lemma scenario_known :
  Forall (fun e => is_submitted e = true -> known_relationship e)
    scenario_evaluations.
Proof.
  unfold scenario_evaluations, known_relationship.
  constructor; [intros _; simpl; tauto|].
  constructor; [intros _; simpl; tauto|].
  constructor; [intros _; simpl; tauto|].
  constructor; [intros _; simpl; tauto|]. constructor.
Defined.


End EvaluationTheory.

Module PersistenceTheory.
Import EvaluationLogic Persistence.

(** *** The aggregation writer *)

Lemma new_scores_of_run user_id cycle_id aggregated : forall s,
  exists rows n,
    new_scores_of user_id cycle_id aggregated s
    = (Ok rows, mkSession (committed s) (working s) n (commits s)) /\
    map row_content rows = map (aggregated_content user_id cycle_id) aggregated /\
    Forall (fun row => of_pair user_id cycle_id row = true) rows.
Proof.
  induction aggregated as [|[skill stats] rest IH]; intros s; simpl.
  - exists [], (next_uuid s). destruct s. repeat split. constructor.
  - unfold bind at 1. unfold uuid4.
    destruct (IH (mkSession (committed s) (working s) (S (next_uuid s))
                    (commits s))) as (rows & n & Hrun & Hmap & Hall).
    unfold bind at 1. rewrite Hrun. simpl.
    eexists _, n. split; [reflexivity|]. split.
    + simpl. rewrite Hmap. reflexivity.
    + constructor; [|exact Hall]. unfold of_pair; simpl.
      rewrite !Nat.eqb_refl. reflexivity.
Qed.

Lemma filter_pair_replaced user_id cycle_id rows fresh :
  Forall (fun row => of_pair user_id cycle_id row = true) fresh ->
  List.filter (of_pair user_id cycle_id)
    (List.filter (fun row => negb (of_pair user_id cycle_id row)) rows
     ++ fresh) = fresh /\
  List.filter (fun row => negb (of_pair user_id cycle_id row))
    (List.filter (fun row => negb (of_pair user_id cycle_id row)) rows
     ++ fresh)
  = List.filter (fun row => negb (of_pair user_id cycle_id row)) rows.
Proof.
  intros Hall. rewrite !List.filter_app.
  assert (H1 : List.filter (of_pair user_id cycle_id)
                 (List.filter (fun row => negb (of_pair user_id cycle_id row))
                    rows) = []).
  { induction rows as [|r rows IH]; simpl; [reflexivity|].
    destruct (of_pair user_id cycle_id r) eqn:E; simpl; [exact IH|].
    rewrite E. exact IH. }
  assert (H2 : List.filter (of_pair user_id cycle_id) fresh = fresh).
  { induction Hall as [|r fresh Hr _ IH]; simpl; [reflexivity|].
    rewrite Hr, IH. reflexivity. }
  assert (H3 : List.filter (fun row => negb (of_pair user_id cycle_id row))
                 fresh = []).
  { clear H2. induction Hall as [|r fresh Hr _ IH]; simpl; [reflexivity|].
    rewrite Hr. simpl. exact IH. }
  assert (H4 : List.filter (fun row => negb (of_pair user_id cycle_id row))
                 (List.filter (fun row => negb (of_pair user_id cycle_id row))
                    rows)
               = List.filter (fun row => negb (of_pair user_id cycle_id row))
                   rows).
  { clear H1. induction rows as [|r rows IH]; simpl; [reflexivity|].
    destruct (of_pair user_id cycle_id r) eqn:E; simpl; [exact IH|].
    rewrite E. simpl. rewrite IH. reflexivity. }
  rewrite H1, H2, H3, H4, app_nil_r. split; reflexivity.
Qed.

(** One run of the writer: delete the pair's rows, insert the fresh ones,
    commit nothing. *)
Lemma aggregate_run user_id cycle_id s aggregated :
  aggregate_competency_scores
    (List.filter (submitted_for user_id cycle_id) (evaluations (working s)))
  = Ok aggregated ->
  exists rows n,
    _aggregate_user_skill_scores user_id cycle_id s
    = (Ok tt,
       mkSession (committed s)
         (set_user_skill_scores
            (List.filter (fun row => negb (of_pair user_id cycle_id row))
               (user_skill_scores (working s)) ++ rows) (working s))
         n (commits s)) /\
    map row_content rows = map (aggregated_content user_id cycle_id) aggregated /\
    Forall (fun row => of_pair user_id cycle_id row = true) rows.
Proof.
  intros Hagg.
  unfold _aggregate_user_skill_scores, bind at 1, read. cbv beta iota.
  unfold bind at 1, lift. rewrite Hagg.
  unfold bind at 1, user_skill_scores_delete_by_user_and_cycle, bind at 1,
    read, bind at 1, write, ret. cbv beta iota.
  cbn [working committed next_uuid commits].
  match goal with
  | |- context [bind _ _ ?s0] => set (s1 := s0)
  end.
  destruct (new_scores_of_run user_id cycle_id aggregated s1)
    as (rows & n & Hrun & Hmap & Hall).
  unfold bind at 1. rewrite Hrun. subst s1.
  cbn [working committed next_uuid commits].
  exists rows, n. split; [|split; assumption].
  destruct rows as [|r rows].
  - rewrite app_nil_r. reflexivity.
  - unfold user_skill_scores_create_bulk, bind, write, ret.
    cbn [working committed next_uuid commits user_skill_scores
         set_user_skill_scores].
    destruct (working s). reflexivity.
Qed.

Lemma aggregate_raises user_id cycle_id s e :
  aggregate_competency_scores
    (List.filter (submitted_for user_id cycle_id) (evaluations (working s)))
  = Raise e ->
  _aggregate_user_skill_scores user_id cycle_id s = (Raise e, s).
Proof.
  intros Hagg.
  unfold _aggregate_user_skill_scores, bind at 1, read. cbv beta iota.
  unfold bind at 1, lift. rewrite Hagg. reflexivity.
Qed.

Lemma skill_ids_of_contents user_id cycle_id rows aggregated :
  map row_content rows = map (aggregated_content user_id cycle_id) aggregated ->
  map uss_skill_id rows = map fst aggregated.
Proof.
  intros H.
  assert (H1 : map uss_skill_id rows
               = map (fun c : UUID * UUID * UUID * string * Q * Q * RawStats =>
                        c.1.1.1.1.2) (map row_content rows)).
  { rewrite List.map_map. apply map_ext. intros r. reflexivity. }
  rewrite H1, H, List.map_map. apply map_ext. intros [k v]. reflexivity.
Qed.

(** C8. Aggregation write, for a subject and cycle whose submitted
    evaluations have known relationships. A run of the writer returns
    without committing; afterwards the table holds the rows of the other
    pairs, untouched and in place, followed by the rows of this pair, which
    are exactly one row per aggregated skill with the freshly computed
    content: every earlier row of the pair is gone. A second run on the
    same evaluations leaves the same contents for the pair (the generated
    row ids apart), again one row per skill, and the same rows for the
    other pairs. When [process_evaluation] returns it has committed
    exactly once, and the committed state is the one the writer left: the
    delete and the insert belong to one transaction. *)
Theorem aggregation_write_replaces (s : Session) (user_id cycle_id : UUID) :
  Forall (fun e => is_submitted e = true -> known_relationship e)
    (List.filter (submitted_for user_id cycle_id) (evaluations (working s))) ->
  let run := _aggregate_user_skill_scores user_id cycle_id in
  let s1 := (run s).2 in
  let s2 := (run s1).2 in
  let mine := fun t : Session =>
    List.filter (of_pair user_id cycle_id) (user_skill_scores (working t)) in
  let others := fun t : Session =>
    List.filter (fun row => negb (of_pair user_id cycle_id row))
      (user_skill_scores (working t)) in
  (exists aggregated,
     aggregate_competency_scores
       (List.filter (submitted_for user_id cycle_id) (evaluations (working s)))
     = Ok aggregated /\
     (run s).1 = Ok tt /\ (run s1).1 = Ok tt /\
     user_skill_scores (working s1) = others s ++ mine s1 /\
     map row_content (mine s1)
     = map (aggregated_content user_id cycle_id) aggregated /\
     NoDup (map uss_skill_id (mine s1)) /\
     committed s1 = committed s /\ commits s1 = commits s /\
     map row_content (mine s2) = map row_content (mine s1) /\
     NoDup (map uss_skill_id (mine s2)) /\
     user_skill_scores (working s2) = others s ++ mine s2 /\
     committed s2 = committed s /\ commits s2 = commits s) /\
  (forall evaluation_id r s3,
      process_evaluation evaluation_id s = (Ok r, s3) ->
      working s3 = working (_aggregate_user_skill_scores r.1 r.2 s).2 /\
      committed s3 = working s3 /\
      commits s3 = commits s ++ [working s3]).
Proof.
  intros Hall run s1 s2 mine others. split.
  - destruct (EvaluationTheory.aggregate_ok _ Hall) as (aggregated & Hagg & Hnd).
    exists aggregated. split; [exact Hagg|].
    destruct (aggregate_run user_id cycle_id s aggregated Hagg)
      as (rows & n & Hrun & Hmap & Hpair).
    assert (Hs1 : s1 = (run s).2) by reflexivity.
    unfold run in Hs1 |- *. rewrite Hrun in Hs1 |- *. simpl in Hs1.
    assert (Hagg1 : aggregate_competency_scores
                      (List.filter (submitted_for user_id cycle_id)
                         (evaluations (working s1))) = Ok aggregated).
    { rewrite Hs1. simpl. exact Hagg. }
    destruct (aggregate_run user_id cycle_id s1 aggregated Hagg1)
      as (rows2 & n2 & Hrun2 & Hmap2 & Hpair2).
    assert (Hs2 : s2 = (run s1).2) by reflexivity.
    unfold run in Hs2. rewrite Hrun2 in Hs2 |- *. simpl in Hs2.
    destruct (filter_pair_replaced user_id cycle_id
                (user_skill_scores (working s)) rows Hpair) as [Hm1 Ho1].
    assert (Hmine1 : mine s1 = rows).
    { unfold mine. rewrite Hs1. simpl. exact Hm1. }
    assert (Hoth1 : others s1 = others s).
    { unfold others. rewrite Hs1. simpl. exact Ho1. }
    destruct (filter_pair_replaced user_id cycle_id
                (user_skill_scores (working s1)) rows2 Hpair2) as [Hm2 Ho2].
    assert (Hmine2 : mine s2 = rows2).
    { unfold mine. rewrite Hs2. simpl. exact Hm2. }
    rewrite Hmine1, Hmine2.
    repeat split.
    + rewrite Hs1. reflexivity.
    + exact Hmap.
    + rewrite (skill_ids_of_contents _ _ _ _ Hmap). exact Hnd.
    + rewrite Hs1. reflexivity.
    + rewrite Hs1. reflexivity.
    + rewrite Hmap2, Hmap. reflexivity.
    + rewrite (skill_ids_of_contents _ _ _ _ Hmap2). exact Hnd.
    + rewrite Hs2. simpl. fold (others s1). rewrite Hoth1. reflexivity.
    + rewrite Hs2, Hs1. reflexivity.
    + rewrite Hs2, Hs1. reflexivity.
  - intros evaluation_id r s3 Hproc.
    unfold process_evaluation, bind at 1 in Hproc.
    unfold evaluations_get_by_id, bind at 1, read, lift in Hproc.
    cbv beta iota in Hproc.
    destruct (scalar_one_or_none _) as [[ev|]|e]; try discriminate.
    cbv zeta in Hproc.
    unfold bind at 1, evaluations_get_by_user_and_cycle, bind at 1, read, ret
      in Hproc.
    cbv beta iota in Hproc.
    destruct (is_cycle_complete_for_user _ 2 0) as [[|] reason];
      [|discriminate].
    unfold bind at 1 in Hproc.
    destruct (aggregate_competency_scores
                (List.filter
                   (submitted_for (EvaluationLogic.user_id ev)
                      (evaluation_cycle_id ev))
                   (evaluations (working s)))) as [agg|e] eqn:Hagg.
    + destruct (aggregate_run _ _ s agg Hagg) as (rows & n & Hrun & _).
      rewrite Hrun in Hproc.
      unfold bind, commit, ret in Hproc. inversion Hproc; subst; clear Hproc.
      simpl. rewrite Hrun. simpl. repeat split.
    + rewrite (aggregate_raises _ _ s e Hagg) in Hproc. discriminate.
Qed.

(** The scenario session: after two runs the stale row of subject 10 is
    gone, the row of subject 11 is in place, and subject 10 has one row,
    for skill 100. *)
Lemma aggregation_write_replaces_witness :
  Forall (fun e => is_submitted e = true -> known_relationship e)
    (List.filter (submitted_for 10 20)
       (evaluations (working scenario_session))) /\
  let run := _aggregate_user_skill_scores 10 20 in
  let s2 := (run (run scenario_session).2).2 in
  (run (run scenario_session).2).1 = Ok tt /\
  map (fun row => (uss_user_id row, uss_skill_id row))
    (user_skill_scores (working s2)) = [(11, 100); (10, 100)].
Proof.
  assert (H : Forall (fun e => is_submitted e = true -> known_relationship e)
                (List.filter (submitted_for 10 20)
                   (evaluations (working scenario_session)))).
  { exact EvaluationTheory.scenario_known. }
  split; [exact H|].
  destruct (proj1 (aggregation_write_replaces scenario_session 10 20 H))
    as (aggregated & _ & _ & Hok & _).
  split; [exact Hok|]. vm_compute. reflexivity.
Defined.

(** *** Skills-assessment ingestion *)

Lemma items_of_run {A} (make : UUID -> A -> SkillsAssessmentItem) entries :
  forall s,
  exists items n,
    items_of make entries s
    = (Ok items, mkSession (committed s) (working s) n (commits s)) /\
    Forall2 (fun entry item => exists item_id, item = make item_id entry)
      entries items.
Proof.
  induction entries as [|e rest IH]; intros s; simpl.
  - exists [], (next_uuid s). destruct s. split; [reflexivity | constructor].
  - unfold bind at 1, uuid4.
    destruct (IH (mkSession (committed s) (working s) (S (next_uuid s))
                    (commits s))) as (items & n & Hrun & Hall).
    unfold bind at 1. rewrite Hrun. simpl.
    eexists _, n. split; [reflexivity|].
    constructor; [eexists; reflexivity | exact Hall].
Qed.

Lemma filter_other_type {A} (make : UUID -> A -> SkillsAssessmentItem)
  entries items :
  (forall item_id entry, is_role_readiness (make item_id entry) = false) ->
  Forall2 (fun entry item => exists item_id, item = make item_id entry)
    entries items ->
  List.filter is_role_readiness items = [].
Proof.
  intros Hty. induction 1 as [|e item es items [item_id ->] _ IH]; simpl.
  - reflexivity.
  - rewrite Hty. exact IH.
Qed.

Lemma filter_readiness_items aid entries items :
  Forall2 (fun entry item =>
             exists item_id, item = role_readiness_item aid item_id entry)
    entries items ->
  List.filter is_role_readiness items = items /\
  Forall2 readiness_stored entries items.
Proof.
  induction 1 as [|e item es items [item_id ->] _ [IH1 IH2]]; simpl.
  - split; [reflexivity | constructor].
  - rewrite IH1. split; [reflexivity|].
    constructor; [|exact IH2].
    unfold readiness_stored, role_readiness_item, normalized_readiness; simpl.
    repeat split.
Qed.

(** The four loops: nothing is written, and the role-readiness items are
    the readiness entries of the response, in order, each with its
    percentage divided by 100. *)
Lemma build_assessment_items_run aid response s :
  exists items n,
    build_assessment_items aid response s
    = (Ok items, mkSession (committed s) (working s) n (commits s)) /\
    Forall2 readiness_stored (readiness_for_roles response)
      (List.filter is_role_readiness items).
Proof.
  unfold build_assessment_items.
  destruct (items_of_run (strength_item aid) (strengths response) s)
    as (i1 & n1 & R1 & F1).
  unfold bind at 1. rewrite R1.
  destruct (items_of_run (growth_area_item aid) (growth_areas response)
              (mkSession (committed s) (working s) n1 (commits s)))
    as (i2 & n2 & R2 & F2).
  cbn [committed working commits] in R2.
  unfold bind at 1. rewrite R2.
  destruct (items_of_run (hidden_talent_item aid) (hidden_talents response)
              (mkSession (committed s) (working s) n2 (commits s)))
    as (i3 & n3 & R3 & F3).
  cbn [committed working commits] in R3.
  unfold bind at 1. rewrite R3.
  destruct (items_of_run (role_readiness_item aid)
              (readiness_for_roles response)
              (mkSession (committed s) (working s) n3 (commits s)))
    as (i4 & n4 & R4 & F4).
  cbn [committed working commits] in R4.
  unfold bind at 1. rewrite R4.
  unfold ret. eexists _, n4. split; [reflexivity|].
  rewrite !List.filter_app.
  rewrite (filter_other_type (strength_item aid) _ _ (fun _ _ => eq_refl) F1).
  rewrite (filter_other_type (growth_area_item aid) _ _
             (fun _ _ => eq_refl) F2).
  rewrite (filter_other_type (hidden_talent_item aid) _ _
             (fun _ _ => eq_refl) F3).
  destruct (filter_readiness_items aid _ _ F4) as [H4 H5].
  rewrite H4. exact H5.
Qed.

Lemma made_items_admitted {A} (make : UUID -> A -> SkillsAssessmentItem)
  entries items :
  (forall item_id entry, In entry entries ->
                         item_admitted (make item_id entry) = true) ->
  Forall2 (fun entry item => exists item_id, item = make item_id entry)
    entries items ->
  Forall (fun item => item_admitted item = true) items.
Proof.
  intros Hall. induction 1 as [|e item es items [item_id ->] _ IH].
  - constructor.
  - constructor; [apply Hall; left; reflexivity|].
    apply IH. intros i e1 He. apply Hall. right. exact He.
Qed.

Lemma readiness_within p :
  within 0 100 p = true -> within 0 1 (p / 100.0) = true.
Proof.
  unfold within. rewrite !andb_true_iff, !Qle_bool_iff. intros [H0 H100].
  assert (Hpos : (0 < 100.0)%Q) by reflexivity.
  split.
  - apply Qle_shift_div_l; [exact Hpos|]. rewrite Qmult_0_l. exact H0.
  - apply Qle_shift_div_r; [exact Hpos|].
    assert (E : (1 * 100.0 == 100)%Q) by reflexivity.
    rewrite E. exact H100.
Qed.

(** The items built from a response that the table admits satisfy the
    constraints of the table. *)
Lemma build_assessment_items_admitted aid response s items s1 :
  storable_assessment response = true ->
  build_assessment_items aid response s = (Ok items, s1) ->
  Forall (fun item => item_admitted item = true) items.
Proof.
  unfold storable_assessment. rewrite !andb_true_iff, !forallb_forall.
  intros (((H1 & H2) & H3) & H4).
  unfold build_assessment_items.
  destruct (items_of_run (strength_item aid) (strengths response) s)
    as (i1 & n1 & R1 & F1).
  unfold bind at 1. rewrite R1.
  destruct (items_of_run (growth_area_item aid) (growth_areas response)
              (mkSession (committed s) (working s) n1 (commits s)))
    as (i2 & n2 & R2 & F2).
  cbn [committed working commits] in R2.
  unfold bind at 1. rewrite R2.
  destruct (items_of_run (hidden_talent_item aid) (hidden_talents response)
              (mkSession (committed s) (working s) n2 (commits s)))
    as (i3 & n3 & R3 & F3).
  cbn [committed working commits] in R3.
  unfold bind at 1. rewrite R3.
  destruct (items_of_run (role_readiness_item aid)
              (readiness_for_roles response)
              (mkSession (committed s) (working s) n3 (commits s)))
    as (i4 & n4 & R4 & F4).
  cbn [committed working commits] in R4.
  unfold bind at 1. rewrite R4.
  unfold ret. intros E. inversion E; subst items s1; clear E.
  rewrite !Forall_app. repeat split.
  - apply (made_items_admitted (strength_item aid) _ _) in F1; [exact F1|].
    intros i e He. specialize (H1 e He).
    apply andb_true_iff in H1 as [Hl Hs].
    unfold item_admitted, strength_item. cbn. rewrite Hl, Hs. reflexivity.
  - apply (made_items_admitted (growth_area_item aid) _ _) in F2; [exact F2|].
    intros i e He. specialize (H2 e He).
    apply andb_true_iff in H2 as [H2 Hp].
    apply andb_true_iff in H2 as [Hl Hg].
    unfold item_admitted, growth_area_item. cbn. rewrite Hl, Hg, Hp.
    reflexivity.
  - apply (made_items_admitted (hidden_talent_item aid) _ _) in F3;
      [exact F3|].
    intros i e He. specialize (H3 e He).
    apply andb_true_iff in H3 as [Hl Hs].
    unfold item_admitted, hidden_talent_item. cbn. rewrite Hl, Hs.
    reflexivity.
  - apply (made_items_admitted (role_readiness_item aid) _ _) in F4;
      [exact F4|].
    intros i e He. specialize (H4 e He).
    apply andb_true_iff in H4 as [Hl Hr].
    unfold item_admitted, role_readiness_item, normalized_readiness. cbn.
    rewrite Hl. cbn.
    destruct (rd_readiness_percentage e) as [p|]; [|reflexivity].
    cbn [optional] in Hr |- *. apply readiness_within, Hr.
Qed.

Lemma users_get_by_id_found s user_id user :
  List.filter (fun u => Nat.eqb (u_id u) user_id) (users (working s)) = [user] ->
  users_get_by_id user_id s = (Ok (Some user), s).
Proof.
  intros H. unfold users_get_by_id, bind, read, lift. rewrite H. reflexivity.
Qed.

Lemma roles_get_by_id_total s role_id :
  length (List.filter (fun r => Nat.eqb (r_id r) role_id) (roles (working s)))
  <= 1 ->
  exists role, roles_get_by_id role_id s = (Ok role, s).
Proof.
  intros H. unfold roles_get_by_id, bind, read, lift.
  destruct (List.filter _ _) as [|r [|r2 rest]]; simpl in *.
  - eexists; reflexivity.
  - eexists; reflexivity.
  - lia.
Qed.

Lemma insert_by_score_Forall (P : UserSkillScore -> Prop) row sorted :
  P row -> Forall P sorted -> Forall P (insert_by_score row sorted).
Proof.
  intros Hrow. induction 1 as [|row1 rest H1 Hrest IH]; cbn [insert_by_score].
  - repeat constructor. exact Hrow.
  - destruct (Qle_bool (uss_score row1) (uss_score row)).
    + constructor; [exact Hrow|]. constructor; assumption.
    + constructor; assumption.
Qed.

Lemma order_by_score_Forall (P : UserSkillScore -> Prop) rows :
  Forall P rows -> Forall P (fold_right insert_by_score [] rows).
Proof.
  induction 1 as [|row rows Hrow _ IH]; cbn [fold_right]; [constructor|].
  apply insert_by_score_Forall; assumption.
Qed.

Lemma insert_by_score_cons row sorted :
  exists first rest, insert_by_score row sorted = first :: rest.
Proof.
  destruct sorted as [|row1 rest]; cbn [insert_by_score].
  - eexists _, _. reflexivity.
  - destruct (Qle_bool (uss_score row1) (uss_score row));
      eexists _, _; reflexivity.
Qed.

(** The query of the skill scores of a pair: no row when the pair has
    none, the rows of the pair by falling score otherwise. *)
Lemma scores_query_run s user_id cycle_id :
  List.filter (of_pair user_id cycle_id) (user_skill_scores (working s)) <> [] ->
  exists first rest,
    user_skill_scores_get_by_user_and_cycle user_id cycle_id s
    = (Ok (first :: rest), s) /\
    first :: rest
    = fold_right insert_by_score []
        (List.filter (of_pair user_id cycle_id)
           (user_skill_scores (working s))).
Proof.
  intros Hne.
  unfold user_skill_scores_get_by_user_and_cycle, bind, read, ret.
  destruct (List.filter (of_pair user_id cycle_id)
              (user_skill_scores (working s))) as [|row rows];
    [congruence|].
  cbn [fold_right].
  destruct (insert_by_score_cons row (fold_right insert_by_score [] rows))
    as (first & rest & E).
  rewrite E. eexists _, _. split; reflexivity.
Qed.

Lemma scores_query_none s user_id cycle_id :
  List.filter (of_pair user_id cycle_id) (user_skill_scores (working s)) = [] ->
  user_skill_scores_get_by_user_and_cycle user_id cycle_id s = (Ok [], s).
Proof.
  intros E.
  unfold user_skill_scores_get_by_user_and_cycle, bind, read, ret.
  rewrite E. reflexivity.
Qed.

(** Rows that satisfy the check constraints of [user_skill_scores] pass
    the validation of [UserSkillScore]: the conversion into a profile that
    [generate_assessment] makes of the rows it has read, and that the
    model leaves out, does not raise. *)
Lemma admitted_rows_convert repr rows :
  rows <> [] -> Forall Mappers.row_in_range rows ->
  is_ok (Mappers.orms_to_profile repr rows) = true.
Proof.
  intros Hne Hall.
  assert (Hs : exists skills, Mappers.skill_scores_of repr rows = Ok skills).
  { clear Hne. induction Hall as [|row rows [Hsc Hcf] _ [skills IH]].
    - exists []. reflexivity.
    - cbn [Mappers.skill_scores_of].
      unfold Mappers.orm_to_skill_score, Entities.UserSkillScore_new.
      assert (E0 : (0.0 == 0)%Q) by reflexivity.
      assert (E1 : (1.0 == 1)%Q) by reflexivity.
      assert (E10 : (10.0 == 10)%Q) by reflexivity.
      assert (H1 : Entities.between 0.0 10.0 (uss_score row) = true).
      { unfold Entities.between. apply andb_true_iff.
        rewrite !Qle_bool_iff, E0, E10. exact Hsc. }
      rewrite H1. cbn [negb].
      assert (H2 : Entities.between 0.0 1.0
                     (if Qeq_bool (uss_confidence row) 0 then 0.0%Q
                      else uss_confidence row) = true).
      { unfold Entities.between. apply andb_true_iff.
        rewrite !Qle_bool_iff.
        destruct (Qeq_bool (uss_confidence row) 0);
          [split; unfold Qle; simpl; lia | rewrite E0, E1; exact Hcf]. }
      rewrite H2. cbn [negb]. rewrite IH. eexists. reflexivity. }
  destruct Hs as [skills Hs]. unfold Mappers.orms_to_profile.
  destruct rows as [|first rows]; [contradiction|].
  rewrite Hs. reflexivity.
Qed.

(** C9. Skills-assessment ingestion, role readiness. For a request whose
    user exists, whose subject has aggregated scores for the cycle (rows
    within the check constraints of their table, so that their conversion
    into a profile does not raise), and whose external call returns a
    response that the item table admits (labels of at most 150
    characters, scores and gap scores in 0..10, readiness percentages in
    0..100): [generate_assessment] returns, and the items it has
    committed are the former ones followed by the new ones; among the new
    ones the role-readiness items are, in order, the readiness entries of
    the response, each handed to the table with [readiness_percentage]
    equal to the entry's percentage divided by 100, and with no percentage
    when the entry has none; every new item satisfies the constraints of
    the table. The division by 1.0 of the source leaves no trace:
    [normalized_readiness] is the division by 100. *)
Theorem readiness_normalized_to_unit_scale (float_repr : Q -> string)
  (s : Session) (response : AssessmentResponse) (latency_ms now : Z)
  (user_id cycle_id : UUID) (user : User) :
  List.filter (fun u => Nat.eqb (u_id u) user_id) (users (working s)) = [user] ->
  List.filter (of_pair user_id cycle_id) (user_skill_scores (working s)) <> [] ->
  Forall Mappers.row_in_range
    (List.filter (of_pair user_id cycle_id) (user_skill_scores (working s))) ->
  match u_role_id user with
  | Some role_id =>
      length (List.filter (fun r => Nat.eqb (r_id r) role_id)
                (roles (working s))) <= 1
  | None => True
  end ->
  storable_assessment response = true ->
  (exists skill_scores,
     user_skill_scores_get_by_user_and_cycle user_id cycle_id s
     = (Ok skill_scores, s) /\
     is_ok (Mappers.orms_to_profile float_repr skill_scores) = true) /\
  (exists assessment s1 items,
     generate_assessment (Ok response) latency_ms now user_id cycle_id s
     = (Ok assessment, s1) /\
     skills_assessment_items (committed s1)
     = skills_assessment_items (working s) ++ items /\
     Forall2 readiness_stored (readiness_for_roles response)
       (List.filter is_role_readiness items) /\
     Forall (fun item => item_admitted item = true) items) /\
  (forall p, normalized_readiness (Some p) = Some (p / 100.0)%Q /\
             (p / 100.0 == p / 100)%Q) /\
  normalized_readiness None = None.
Proof.
  intros Huser Hscores Hrows Hrole Hstorable.
  destruct (scores_query_run s user_id cycle_id Hscores)
    as (first & rest & Hquery & Hsorted).
  split; [|split; [|split]].
  - exists (first :: rest). split; [exact Hquery|].
    apply admitted_rows_convert; [discriminate|].
    rewrite Hsorted. apply order_by_score_Forall, Hrows.
  - unfold generate_assessment. unfold bind at 1.
    rewrite (users_get_by_id_found s user_id user Huser).
    unfold bind at 1. rewrite Hquery. cbv beta iota.
    assert (Hpos : exists position,
              (match u_role_id user with
               | Some role_id =>
                   role <- roles_get_by_id role_id ;;
                   ret (match role with
                        | Some r => r_name r
                        | None => "Unknown"
                        end)
               | None => ret "Unknown"
               end) s = (Ok position, s)).
    { destruct (u_role_id user) as [rid|].
      - destruct (roles_get_by_id_total s rid Hrole) as [role Hr].
        unfold bind. rewrite Hr. eexists. reflexivity.
      - eexists. reflexivity. }
    destruct Hpos as [position Hpos].
    unfold bind at 1. rewrite Hpos.
    unfold bind at 1, uuid4. cbv beta iota.
    unfold bind at 1, ai_calls_log_create, bind at 1, write, ret.
    cbv beta iota.
    unfold bind at 1, commit. cbv beta iota.
    unfold bind at 1, uuid4. cbv beta iota.
    unfold bind at 1, skills_assessments_create, bind at 1, write, ret.
    cbv beta iota.
    cbn [committed working next_uuid commits sa_id].
    match goal with
    | |- context [bind (build_assessment_items ?aid response) _ ?s0] =>
        destruct (build_assessment_items_run aid response s0)
          as (items & n & Hrun & Hall);
        pose proof (build_assessment_items_admitted aid response s0 items _
                      Hstorable Hrun) as Hadm
    end.
    unfold bind at 1. rewrite Hrun.
    cbn [committed working next_uuid commits].
    exists (mkAssessment (S (next_uuid s)) user_id (Some cycle_id) "completed"
              now).
    destruct items as [|item items].
    + eexists _, []. split; [reflexivity|].
      split; [|split; [exact Hall | exact Hadm]].
      simpl. rewrite app_nil_r. reflexivity.
    + eexists _, (item :: items). split; [reflexivity|].
      split; [|split; [exact Hall | exact Hadm]]. reflexivity.
  - intros p. split; [reflexivity|].
    unfold Qdiv. apply Qmult_comp; [reflexivity|]. reflexivity.
  - reflexivity.
Qed.

(** The demo response: a readiness of 85 is stored as 85 / 100, a missing
    one as none. *)
Lemma readiness_normalized_to_unit_scale_witness :
  List.filter (fun u => Nat.eqb (u_id u) 10)
    (users (working demo_assessment_session)) = [mkUser 10 None] /\
  List.filter (of_pair 10 20)
    (user_skill_scores (working demo_assessment_session)) <> [] /\
  Forall Mappers.row_in_range
    (List.filter (of_pair 10 20)
       (user_skill_scores (working demo_assessment_session))) /\
  storable_assessment demo_assessment_response = true /\
  exists assessment s1 items,
    generate_assessment (Ok demo_assessment_response) 42 0 10 20
      demo_assessment_session = (Ok assessment, s1) /\
    skills_assessment_items (committed s1)
    = skills_assessment_items (working demo_assessment_session) ++ items /\
    Forall2 readiness_stored
      [mkReadinessData (Some "Gerente Regional") (Some 85%Q);
       mkReadinessData (Some "Director") None]
      (List.filter is_role_readiness items).
Proof.
  assert (H1 : List.filter (fun u => Nat.eqb (u_id u) 10)
                 (users (working demo_assessment_session))
               = [mkUser 10 None]) by reflexivity.
  assert (H2 : List.filter (of_pair 10 20)
                 (user_skill_scores (working demo_assessment_session)) <> []).
  { intros H. vm_compute in H. discriminate H. }
  assert (H3 : Forall Mappers.row_in_range
                 (List.filter (of_pair 10 20)
                    (user_skill_scores (working demo_assessment_session)))).
  { repeat constructor; unfold Qle; simpl; lia. }
  split; [exact H1|]. split; [exact H2|]. split; [exact H3|].
  split; [reflexivity|].
  destruct (proj1 (proj2 (readiness_normalized_to_unit_scale (fun _ => "")
                            demo_assessment_session demo_assessment_response
                            42 0 10 20 (mkUser 10 None) H1 H2 H3 I eq_refl)))
    as (assessment & s1 & items & Hrun & Hitems & Hready & _).
  exists assessment, s1, items.
  split; [exact Hrun|]. split; [exact Hitems | exact Hready].
Defined.

(** *** Career-path ingestion *)

Lemma filter_absent {A} (key : A -> string) l k :
  ~ In k (map key l) ->
  List.filter (fun a => String.eqb (key a) k) l = [].
Proof.
  induction l as [|a l IH]; simpl; intros Hnot; [reflexivity|].
  destruct (String.eqb_spec (key a) k) as [E|E]; [tauto|].
  apply IH. tauto.
Qed.

Lemma unique_name_filter {A} (key : A -> string) l k :
  NoDup (map key l) ->
  length (List.filter (fun a => String.eqb (key a) k) l) <= 1.
Proof.
  induction l as [|a l IH]; simpl; intros Hnd; [lia|].
  inversion Hnd as [|? ? Hnot Hnd']; subst.
  destruct (String.eqb_spec (key a) k) as [E|E].
  - subst k. rewrite (filter_absent key l (key a)); [simpl; lia|].
    intros Hin. apply Hnot, list_elem_of_In, Hin.
  - apply IH. exact Hnd'.
Qed.

Lemma scalar_total {A} (rows : list A) :
  length rows <= 1 -> exists r, scalar_one_or_none rows = Ok r.
Proof.
  destruct rows as [|a [|b rest]]; simpl; intros H.
  - eexists; reflexivity.
  - eexists; reflexivity.
  - lia.
Qed.

Lemma roles_get_by_name_run s name :
  unique_names (working s) ->
  exists role, roles_get_by_name name s = (Ok role, s).
Proof.
  intros [Hr _]. unfold roles_get_by_name, bind, read, lift.
  destruct (scalar_total _ (unique_name_filter r_name (roles (working s))
                              name Hr)) as [r Hs].
  rewrite Hs. eexists. reflexivity.
Qed.

Lemma skills_get_by_name_run s name :
  unique_names (working s) ->
  exists skill, skills_get_by_name name s = (Ok skill, s).
Proof.
  intros [_ Hk]. unfold skills_get_by_name, bind, read, lift.
  destruct (scalar_total _ (unique_name_filter s_name (skills (working s))
                              name Hk)) as [r Hs].
  rewrite Hs. eexists. reflexivity.
Qed.

Lemma same_data_refl s : same_data s s.
Proof. unfold same_data. repeat split. lia. Qed.

Lemma same_data_trans s s1 s2 :
  same_data s s1 -> same_data s1 s2 -> same_data s s2.
Proof.
  unfold same_data. intros (A1 & A2 & A3 & A4) (B1 & B2 & B3 & B4).
  repeat split; try congruence. lia.
Qed.

Lemma same_data_uuid s :
  same_data s (mkSession (committed s) (working s) (S (next_uuid s))
                 (commits s)).
Proof. unfold same_data; simpl. repeat split. lia. Qed.

Lemma same_data_extends s s1 : same_data s s1 -> extends s s1 [] [] [].
Proof.
  intros (A1 & A2 & A3 & A4). unfold extends. rewrite A2, !app_nil_r.
  repeat split; assumption.
Qed.

Lemma extends_trans s s1 s2 p1 p2 st1 st2 a1 a2 :
  extends s s1 p1 st1 a1 -> extends s1 s2 p2 st2 a2 ->
  extends s s2 (p1 ++ p2) (st1 ++ st2) (a1 ++ a2).
Proof.
  unfold extends.
  intros (A1 & A2 & A3 & A4 & A5 & A6 & A7) (B1 & B2 & B3 & B4 & B5 & B6 & B7).
  rewrite B5, B6, B7, A5, A6, A7, !app_assoc.
  repeat split; try congruence. lia.
Qed.

Lemma extends_names s s1 p st a :
  extends s s1 p st a -> unique_names (working s) -> unique_names (working s1).
Proof.
  intros (_ & _ & _ & Hw & _) [Hr Hk]. unfold unique_names.
  assert (R : roles (working s1) = roles (working s)).
  { change (roles (without_paths (working s1))
            = roles (without_paths (working s))). rewrite Hw. reflexivity. }
  assert (K : skills (working s1) = skills (working s)).
  { change (skills (without_paths (working s1))
            = skills (without_paths (working s))). rewrite Hw. reflexivity. }
  rewrite R, K. split; assumption.
Qed.

Lemma build_step_run s path_id step_data :
  unique_names (working s) ->
  exists step,
    build_step path_id step_data s
    = (Ok step,
       mkSession (committed s) (working s) (S (next_uuid s)) (commits s)) /\
    st_id step = next_uuid s /\
    st_career_path_id step = path_id /\
    st_step_number step = sd_step_number step_data /\
    st_duration_months step = sd_duration_months step_data.
Proof.
  intros Hu. unfold build_step.
  assert (H : exists role_id,
            (match sd_target_role step_data with
             | Some (String c rest) =>
                 role <- roles_get_by_name (String c rest) ;;
                 ret (option_map r_id role)
             | _ => ret None
             end) s = (Ok role_id, s)).
  { destruct (sd_target_role step_data) as [[|c rest]|];
      try (eexists; reflexivity).
    destruct (roles_get_by_name_run s (String c rest) Hu) as [role Hr].
    unfold bind. rewrite Hr. eexists. reflexivity. }
  destruct H as [role_id H].
  unfold bind at 1. rewrite H. unfold bind, uuid4, ret.
  eexists. split; [reflexivity|]. repeat split.
Qed.

Lemma build_steps_run path_id steps_data : forall s,
  unique_names (working s) ->
  exists steps s1,
    build_steps path_id steps_data s = (Ok steps, s1) /\
    same_data s s1 /\
    Forall2 (fun step_data step =>
               st_career_path_id step = path_id /\
               st_step_number step = sd_step_number step_data /\
               st_duration_months step = sd_duration_months step_data)
      steps_data steps.
Proof.
  induction steps_data as [|sd rest IH]; intros s Hu; simpl.
  - exists [], s. split; [reflexivity|].
    split; [apply same_data_refl | constructor].
  - destruct (build_step_run s path_id sd Hu) as (step & Hrun & _ & Hprops).
    unfold bind at 1. rewrite Hrun.
    destruct (IH (mkSession (committed s) (working s) (S (next_uuid s))
                    (commits s)) Hu) as (steps & s1 & Hrest & Hsame & Hall).
    unfold bind at 1. rewrite Hrest. unfold ret.
    exists (step :: steps), s1. split; [reflexivity|]. split.
    + exact (same_data_trans _ _ _ (same_data_uuid s) Hsame).
    + constructor; assumption.
Qed.

Lemma build_actions_run step_id skill_id titles : forall s,
  exists actions s1,
    build_actions step_id skill_id titles s = (Ok actions, s1) /\
    same_data s s1 /\
    map (fun a => (da_career_path_step_id a, da_title a)) actions
    = map (fun t => (step_id, t)) titles.
Proof.
  induction titles as [|t rest IH]; intros s; simpl.
  - exists [], s. split; [reflexivity|].
    split; [apply same_data_refl | reflexivity].
  - unfold bind at 1, uuid4.
    destruct (IH (mkSession (committed s) (working s) (S (next_uuid s))
                    (commits s))) as (actions & s1 & Hrest & Hsame & Hmap).
    unfold bind at 1. rewrite Hrest. unfold ret.
    eexists _, s1. split; [reflexivity|]. split.
    + exact (same_data_trans _ _ _ (same_data_uuid s) Hsame).
    + simpl. rewrite Hmap. reflexivity.
Qed.

Lemma step_actions_run step_id competencies : forall s,
  unique_names (working s) ->
  exists actions s1,
    step_actions step_id competencies s = (Ok actions, s1) /\
    same_data s s1 /\
    map (fun a => (da_career_path_step_id a, da_title a)) actions
    = map (fun t => (step_id, t))
        (flat_map cd_development_actions competencies).
Proof.
  induction competencies as [|c rest IH]; intros s Hu; simpl.
  - exists [], s. split; [reflexivity|].
    split; [apply same_data_refl | reflexivity].
  - assert (H : exists skill_id,
              (match cd_name c with
               | Some (String ch name) =>
                   skill <- skills_get_by_name (String ch name) ;;
                   ret (option_map s_id skill)
               | _ => ret None
               end) s = (Ok skill_id, s)).
    { destruct (cd_name c) as [[|ch name]|]; try (eexists; reflexivity).
      destruct (skills_get_by_name_run s (String ch name) Hu) as [skill Hr].
      unfold bind. rewrite Hr. eexists. reflexivity. }
    destruct H as [skill_id H].
    unfold bind at 1. rewrite H.
    destruct (build_actions_run step_id skill_id (cd_development_actions c) s)
      as (a1 & s1 & Hrun1 & Hsame1 & Hmap1).
    unfold bind at 1. rewrite Hrun1.
    assert (Hu1 : unique_names (working s1)).
    { destruct Hsame1 as (_ & -> & _). exact Hu. }
    destruct (IH s1 Hu1) as (a2 & s2 & Hrun2 & Hsame2 & Hmap2).
    unfold bind at 1. rewrite Hrun2. unfold ret.
    exists (a1 ++ a2), s2. split; [reflexivity|]. split.
    + exact (same_data_trans _ _ _ Hsame1 Hsame2).
    + rewrite !map_app, Hmap1, Hmap2. reflexivity.
Qed.

Lemma extends_create_actions s actions :
  extends s
    (mkSession (committed s)
       (set_development_actions (development_actions (working s) ++ actions)
          (working s)) (next_uuid s) (commits s))
    [] [] actions.
Proof.
  unfold extends; simpl. rewrite !app_nil_r. repeat split. lia.
Qed.

Lemma extends_create_steps s steps :
  extends s
    (mkSession (committed s)
       (set_career_path_steps (career_path_steps (working s) ++ steps)
          (working s)) (next_uuid s) (commits s))
    [] steps [].
Proof.
  unfold extends; simpl. rewrite !app_nil_r. repeat split. lia.
Qed.

Lemma extends_create_path s path :
  extends s
    (mkSession (committed s)
       (set_career_paths (career_paths (working s) ++ [path]) (working s))
       (next_uuid s) (commits s))
    [path] [] [].
Proof.
  unfold extends; simpl. rewrite !app_nil_r. repeat split. lia.
Qed.

Lemma persist_actions_run pairs : forall s,
  unique_names (working s) ->
  exists actss s1,
    persist_actions pairs s = (Ok tt, s1) /\
    extends s s1 [] [] (concat actss) /\
    Forall2 (fun pr actions => actions_match pr.1 pr.2 actions) pairs actss.
Proof.
  induction pairs as [|[step sd] rest IH]; intros s Hu; simpl.
  - exists [], s. split; [reflexivity|].
    split; [apply same_data_extends, same_data_refl | constructor].
  - destruct (step_actions_run (st_id step) (sd_required_competencies sd) s Hu)
      as (a0 & s1 & Hrun & Hsame & Hmap).
    unfold bind at 1. rewrite Hrun.
    assert (Hmid : exists s2,
              (match a0 with
               | [] => ret tt
               | _ :: _ => development_actions_create_bulk a0 ;;; ret tt
               end) s1 = (Ok tt, s2) /\ extends s1 s2 [] [] a0).
    { destruct a0 as [|a l].
      - exists s1. split; [reflexivity|].
        apply same_data_extends, same_data_refl.
      - eexists. split; [reflexivity|]. apply extends_create_actions. }
    destruct Hmid as (s2 & Hmid & Hext2).
    unfold bind at 1. rewrite Hmid.
    pose proof (extends_trans _ _ _ _ _ _ _ _ _
                  (same_data_extends _ _ Hsame) Hext2) as Hext02.
    simpl in Hext02.
    destruct (IH s2 (extends_names _ _ _ _ _ Hext02 Hu))
      as (actss & s3 & Hrun3 & Hext3 & Hall).
    rewrite Hrun3.
    exists (a0 :: actss), s3. split; [reflexivity|]. split.
    + pose proof (extends_trans _ _ _ _ _ _ _ _ _ Hext02 Hext3) as H.
      simpl in H. exact H.
    + constructor; [exact Hmap | exact Hall].
Qed.

(** One generated path: the path row (proposed, with the next identifier),
    its steps as the response numbers them, and per step one action per
    listed title. *)
Lemma persist_path_run user_id assessment_id path_data s :
  unique_names (working s) ->
  exists path steps actss s1,
    persist_path user_id assessment_id path_data s = (Ok path, s1) /\
    extends s s1 [path] steps (concat actss) /\
    next_uuid s < next_uuid s1 /\
    cp_id path = next_uuid s /\
    path_matches user_id path_data path /\
    Forall2 (fun sd step => step_matches path sd step)
      (pd_steps path_data) steps /\
    Forall2 (fun pr actions => actions_match pr.1 pr.2 actions)
      (zip steps (pd_steps path_data)) actss.
Proof.
  intros Hu. unfold persist_path.
  unfold bind at 1, uuid4. cbv beta iota.
  unfold bind at 1, career_paths_create, bind at 1, write, ret.
  cbv beta iota. cbn [committed working next_uuid commits cp_id].
  set (path := mkCareerPath (next_uuid s) user_id assessment_id
                 (pd_path_name path_data)
                 (default false (pd_recommended path_data))
                 (pd_feasibility_score path_data)
                 (pd_total_duration_months path_data) "proposed").
  set (sa := mkSession (committed s)
               (set_career_paths (career_paths (working s) ++ [path])
                  (working s)) (S (next_uuid s)) (commits s)).
  assert (Hexta : extends s sa [path] [] []).
  { unfold extends, sa; simpl. rewrite !app_nil_r. repeat split. lia. }
  pose proof (extends_names _ _ _ _ _ Hexta Hu) as Hua.
  destruct (build_steps_run (next_uuid s) (pd_steps path_data) sa Hua)
    as (steps & sb & Hrunb & Hsameb & Hsteps).
  unfold bind at 1. rewrite Hrunb.
  assert (Hmid : exists sc,
            (match steps with
             | [] => (fun s0 => (Ok tt, s0)) : M unit
             | _ :: _ =>
                 career_path_steps_create_bulk steps ;;;
                 (fun s0 => (Ok tt, s0))
             end) sb = (Ok tt, sc) /\ extends sb sc [] steps []).
  { destruct steps as [|st l].
    - exists sb. split; [reflexivity|].
      apply same_data_extends, same_data_refl.
    - eexists. split; [reflexivity|]. apply extends_create_steps. }
  destruct Hmid as (sc & Hmid & Hextc).
  unfold bind at 1. rewrite Hmid.
  pose proof (extends_trans _ _ _ _ _ _ _ _ _ Hexta
                (extends_trans _ _ _ _ _ _ _ _ _
                   (same_data_extends _ _ Hsameb) Hextc)) as Hext0c.
  simpl in Hext0c.
  destruct (persist_actions_run (zip steps (pd_steps path_data)) sc
              (extends_names _ _ _ _ _ Hext0c Hu))
    as (actss & sd & Hrund & Hextd & Hacts).
  unfold bind at 1. rewrite Hrund.
  exists path, steps, actss, sd. split; [reflexivity|].
  pose proof (extends_trans _ _ _ _ _ _ _ _ _ Hext0c Hextd) as Hext.
  simpl in Hext. rewrite app_nil_r in Hext.
  split; [exact Hext|]. split.
  { destruct Hextd as (_ & _ & Hd & _). destruct Hextc as (_ & _ & Hc & _).
    destruct Hsameb as (_ & _ & _ & Hb). unfold sa in Hb; simpl in Hb. lia. }
  split; [reflexivity|]. split.
  { unfold path_matches, path; simpl. repeat split. }
  split; [|exact Hacts].
  clear - Hsteps. induction Hsteps as [|sd0 st l l' Hp _ IH]; constructor.
  - unfold step_matches. exact Hp.
  - exact IH.
Qed.

(** Up to the first commit: the lookups succeed, the pending audit row is
    written and committed, and the rest runs from there. *)
Lemma generate_prefix s ai_call latency_ms user_id skills_assessment_id
  interests horizon user assessment :
  List.filter (fun u => Nat.eqb (u_id u) user_id) (users (working s)) = [user] ->
  assessment_selected (working s) user_id skills_assessment_id assessment ->
  role_lookup_ok (working s) user ->
  exists request_payload,
    let log := pending_log (next_uuid s) user_id assessment request_payload in
    let w1 :=
      set_ai_calls_log (ai_calls_log (working s) ++ [log]) (working s) in
    generate_career_paths ai_call latency_ms user_id skills_assessment_id
      interests horizon s
    = ingest_career_paths ai_call latency_ms user_id (sa_id assessment)
        request_payload log
        (mkSession w1 w1 (S (next_uuid s)) (commits s ++ [w1])).
Proof.
  intros Huser Hsel Hrole.
  unfold generate_career_paths. unfold bind at 1.
  rewrite (users_get_by_id_found s user_id user Huser). cbv beta iota.
  match goal with
  | |- context [@bind SkillsAssessment _ ?m _] => set (select := m)
  end.
  assert (Ha : select s = (Ok assessment, s)).
  { subst select. unfold assessment_selected in Hsel.
    destruct skills_assessment_id as [aid|].
    - unfold bind, skills_assessments_get_by_id, bind, read, lift.
      rewrite Hsel. reflexivity.
    - unfold bind, skills_assessments_get_latest_by_user_id, bind, read, ret.
      rewrite Hsel. reflexivity. }
  unfold bind at 1. rewrite Ha. cbv beta iota.
  match goal with
  | |- context [@bind string _ ?m _] => set (position_of := m)
  end.
  assert (Hpos : exists position, position_of s = (Ok position, s)).
  { subst position_of. unfold role_lookup_ok in Hrole.
    destruct (u_role_id user) as [rid|].
    - destruct (roles_get_by_id_total s rid Hrole) as [role Hr].
      unfold bind. rewrite Hr. eexists. reflexivity.
    - eexists. reflexivity. }
  destruct Hpos as [position Hpos].
  unfold bind at 1. rewrite Hpos. cbv beta iota.
  unfold bind at 1, roles_get_all_active, bind at 1, read, ret.
  cbv beta iota.
  unfold bind at 1, uuid4. cbv beta iota.
  unfold bind at 1, ai_calls_log_create, bind at 1, write, ret.
  cbv beta iota.
  unfold bind at 1, commit. cbv beta iota.
  cbn [committed working next_uuid commits].
  eexists. reflexivity.
Qed.

(** A generated path of two steps: the path row, its two step rows and the
    actions of each. *)
Lemma persist_path_two_steps user_id assessment_id path_data a1 a2 s :
  unique_names (working s) ->
  pd_steps path_data = [a1; a2] ->
  exists path st1 st2 x1 x2 s1,
    persist_path user_id assessment_id path_data s = (Ok path, s1) /\
    extends s s1 [path] [st1; st2] (x1 ++ x2) /\
    next_uuid s < next_uuid s1 /\
    cp_id path = next_uuid s /\
    path_matches user_id path_data path /\
    step_matches path a1 st1 /\ step_matches path a2 st2 /\
    actions_match st1 a1 x1 /\ actions_match st2 a2 x2.
Proof.
  intros Hn Hsteps.
  destruct (persist_path_run user_id assessment_id path_data s Hn)
    as (path & steps & actss & s1 & Hrun & Hext & Hlt & Hid & Hp & Hs & Ha).
  rewrite Hsteps in Hs, Ha.
  apply Forall2_cons_inv_l in Hs as (st1 & steps1 & M1 & Hs & ->).
  apply Forall2_cons_inv_l in Hs as (st2 & steps2 & M2 & Hs & ->).
  apply Forall2_nil_inv_l in Hs as ->.
  cbn [zip zip_with] in Ha.
  apply Forall2_cons_inv_l in Ha as (x1 & actss1 & A1 & Ha & ->).
  apply Forall2_cons_inv_l in Ha as (x2 & actss2 & A2 & Ha & ->).
  apply Forall2_nil_inv_l in Ha as ->.
  cbn [concat] in Hext. rewrite app_nil_r in Hext.
  exists path, st1, st2, x1, x2, s1.
  repeat (split; [assumption|]). assumption.
Qed.

(** A created path whose data the response schema accepts is returned as
    its response. *)
Lemma orm_to_response_presentable user_id path_data path :
  path_matches user_id path_data path ->
  presentable_path path_data = true ->
  exists response,
    orm_to_response path = Ok response /\
    pr_id response = cp_id path /\ pr_user_id response = user_id /\
    pr_status response = "proposed" /\
    Some (pr_path_name response) = pd_path_name path_data.
Proof.
  intros (Hu & Hs & Hn & Hf & Hd) Hp.
  unfold presentable_path in Hp. rewrite !andb_true_iff in Hp.
  destruct Hp as ((Hpn & Hpf) & Hpd).
  unfold orm_to_response, validation_errors. rewrite Hn, Hf, Hd, Hpn, Hpf, Hpd.
  destruct (pd_path_name path_data) as [path_name|]; [|discriminate Hpn].
  cbn [Nat.add Nat.eqb]. eexists. split; [reflexivity|].
  cbn [pr_id pr_user_id pr_status pr_path_name]. repeat split; assumption.
Qed.

(** Created paths whose data the response schema accepts are returned as
    their responses, in order. *)
Lemma orms_to_responses_presentable user_id pds paths :
  Forall2 (path_matches user_id) pds paths ->
  Forall (fun pd => presentable_path pd = true) pds ->
  exists responses,
    orms_to_responses paths = Ok responses /\
    Forall2 (fun path response =>
               pr_id response = cp_id path /\ pr_user_id response = user_id /\
               pr_status response = "proposed") paths responses.
Proof.
  induction 1 as [|pd path pds paths Hm _ IH]; intros Hp.
  - exists []. split; [reflexivity | constructor].
  - apply Forall_cons in Hp as [Hpd Hrest].
    destruct (orm_to_response_presentable _ _ _ Hm Hpd)
      as (r & Hr & Hid & Hu & Hs & _).
    destruct (IH Hrest) as (rs & Hrs & HF).
    exists (r :: rs). cbn [orms_to_responses]. rewrite Hr, Hrs.
    split; [reflexivity|]. constructor; [|exact HF].
    repeat split; assumption.
Qed.

(** C5. Career-path ingestion. The user and the assessment exist, names
    are unique in the catalogues, and the external service, when it
    answers, answers with two generated paths of two steps each, numbered
    1 and 2, that the tables admit (a path name of at most 200 characters,
    a feasibility in 0..1, titles of at most 200 characters, numbers in
    the range of an [Integer]). Then [generate_career_paths] commits
    twice: first the pending audit row alone, then everything else at
    once. When the service answered, that second commit adds exactly two
    career-path rows of status proposed and of different identifiers,
    four step rows, numbered 1 and 2 under each of the two paths, and one
    development action per action title listed for each step, and the
    audit row has status success; after it the two rows are returned as
    [CareerPathResponse]s, which succeeds when each path has a name of at
    least one character and no negative duration (otherwise the
    validation error of the schema is raised, after the commit). When the
    service raised, the call raises, the career-path, step and action
    tables are those from before the call (no row where there was none)
    and the audit row has status error. *)
Theorem career_path_ingestion s ai_call latency_ms user_id
  skills_assessment_id interests horizon user assessment p1 p2 a1 a2 b1 b2 :
  List.filter (fun u => Nat.eqb (u_id u) user_id) (users (working s)) = [user] ->
  assessment_selected (working s) user_id skills_assessment_id assessment ->
  role_lookup_ok (working s) user ->
  unique_names (working s) ->
  (forall rq response,
     ai_call rq = Ok response -> generated_paths response = [p1; p2]) ->
  storable_path p1 = true -> storable_path p2 = true ->
  pd_steps p1 = [a1; a2] -> pd_steps p2 = [b1; b2] ->
  sd_step_number a1 = Some 1%Z -> sd_step_number a2 = Some 2%Z ->
  sd_step_number b1 = Some 1%Z -> sd_step_number b2 = Some 2%Z ->
  exists rq result s1 db0 logs log,
    generate_career_paths ai_call latency_ms user_id skills_assessment_id
      interests horizon s = (result, s1) /\
    working s1 = committed s1 /\
    commits s1 = commits s ++ [db0; committed s1] /\
    same_path_tables (working s) db0 /\
    ai_calls_log (committed s1) = logs ++ [log] /\
    length logs = length (ai_calls_log (working s)) /\
    log_id log = next_uuid s /\
    log_request_payload log = CareerRequestPayload rq /\
    match ai_call rq with
    | Ok response =>
        exists cp1 cp2 s11 s12 s21 s22 x11 x12 x21 x22,
          result = orms_to_responses [cp1; cp2] /\
          (presentable_path p1 = true -> presentable_path p2 = true ->
           exists r1 r2,
             result = Ok [r1; r2] /\
             pr_id r1 = cp_id cp1 /\ pr_id r2 = cp_id cp2 /\
             pr_status r1 = "proposed" /\ pr_status r2 = "proposed") /\
          log_status log = "success" /\
          career_paths (committed s1)
          = career_paths (working s) ++ [cp1; cp2] /\
          path_matches user_id p1 cp1 /\ path_matches user_id p2 cp2 /\
          cp_id cp1 <> cp_id cp2 /\
          career_path_steps (committed s1)
          = career_path_steps (working s) ++ [s11; s12; s21; s22] /\
          numbered cp1 1 s11 /\ numbered cp1 2 s12 /\
          numbered cp2 1 s21 /\ numbered cp2 2 s22 /\
          development_actions (committed s1)
          = development_actions (working s) ++ x11 ++ x12 ++ x21 ++ x22 /\
          actions_match s11 a1 x11 /\ actions_match s12 a2 x12 /\
          actions_match s21 b1 x21 /\ actions_match s22 b2 x22
    | Raise e =>
        result
        = Raise (service_error
                   ("AI Career Path service failed: " +:+ exn_msg e)) /\
        log_status log = "error" /\
        same_path_tables (working s) (committed s1)
    end.
Proof.
  intros Huser Hsel Hrole Hnames Hshape Hst1 Hst2 Hp1 Hp2 Na1 Na2 Nb1 Nb2.
  destruct (generate_prefix s ai_call latency_ms user_id skills_assessment_id
              interests horizon user assessment Huser Hsel Hrole)
    as [rq Hprefix].
  cbv zeta in Hprefix. rewrite Hprefix. clear Hprefix.
  set (log0 := pending_log (next_uuid s) user_id assessment rq).
  set (w1 := set_ai_calls_log (ai_calls_log (working s) ++ [log0]) (working s)).
  set (sc := mkSession w1 w1 (S (next_uuid s)) (commits s ++ [w1])).
  exists rq.
  unfold ingest_career_paths.
  destruct (ai_call rq) as [response|e] eqn:Hcall.
  - (* the service answered *)
    rewrite (Hshape rq response Hcall).
    assert (Hn1 : unique_names (working sc)) by exact Hnames.
    destruct (persist_path_two_steps user_id (sa_id assessment) p1 a1 a2 sc
                Hn1 Hp1)
      as (cp1 & s11 & s12 & x11 & x12 & sA & R1 & E1 & L1 & I1 & P1 & S11
          & S12 & A11 & A12).
    assert (Hn2 : unique_names (working sA))
      by exact (extends_names _ _ _ _ _ E1 Hn1).
    destruct (persist_path_two_steps user_id (sa_id assessment) p2 b1 b2 sA
                Hn2 Hp2)
      as (cp2 & s21 & s22 & x21 & x22 & sB & R2 & E2 & L2 & I2 & P2 & S21
          & S22 & A21 & A22).
    pose proof (extends_trans _ _ _ _ _ _ _ _ _ E1 E2) as E.
    destruct E as (Ec & Eh & Eu & Ew & Ep & Es & Ea).
    cbn [committed working commits next_uuid sc] in Ec, Eh, Eu, Ew, Ep, Es, Ea.
    assert (Hlog : ai_calls_log (working sB)
                   = ai_calls_log (working s) ++ [log0]).
    { change (ai_calls_log (without_paths (working sB))
              = ai_calls_log (without_paths w1)).
      rewrite Ew. reflexivity. }
    cbn [persist_paths]. unfold bind at 1. unfold bind at 1. rewrite R1.
    cbv beta iota. unfold bind at 1. unfold bind at 1. rewrite R2.
    cbv beta iota.
    unfold bind, ret, lift, ai_calls_log_update, write, commit.
    cbn [committed working commits next_uuid].
    eexists _, _, w1, _, _.
    split; [reflexivity|].
    cbn [committed working commits next_uuid].
    split; [reflexivity|].
    split; [rewrite Eh; unfold sc; cbn [commits];
            rewrite <- app_assoc; reflexivity|].
    split; [repeat split|].
    cbn [ai_calls_log set_ai_calls_log].
    rewrite Hlog, map_app. cbn [map log_id log0 pending_log].
    rewrite Nat.eqb_refl.
    split; [reflexivity|].
    split; [apply length_map|].
    split; [reflexivity|].
    split; [reflexivity|].
    exists cp1, cp2, s11, s12, s21, s22, x11, x12, x21, x22.
    split; [reflexivity|].
    split.
    { intros Hv1 Hv2.
      destruct (orm_to_response_presentable user_id p1 cp1 P1 Hv1)
        as (r1 & Hr1 & Hi1 & _ & Hs1 & _).
      destruct (orm_to_response_presentable user_id p2 cp2 P2 Hv2)
        as (r2 & Hr2 & Hi2 & _ & Hs2 & _).
      exists r1, r2. cbn [orms_to_responses]. rewrite Hr1, Hr2.
      repeat split; assumption. }
    split; [reflexivity|].
    split; [exact Ep|].
    split; [exact P1|].
    split; [exact P2|].
    split; [rewrite I1, I2; lia|].
    split; [exact Es|].
    destruct S11 as (? & ? & _), S12 as (? & ? & _), S21 as (? & ? & _),
      S22 as (? & ? & _).
    unfold numbered.
    split; [split; congruence|].
    split; [split; congruence|].
    split; [split; congruence|].
    split; [split; congruence|].
    split; [etransitivity; [exact Ea|]; rewrite <- !app_assoc; reflexivity|].
    repeat (split; [assumption|]). assumption.
  - (* the service raised *)
    unfold bind, ret, raise, ai_calls_log_update, write, commit.
    unfold sc. cbn [committed working commits next_uuid].
    eexists _, _, w1, _, _.
    split; [reflexivity|].
    cbn [committed working commits next_uuid].
    split; [reflexivity|].
    split; [rewrite <- app_assoc; reflexivity|].
    split; [repeat split|].
    cbn [ai_calls_log set_ai_calls_log]. unfold w1 at 1.
    cbn [ai_calls_log set_ai_calls_log].
    rewrite map_app. cbn [map log_id log0 pending_log].
    rewrite Nat.eqb_refl.
    split; [reflexivity|].
    split; [apply length_map|].
    split; [reflexivity|].
    split; [reflexivity|].
    split; [reflexivity|].
    split; [reflexivity|].
    repeat split.
Qed.

Lemma demo_names : unique_names demo_database.
Proof.
  split; apply (bool_decide_unpack _); vm_compute; reflexivity.
Defined.

(** The demo user asks for career paths: the dummy response leaves two
    paths, four steps and ten actions (3 + 3 + 2 + 2 titles); a time-out
    leaves none, and an audit row of status error. *)
Lemma career_path_ingestion_witness :
  (exists paths s1,
     generate_career_paths answering 42 1 None None 3 demo_session
     = (Ok paths, s1) /\
     length paths = 2 /\
     length (career_paths (committed s1)) = 2 /\
     length (career_path_steps (committed s1)) = 4 /\
     length (development_actions (committed s1)) = 10 /\
     length (commits s1) = 2) /\
  (exists e s1 log,
     generate_career_paths timing_out 42 1 None None 3 demo_session
     = (Raise e, s1) /\
     career_paths (committed s1) = [] /\
     ai_calls_log (committed s1) = [log] /\ log_status log = "error").
Proof.
  split.
  - destruct (career_path_ingestion demo_session answering 42 1 None None 3
                (mkUser 1 (Some 2)) (mkAssessment 5 1 (Some 6) "completed" 0)
                (nth 0 (generated_paths dummy_career_paths)
                   (mkPathData None None None None []))
                (nth 1 (generated_paths dummy_career_paths)
                   (mkPathData None None None None []))
                (mkStepData (Some 1%Z) (Some "Gerente de Sucursal Senior")
                   (Some 12%Z)
                   [ mkCompetencyData (Some "Pensamiento Estratégico")
                       [ "Curso: Estrategia de Negocios Avanzada";
                         "Proyecto: Plan estratégico para sucursal";
                         "Mentoría con Gerente Regional" ] ])
                (mkStepData (Some 2%Z) (Some "Gerente Regional") (Some 12%Z)
                   [ mkCompetencyData (Some "Gestión de P&L")
                       [ "Certificación: Finanzas para Managers";
                         "Shadowing: Director Financiero";
                         "Proyecto: Análisis de rentabilidad regional" ] ])
                (mkStepData (Some 1%Z)
                   (Some "Especialista Senior en Operaciones") (Some 9%Z)
                   [ mkCompetencyData (Some "Optimización de Procesos")
                       [ "Curso: Lean Six Sigma";
                         "Proyecto: Mejora de procesos en sucursal" ] ])
                (mkStepData (Some 2%Z) (Some "Gerente de Operaciones")
                   (Some 9%Z)
                   [ mkCompetencyData (Some "Gestión de Proyectos")
                       [ "Certificación: Project Management Professional (PMP)";
                         "Shadowing: Director de Operaciones" ] ]))
      as (rq & result & s1 & db0 & logs & log & Hrun & _ & Hc & _ & _ & _
          & _ & _ & Hok);
      [reflexivity | reflexivity | unfold role_lookup_ok; simpl; lia
      | exact demo_names
      | intros ? ? [= <-]; reflexivity
      | reflexivity | reflexivity
      | reflexivity | reflexivity | reflexivity | reflexivity | reflexivity
      | reflexivity | ].
    unfold answering at 1 in Hok.
    destruct Hok as (cp1 & cp2 & s11 & s12 & s21 & s22 & x11 & x12 & x21
                     & x22 & _ & Hres & _ & Hp & _ & _ & _ & Hs & _ & _ & _
                     & _ & Ha & A1 & A2 & A3 & A4).
    destruct (Hres eq_refl eq_refl) as (r1 & r2 & -> & _).
    exists [r1; r2], s1. split; [exact Hrun|]. split; [reflexivity|].
    rewrite Hp, Hs, Ha, Hc.
    apply (f_equal length) in A1, A2, A3, A4.
    rewrite !length_map in A1, A2, A3, A4.
    rewrite !length_app, A1, A2, A3, A4.
    repeat split.
  - destruct (career_path_ingestion demo_session timing_out 42 1 None None 3
                (mkUser 1 (Some 2)) (mkAssessment 5 1 (Some 6) "completed" 0)
                (mkPathData (Some "A") None None None
                   [mkStepData (Some 1%Z) None None [];
                    mkStepData (Some 2%Z) None None []])
                (mkPathData (Some "B") None None None
                   [mkStepData (Some 1%Z) None None [];
                    mkStepData (Some 2%Z) None None []])
                (mkStepData (Some 1%Z) None None [])
                (mkStepData (Some 2%Z) None None [])
                (mkStepData (Some 1%Z) None None [])
                (mkStepData (Some 2%Z) None None []))
      as (rq & result & s1 & db0 & logs & log & Hrun & _ & _ & _ & Hl & Hn
          & _ & _ & Hko);
      [reflexivity | reflexivity | unfold role_lookup_ok; simpl; lia
      | exact demo_names
      | intros ? ? [=]
      | reflexivity | reflexivity
      | reflexivity | reflexivity | reflexivity | reflexivity | reflexivity
      | reflexivity | ].
    unfold timing_out at 1 in Hko.
    destruct Hko as (-> & Hst & Hp & _).
    destruct logs; [|discriminate Hn].
    eexists _, s1, log.
    split; [exact Hrun|]. split; [exact Hp|]. split; [exact Hl|exact Hst].
Defined.

(** *** The accept-path transition *)

Lemma flush_after_discard path path_id user_id row :
  cp_id path = path_id -> cp_status path = "accepted" ->
  flush_status path (discard_other path_id user_id row)
  = accepted_transition path_id user_id row.
Proof.
  intros Hid Hst. unfold flush_status, discard_other, accepted_transition.
  rewrite Hid, Hst.
  destruct (Nat.eqb (cp_id row) path_id) eqn:E.
  - rewrite andb_false_r. simpl. rewrite E. reflexivity.
  - simpl. rewrite andb_true_r.
    destruct (Nat.eqb (cp_user_id row) user_id
              && (String.eqb (cp_status row) "proposed"
                  || String.eqb (cp_status row) "accepted")); simpl;
      rewrite E; reflexivity.
Qed.

Lemma filter_singleton_in {A} (f : A -> bool) l x :
  List.filter f l = [x] -> In x l /\ f x = true.
Proof.
  intros H. apply filter_In. rewrite H. left. reflexivity.
Qed.

Lemma get_by_id_found s path_id path :
  List.filter (fun p => Nat.eqb (cp_id p) path_id) (career_paths (working s))
  = [path] ->
  career_paths_get_by_id path_id s = (Ok (Some path), s).
Proof.
  intros Hrow. unfold career_paths_get_by_id, bind, read, lift.
  rewrite Hrow. reflexivity.
Qed.

Lemma get_by_id_none s path_id :
  List.filter (fun p => Nat.eqb (cp_id p) path_id) (career_paths (working s))
  = [] ->
  career_paths_get_by_id path_id s = (Ok None, s).
Proof.
  intros Hrow. unfold career_paths_get_by_id, bind, read, lift.
  rewrite Hrow. reflexivity.
Qed.

Lemma get_by_id_many s path_id a b rest :
  List.filter (fun p => Nat.eqb (cp_id p) path_id) (career_paths (working s))
  = a :: b :: rest ->
  exists e, career_paths_get_by_id path_id s = (Raise e, s).
Proof.
  intros Hrow. unfold career_paths_get_by_id, bind, read, lift.
  rewrite Hrow. eexists. reflexivity.
Qed.

Lemma repo_accept_path_run s path_id user_id path :
  List.filter (fun p => Nat.eqb (cp_id p) path_id) (career_paths (working s))
  = [path] ->
  cp_user_id path = user_id ->
  repo_accept_path path_id user_id s
  = (Ok (Some (with_status path "accepted")),
     mkSession (committed s)
       (set_career_paths
          (map (accepted_transition path_id user_id)
             (career_paths (working s))) (working s))
       (next_uuid s) (commits s)).
Proof.
  intros Hrow Huser.
  destruct (filter_singleton_in _ _ _ Hrow) as [_ Hid].
  apply Nat.eqb_eq in Hid.
  unfold repo_accept_path, bind. rewrite (get_by_id_found s path_id path Hrow).
  rewrite Huser, Nat.eqb_refl. cbn [negb]. unfold write, ret.
  cbn [working committed next_uuid commits career_paths set_career_paths].
  assert (Hm : map (flush_status (with_status path "accepted"))
                 (map (discard_other path_id user_id)
                    (career_paths (working s)))
               = map (accepted_transition path_id user_id)
                   (career_paths (working s))).
  { rewrite List.map_map. apply map_ext.
    intros row. apply flush_after_discard; [exact Hid | reflexivity]. }
  rewrite Hm. reflexivity.
Qed.

(** What [accept_path] does to a session in which exactly one row has the
    requested id, owned by the requester and proposed. *)
Lemma accept_path_run s path_id user_id path :
  List.filter (fun p => Nat.eqb (cp_id p) path_id) (career_paths (working s))
  = [path] ->
  cp_user_id path = user_id ->
  cp_status path = "proposed" ->
  accept_path path_id user_id s
  = (orm_to_response (with_status path "accepted"),
     let db :=
       set_career_paths
         (map (accepted_transition path_id user_id)
            (career_paths (working s))) (working s) in
     mkSession db db (next_uuid s) (commits s ++ [db])).
Proof.
  intros Hrow Huser Hst.
  unfold accept_path, bind at 1.
  rewrite (get_by_id_found s path_id path Hrow).
  rewrite Huser, Nat.eqb_refl, Hst, String.eqb_refl. cbn [negb].
  unfold bind at 1.
  rewrite (repo_accept_path_run s path_id user_id path Hrow Huser).
  reflexivity.
Qed.

(** *** At most one accepted path per subject *)

Lemma preserves_bind {A B} (m : M A) (k : A -> M B) :
  preserves m -> (forall a, preserves (k a)) -> preserves (bind m k).
Proof.
  intros Hm Hk s Hs. unfold bind. specialize (Hm s Hs).
  destruct (m s) as [[a|e] s1]; simpl in *.
  - apply Hk. exact Hm.
  - exact Hm.
Qed.

Lemma preserves_ret {A} (a : A) : preserves (ret a).
Proof. intros s Hs. exact Hs. Qed.

Lemma preserves_raise {A} e : preserves (raise (A:=A) e).
Proof. intros s Hs. exact Hs. Qed.

Lemma preserves_lift {A} (r : Result A) : preserves (lift r).
Proof. intros s Hs. exact Hs. Qed.

Lemma preserves_read {A} (f : Database -> A) : preserves (read f).
Proof. intros s Hs. exact Hs. Qed.

Lemma preserves_uuid4 : preserves uuid4.
Proof. intros s Hs. exact Hs. Qed.

Lemma preserves_commit : preserves commit.
Proof.
  intros s (Hw & Hc & Hall). unfold commit, session_inv; simpl.
  split; [exact Hw|]. split; [exact Hw|].
  apply Forall_app. split; [exact Hall|]. constructor; [exact Hw|constructor].
Qed.

Lemma preserves_write f :
  (forall db, career_paths (f db) = career_paths db) -> preserves (write f).
Proof.
  intros Hf s (Hw & Hc & Hall). unfold write, session_inv; simpl.
  rewrite Hf. tauto.
Qed.

Lemma accepted_of_app user_id l1 l2 :
  accepted_of user_id (l1 ++ l2)
  = accepted_of user_id l1 ++ accepted_of user_id l2.
Proof. unfold accepted_of. apply List.filter_app. Qed.

Lemma preserves_create career_path :
  cp_status career_path = "proposed" ->
  preserves (career_paths_create career_path).
Proof.
  intros Hst s (Hw & Hc & Hall).
  unfold career_paths_create, bind, write, ret, session_inv; simpl.
  split; [|tauto]. intros u. rewrite accepted_of_app.
  unfold accepted_of at 2. simpl. rewrite Hst. simpl.
  rewrite andb_false_r, app_nil_r. apply Hw.
Qed.

Ltac preserve :=
  repeat first
    [ apply preserves_ret | apply preserves_raise | apply preserves_lift
    | apply preserves_read | apply preserves_uuid4 | apply preserves_commit
    | apply preserves_write; intros; reflexivity
    | apply preserves_bind; [|intros] ].

Lemma preserves_roles_get_by_name name : preserves (roles_get_by_name name).
Proof. unfold roles_get_by_name. preserve. Qed.

Lemma preserves_skills_get_by_name name : preserves (skills_get_by_name name).
Proof. unfold skills_get_by_name. preserve. Qed.

Lemma preserves_build_step path_id step_data :
  preserves (build_step path_id step_data).
Proof.
  unfold build_step. apply preserves_bind; [|intros; preserve].
  destruct (sd_target_role step_data) as [[|c rest]|]; try apply preserves_ret.
  apply preserves_bind; [apply preserves_roles_get_by_name | intros; preserve].
Qed.

Lemma preserves_build_steps path_id steps_data :
  preserves (build_steps path_id steps_data).
Proof.
  induction steps_data as [|sd rest IH]; simpl; [apply preserves_ret|].
  apply preserves_bind; [apply preserves_build_step|]. intros step.
  apply preserves_bind; [exact IH | intros; preserve].
Qed.

Lemma preserves_build_actions step_id skill_id titles :
  preserves (build_actions step_id skill_id titles).
Proof.
  induction titles as [|t rest IH]; simpl; [apply preserves_ret|].
  apply preserves_bind; [apply preserves_uuid4|]. intros a.
  apply preserves_bind; [exact IH | intros; preserve].
Qed.

Lemma preserves_step_actions step_id competencies :
  preserves (step_actions step_id competencies).
Proof.
  induction competencies as [|c rest IH]; simpl; [apply preserves_ret|].
  apply preserves_bind.
  - destruct (cd_name c) as [[|ch nm]|]; try apply preserves_ret.
    apply preserves_bind;
      [apply preserves_skills_get_by_name | intros; preserve].
  - intros skill_id.
    apply preserves_bind; [apply preserves_build_actions|]. intros actions.
    apply preserves_bind; [exact IH | intros; preserve].
Qed.

Lemma preserves_actions_create_bulk actions :
  preserves (development_actions_create_bulk actions).
Proof. unfold development_actions_create_bulk. preserve. Qed.

Lemma preserves_steps_create_bulk steps :
  preserves (career_path_steps_create_bulk steps).
Proof. unfold career_path_steps_create_bulk. preserve. Qed.

Lemma preserves_persist_actions pairs : preserves (persist_actions pairs).
Proof.
  induction pairs as [|[step sd] rest IH]; simpl; [apply preserves_ret|].
  apply preserves_bind; [apply preserves_step_actions|]. intros actions.
  apply preserves_bind; [|intros; exact IH].
  destruct actions; [apply preserves_ret|].
  apply preserves_bind; [apply preserves_actions_create_bulk|].
  intros; apply preserves_ret.
Qed.

Lemma preserves_persist_path user_id assessment_id path_data :
  preserves (persist_path user_id assessment_id path_data).
Proof.
  unfold persist_path.
  apply preserves_bind; [apply preserves_uuid4|]. intros path_id.
  apply preserves_bind; [apply preserves_create; reflexivity|].
  intros created_path.
  apply preserves_bind; [apply preserves_build_steps|]. intros steps.
  apply preserves_bind.
  - destruct steps; [apply preserves_ret|].
    apply preserves_bind; [apply preserves_steps_create_bulk|].
    intros; apply preserves_ret.
  - intros _. apply preserves_bind; [apply preserves_persist_actions|].
    intros; apply preserves_ret.
Qed.

Lemma preserves_persist_paths user_id assessment_id paths :
  preserves (persist_paths user_id assessment_id paths).
Proof.
  induction paths as [|pd rest IH]; simpl; [apply preserves_ret|].
  apply preserves_bind; [apply preserves_persist_path|]. intros cp.
  apply preserves_bind; [exact IH | intros; apply preserves_ret].
Qed.

Lemma preserves_log_create log : preserves (ai_calls_log_create log).
Proof. unfold ai_calls_log_create. preserve. Qed.

Lemma preserves_log_update log : preserves (ai_calls_log_update log).
Proof. unfold ai_calls_log_update. preserve. Qed.

Lemma preserves_generate ai_call latency_ms user_id assessment interests
  horizon :
  preserves (generate_career_paths ai_call latency_ms user_id assessment
               interests horizon).
Proof.
  unfold generate_career_paths.
  apply preserves_bind; [unfold users_get_by_id; preserve|].
  intros [user|]; [|apply preserves_raise].
  apply preserves_bind.
  { destruct assessment as [aid|].
    - apply preserves_bind;
        [unfold skills_assessments_get_by_id; preserve|].
      intros [a|]; [apply preserves_ret | apply preserves_raise].
    - apply preserves_bind;
        [unfold skills_assessments_get_latest_by_user_id; preserve|].
      intros [a|]; [apply preserves_ret | apply preserves_raise]. }
  intros a. apply preserves_bind.
  { destruct (u_role_id user) as [rid|]; [|apply preserves_ret].
    apply preserves_bind; [unfold roles_get_by_id; preserve|].
    intros; apply preserves_ret. }
  intros position.
  apply preserves_bind; [unfold roles_get_all_active; preserve|].
  intros org.
  apply preserves_bind; [apply preserves_uuid4|]. intros lid.
  apply preserves_bind; [apply preserves_log_create|]. intros log.
  apply preserves_bind; [apply preserves_commit|]. intros _.
  unfold ingest_career_paths.
  destruct (ai_call _) as [resp|e].
  - apply preserves_bind; [apply preserves_persist_paths|]. intros created.
    apply preserves_bind; [apply preserves_log_update|]. intros _.
    apply preserves_bind; [apply preserves_commit|]. intros _.
    apply preserves_lift.
  - apply preserves_bind; [apply preserves_log_update|]. intros _.
    apply preserves_bind; [apply preserves_commit|]. intros _.
    apply preserves_raise.
Qed.

Lemma length_filter_map {A B} (f : B -> bool) (g : A -> B) l :
  length (List.filter f (map g l))
  = length (List.filter (fun a => f (g a)) l).
Proof.
  induction l as [|a l IH]; simpl; [reflexivity|].
  destruct (f (g a)); simpl; rewrite IH; reflexivity.
Qed.

Lemma filter_singleton_owner paths path_id path :
  List.filter (fun p => Nat.eqb (cp_id p) path_id) paths = [path] ->
  forall row, In row paths -> cp_id row = path_id -> row = path.
Proof.
  intros Hrow row Hin Hid.
  assert (H : In row (List.filter (fun p => Nat.eqb (cp_id p) path_id) paths)).
  { apply filter_In. split; [exact Hin | apply Nat.eqb_eq; exact Hid]. }
  rewrite Hrow in H. destruct H as [H|[]]. congruence.
Qed.

(** The transition leaves exactly the accepted row as accepted path of the
    requester, and the accepted paths of everybody else as they were. *)
Lemma one_accepted_transition paths path_id user_id path :
  List.filter (fun p => Nat.eqb (cp_id p) path_id) paths = [path] ->
  cp_user_id path = user_id ->
  one_accepted_per_user paths ->
  one_accepted_per_user (map (accepted_transition path_id user_id) paths).
Proof.
  intros Hrow Huser Hone u. unfold accepted_of. rewrite length_filter_map.
  pose proof (filter_singleton_owner paths path_id path Hrow) as Hown.
  destruct (Nat.eq_dec u user_id) as [->|Hne].
  - rewrite (filter_ext_in _ (fun p => Nat.eqb (cp_id p) path_id)).
    + rewrite Hrow. simpl. lia.
    + intros row Hin. unfold accepted_transition.
      destruct (Nat.eqb_spec (cp_id row) path_id) as [Hid|Hid].
      * simpl. rewrite (Hown row Hin Hid), Huser, Nat.eqb_refl. reflexivity.
      * destruct (Nat.eqb (cp_user_id row) user_id) eqn:Eu;
          destruct (String.eqb (cp_status row) "proposed") eqn:Ep;
          destruct (String.eqb (cp_status row) "accepted") eqn:Ea;
          simpl; rewrite ?Eu, ?Ea; try reflexivity.
        all: rewrite andb_false_r; reflexivity.
  - rewrite (filter_ext_in _ (fun p => Nat.eqb (cp_user_id p) u
                                       && String.eqb (cp_status p) "accepted")).
    + apply Hone.
    + intros row Hin. unfold accepted_transition.
      destruct (Nat.eqb_spec (cp_id row) path_id) as [Hid|Hid].
      * simpl. rewrite (Hown row Hin Hid), Huser.
        destruct (Nat.eqb_spec user_id u); [congruence | reflexivity].
      * destruct (Nat.eqb_spec (cp_user_id row) user_id) as [Eu|Eu];
          [|reflexivity].
        destruct (String.eqb (cp_status row) "proposed"
                  || String.eqb (cp_status row) "accepted"); simpl;
          [|reflexivity].
        rewrite Eu. destruct (Nat.eqb_spec user_id u); [congruence|].
        reflexivity.
Qed.

Lemma preserves_accept path_id user_id : preserves (accept_path path_id user_id).
Proof.
  intros s Hs.
  destruct (List.filter (fun p => Nat.eqb (cp_id p) path_id)
              (career_paths (working s))) as [|path [|other rest]] eqn:Hrow.
  - unfold accept_path, bind at 1.
    rewrite (get_by_id_none s path_id Hrow). exact Hs.
  - destruct (Nat.eqb (cp_user_id path) user_id) eqn:Eu.
    + destruct (String.eqb (cp_status path) "proposed") eqn:Ep.
      * apply Nat.eqb_eq in Eu. apply String.eqb_eq in Ep.
        rewrite (accept_path_run s path_id user_id path Hrow Eu Ep).
        destruct Hs as (Hw & Hc & Hall).
        pose proof (one_accepted_transition _ _ _ _ Hrow Eu Hw) as Hnew.
        unfold session_inv; simpl. repeat split; try exact Hnew.
        apply Forall_app. split; [exact Hall|].
        constructor; [exact Hnew | constructor].
      * unfold accept_path, bind at 1.
        rewrite (get_by_id_found s path_id path Hrow), Eu, Ep. exact Hs.
    + unfold accept_path, bind at 1.
      rewrite (get_by_id_found s path_id path Hrow), Eu. exact Hs.
  - unfold accept_path, bind at 1.
    destruct (get_by_id_many s path_id path other rest Hrow) as [e He].
    rewrite He. exact Hs.
Qed.

Lemma request_inv {A} (m : M A) s :
  preserves m -> session_inv s -> session_inv (request m s).2.
Proof.
  intros Hm Hs. unfold request. specialize (Hm s Hs).
  destruct (m s) as [[a|e] s1]; simpl in *; [exact Hm|].
  destruct Hm as (Hw & Hc & Hall). unfold session_inv, rollback; simpl. tauto.
Qed.

Lemma reachable_session_inv s : reachable_session s -> session_inv s.
Proof.
  induction 1 as [db uuids Hnil|s op Hr IH].
  - assert (H : one_accepted_per_user (career_paths db)).
    { rewrite Hnil. intros u. simpl. lia. }
    unfold session_inv; simpl. repeat split; try exact H.
    constructor; [exact H | constructor].
  - destruct op; simpl.
    + apply request_inv; [apply preserves_generate | exact IH].
    + apply request_inv; [apply preserves_accept | exact IH].
Qed.

(** The response of a row that passes the validation of the schema. *)
Lemma orm_to_response_valid orm :
  validation_errors orm = 0 ->
  exists response,
    orm_to_response orm = Ok response /\
    pr_id response = cp_id orm /\ pr_user_id response = cp_user_id orm /\
    pr_status response = cp_status orm.
Proof.
  intros H. unfold orm_to_response. rewrite H.
  destruct (cp_path_name orm) as [path_name|] eqn:E.
  - eexists. split; [reflexivity|]. repeat split.
  - unfold validation_errors in H. rewrite E in H. discriminate H.
Qed.

Lemma orm_to_response_invalid orm :
  validation_errors orm <> 0 ->
  orm_to_response orm
  = Raise (response_validation_error (validation_errors orm)).
Proof.
  intros H. unfold orm_to_response.
  destruct (cp_path_name orm); [|reflexivity].
  destruct (Nat.eqb_spec (validation_errors orm) 0); [contradiction|].
  reflexivity.
Qed.

(** The error of a list of rows is the error of one of its rows, one that
    the schema does not accept. *)
Lemma orms_to_responses_raise orms e :
  orms_to_responses orms = Raise e ->
  exists orm,
    In orm orms /\ validation_errors orm <> 0 /\
    e = response_validation_error (validation_errors orm).
Proof.
  induction orms as [|orm rest IH]; [discriminate|].
  cbn [orms_to_responses].
  destruct (Nat.eq_dec (validation_errors orm) 0) as [H0|H0].
  - destruct (orm_to_response_valid orm H0) as (r & -> & _).
    destruct (orms_to_responses rest) as [rs|e'] eqn:E; [discriminate|].
    intros H. inversion H; subst e'.
    destruct (IH eq_refl) as (o & Hin & Hv & He).
    exists o. split; [right; exact Hin|]. split; assumption.
  - rewrite (orm_to_response_invalid orm H0). intros H. inversion H.
    exists orm. split; [left; reflexivity|]. split; [exact H0 | reflexivity].
Qed.

(** C1. Accept-path. In a session where exactly one row has the requested
    id, that row belongs to the requester and its status is "proposed",
    [accept_path] sets the row to "accepted" and commits once; the
    committed career paths are the former ones with that row "accepted",
    every other row of the requester that was proposed or accepted
    "discarded", and all other rows untouched. After the commit the call
    returns the accepted row as a [CareerPathResponse]; for a row that the
    schema does not accept (an empty name, a negative duration) it raises
    the validation error instead, the transition staying committed. In
    every session
    reachable through the operations that write career paths (generation
    and acceptance, each followed by the rollback of a failed request),
    from a database without career paths, every state ever committed has
    at most one accepted path per subject. *)
Theorem accept_path_single_accepted :
  (forall s path_id user_id path,
      List.filter (fun p => Nat.eqb (cp_id p) path_id)
        (career_paths (working s)) = [path] ->
      cp_user_id path = user_id ->
      cp_status path = "proposed" ->
      let res := accept_path path_id user_id s in
      res.1 = orm_to_response (with_status path "accepted") /\
      (validation_errors path = 0 ->
       exists response,
         res.1 = Ok response /\ pr_id response = path_id /\
         pr_user_id response = user_id /\ pr_status response = "accepted") /\
      (validation_errors path <> 0 ->
       res.1 = Raise (response_validation_error (validation_errors path))) /\
      working res.2 = committed res.2 /\
      commits res.2 = commits s ++ [committed res.2] /\
      committed res.2
      = set_career_paths
          (map (accepted_transition path_id user_id)
             (career_paths (working s))) (working s) /\
      (forall row, In row (career_paths (committed res.2)) ->
                   cp_id row = path_id -> cp_status row = "accepted") /\
      (forall row, In row (career_paths (working s)) ->
                   cp_id row <> path_id -> cp_user_id row = user_id ->
                   cp_status row = "proposed" \/ cp_status row = "accepted" ->
                   In (with_status row "discarded")
                     (career_paths (committed res.2)))) /\
  (forall s, reachable_session s ->
             one_accepted_per_user (career_paths (committed s)) /\
             Forall (fun db => one_accepted_per_user (career_paths db))
               (commits s)).
Proof.
  split.
  - intros s path_id user_id path Hrow Huser Hst res.
    unfold res. rewrite (accept_path_run s path_id user_id path Hrow Huser Hst).
    cbn [fst snd working committed commits career_paths set_career_paths].
    destruct (filter_singleton_in _ _ _ Hrow) as [_ Hid0].
    apply Nat.eqb_eq in Hid0.
    split; [reflexivity|]. split.
    { intros Hv.
      destruct (orm_to_response_valid (with_status path "accepted") Hv)
        as (response & Hr & Hi & Hu & Hs).
      exists response. cbn [with_status cp_id cp_user_id cp_status] in Hi, Hu, Hs.
      split; [exact Hr|]. split; [congruence|]. split; [congruence|].
      exact Hs. }
    split.
    { intros Hv.
      exact (orm_to_response_invalid (with_status path "accepted") Hv). }
    repeat split.
    + intros row Hin Hid. apply in_map_iff in Hin as (r0 & <- & Hin0).
      unfold accepted_transition in *.
      destruct (Nat.eqb_spec (cp_id r0) path_id) as [E|E]; [reflexivity|].
      exfalso. apply E.
      destruct (Nat.eqb (cp_user_id r0) user_id
                && (String.eqb (cp_status r0) "proposed"
                    || String.eqb (cp_status r0) "accepted"));
        simpl in Hid; exact Hid.
    + intros row Hin Hid Hu Hstat. apply in_map_iff. exists row.
      split; [|exact Hin]. unfold accepted_transition.
      destruct (Nat.eqb_spec (cp_id row) path_id) as [E|E]; [contradiction|].
      rewrite Hu, Nat.eqb_refl.
      destruct Hstat as [->| ->]; reflexivity.
  - intros s Hr. destruct (reachable_session_inv s Hr) as (_ & Hc & Hall).
    split; assumption.
Qed.

(** Accepting the first of the two generated paths of the demo session:
    it is accepted, the second is discarded. *)
Lemma accept_path_single_accepted_witness :
  List.filter (fun p => Nat.eqb (cp_id p) 101)
    (career_paths (working demo_generated)) = [demo_first_path] /\
  cp_user_id demo_first_path = 1 /\
  cp_status demo_first_path = "proposed" /\
  let res := accept_path 101 1 demo_generated in
  (exists response,
     res.1 = Ok response /\ pr_id response = 101 /\
     pr_status response = "accepted") /\
  map (fun p => (cp_id p, cp_status p)) (career_paths (committed res.2))
  = [(101, "accepted"); (110, "discarded")].
Proof.
  assert (H : List.filter (fun p => Nat.eqb (cp_id p) 101)
                (career_paths (working demo_generated)) = [demo_first_path]).
  { vm_compute. reflexivity. }
  split; [exact H|]. split; [reflexivity|]. split; [reflexivity|].
  destruct (proj1 accept_path_single_accepted demo_generated 101 1
              demo_first_path H eq_refl eq_refl)
    as (_ & H1 & _ & _ & _ & H4 & _).
  destruct (H1 eq_refl) as (response & Hr & Hi & _ & Hs).
  split; [exists response; repeat split; assumption|].
  cbv zeta. rewrite H4. vm_compute. reflexivity.
Defined.

End PersistenceTheory.

(** * More of the resilience layer *)

Module ClientsTheory.
Import Resilience Clients ResilienceTheory.

Section BreakerShape.
Context {T : Type}.




End BreakerShape.


Section RetryBounds.
Context {T : Type}.

(** X2. [retry_with_backoff] with a negative [max_retries] makes no
    attempt: the loop body never runs, the function is not invoked,
    nothing is slept, and the call raises the [RuntimeError] of the last
    line. The wrapper [with_retry] builds, called without positional
    arguments, does the same. *)
Theorem retry_without_attempts (func : Computation T) (max_retries : Z)
  (initial_delay backoff_factor : Q) (w : World) :
  (max_retries < 0)%Z ->
  retry_with_backoff func max_retries initial_delay backoff_factor w
  = (Raise (mkExn "RuntimeError" "Retry failed without exception"), w) /\
  with_retry max_retries initial_delay backoff_factor func 0 w
  = (Raise (mkExn "RuntimeError" "Retry failed without exception"), w).
Proof.
  intros Hneg.
  assert (H : Z.to_nat (max_retries + 1) = 0) by lia.
  unfold with_retry, retry_with_backoff. rewrite H. split; reflexivity.
Qed.




End RetryBounds.

(** [max_retries = -1]: no attempt, a [RuntimeError]. *)
Lemma retry_without_attempts_witness :
  (-1 < 0)%Z /\
  retry_with_backoff always_ok (-1) 1 2 (mkWorld 0 [])
  = (Raise (mkExn "RuntimeError" "Retry failed without exception"),
     mkWorld 0 []).
Proof.
  split; [lia|].
  exact (proj1 (retry_without_attempts always_ok (-1) 1 2 (mkWorld 0 [])
                  ltac:(lia))).
Defined.


Section ProductionCall.
Context {T : Type}.

(** The decorated method, called with a positional argument, fails
    before the function is reached. *)
Lemma with_retry_positional (func : Computation T) max_retries initial_delay
  backoff_factor k w :
  with_retry max_retries initial_delay backoff_factor func (S k) w
  = (Raise retry_type_error, w).
Proof. reflexivity. Qed.

Lemma failed_breaker_step threshold tmo nm m now :
  (Z.of_nat m < threshold)%Z ->
  on_failure (failed_breaker threshold tmo nm m now) now
  = failed_breaker threshold tmo nm (S m) now.
Proof.
  intros Hlt. unfold on_failure, failed_breaker.
  cbn [failure_threshold timeout name failure_count state].
  replace (Z.of_nat m + 1)%Z with (Z.of_nat (S m)) by lia.
  destruct (Z.leb_spec threshold (Z.of_nat m)); [lia|]. reflexivity.
Qed.

Lemma failed_calls_accumulate (func : Computation T) threshold tmo nm
  max_retries initial_delay k w n : forall m,
  (Z.of_nat (m + n) <= threshold)%Z ->
  call_all (failed_breaker threshold tmo nm m (clock w))
    (replicate n (with_retry max_retries initial_delay 2 func (S k))) w
  = (failed_breaker threshold tmo nm (m + n) (clock w), w).
Proof.
  induction n as [|n IH]; intros m Hle.
  - rewrite Nat.add_0_r. reflexivity.
  - cbn [replicate call_all].
    assert (Hs : state (failed_breaker threshold tmo nm m (clock w)) = CLOSED).
    { unfold failed_breaker. cbn [state].
      destruct (Z.leb_spec threshold (Z.of_nat m)); [lia | reflexivity]. }
    unfold call, admit_call. rewrite Hs. unfold guarded.
    rewrite with_retry_positional.
    rewrite failed_breaker_step by lia.
    rewrite IH by lia.
    replace (S m + n) with (m + S n) by lia. reflexivity.
Qed.

(** X4. The production branch of the AI clients never reaches the HTTP
    service. [_call_production_api] is always called with a positional
    argument ([self] at least), and [with_retry] forwards positional
    arguments after its keyword arguments, so the call of
    [retry_with_backoff] raises [TypeError]: a call the breaker admits
    raises that error with the world unchanged (no invocation, no sleep)
    and counts one failure; [n <= failure_threshold] such calls on a fresh
    breaker leave the counter at [n], and the circuit OPEN as soon as [n]
    is the threshold; so [AICareerClient.generate_career_paths] and
    [AISkillsClient.assess_skills] return a value in dummy mode only. *)
Theorem production_call_never_attempts (http_post : Computation T)
  (dummy : T) (threshold : Z) (tmo : Q) (nm : string) (max_retries : Z)
  (initial_delay : Q) (w : World) :
  (1 <= threshold)%Z ->
  (forall k cb cbh,
      admit_call cb w = inl cbh ->
      protected_call cb max_retries initial_delay http_post (S k) w
      = (Raise retry_type_error, on_failure cbh (clock w), w)) /\
  (forall k n,
      (Z.of_nat n <= threshold)%Z ->
      call_all (CircuitBreaker_init threshold tmo nm)
        (replicate n (with_retry max_retries initial_delay 2 http_post (S k)))
        w
      = (failed_breaker threshold tmo nm n (clock w), w)) /\
  (forall cb,
      let career :=
        AICareerClient_generate_career_paths false dummy cb max_retries
          initial_delay http_post w in
      let skills :=
        AISkillsClient_assess_skills false dummy cb max_retries initial_delay
          http_post w in
      is_ok career.1.1 = false /\ career.2 = w /\
      is_ok skills.1.1 = false /\ skills.2 = w) /\
  (forall cb,
      AICareerClient_generate_career_paths true dummy cb max_retries
        initial_delay http_post w = (Ok dummy, cb, sleep 0.5 w)).
Proof.
  intros Hth. split; [|split; [|split]].
  - intros k cb cbh Hadm. unfold protected_call, call. rewrite Hadm.
    unfold guarded. rewrite with_retry_positional. reflexivity.
  - intros k n Hn.
    assert (Hinit : CircuitBreaker_init threshold tmo nm
                    = failed_breaker threshold tmo nm 0 (clock w)).
    { unfold CircuitBreaker_init, failed_breaker.
      change (Z.of_nat 0) with 0%Z.
      destruct (Z.leb_spec threshold 0); [lia | reflexivity]. }
    rewrite Hinit.
    exact (failed_calls_accumulate http_post threshold tmo nm max_retries
             initial_delay k w n 0 Hn).
  - intros cb. cbv zeta.
    unfold AICareerClient_generate_career_paths, AISkillsClient_assess_skills,
      _call_production_api, AISkillsClient_call_production_api,
      protected_call, call.
    destruct (admit_call cb w) as [cbh|e]; [|repeat split].
    unfold guarded. rewrite !with_retry_positional. repeat split.
  - intros cb. reflexivity.
Qed.

Lemma production_branch_raises (cb : CircuitBreaker) (max_retries : Z)
  (initial_delay : Q) (http_post : Computation T) (k : nat) (w : World) :
  (protected_call cb max_retries initial_delay http_post (S k) w).1.1
  = Raise (production_exn cb w).
Proof.
  unfold protected_call, call, production_exn.
  destruct (admit_call cb w) as [cbh|e]; [|reflexivity].
  unfold guarded. rewrite with_retry_positional. reflexivity.
Qed.

End ProductionCall.

(** Five production calls through a fresh breaker of threshold 5, with a
    service that would answer: no invocation, the circuit is OPEN. *)
Lemma production_call_never_attempts_witness :
  (1 <= 5)%Z /\
  let end_ :=
    call_all (CircuitBreaker_init 5 60 "ai_career_service")
      (replicate 5 (with_retry 3 1 2 always_ok 3)) (mkWorld 0 []) in
  state end_.1 = OPEN /\ failure_count end_.1 = 5%Z /\
  call_count end_.2 = 0.
Proof.
  split; [lia|]. cbv zeta.
  rewrite (proj1 (proj2 (production_call_never_attempts always_ok 0 5 60
                           "ai_career_service" 3 1 (mkWorld 0 [])
                           ltac:(lia))) 2 5 ltac:(lia)).
  repeat split.
Defined.

Section Absorbed.
Context {T : Type}.

(** X5. Retry inside the breaker, for a function called without
    positional arguments. Failures that the retries absorb never reach the
    breaker: when the function fails [k <= max_retries] times and then
    returns, a protected call the breaker admits returns that value after
    [k + 1] invocations and the breaker records a success; a CLOSED
    breaker is left exactly as it was, counter and failure time
    included. *)
Theorem absorbed_failures_not_counted (script : nat -> Attempt T)
  (errs : nat -> Exn) (cb cbh : CircuitBreaker) (max_retries : Z)
  (initial_delay : Q) (k : nat) (v : T) (w : World) :
  admit_call cb w = inl cbh ->
  (Z.of_nat k < max_retries + 1)%Z ->
  (forall i, i < k -> outcome (script (call_count w + i)) = Raise (errs i)) ->
  outcome (script (call_count w + k)) = Ok v ->
  let res := protected_call cb max_retries initial_delay (scripted script)
               0 w in
  res.1.1 = Ok v /\ res.1.2 = on_success cbh /\
  call_count res.2 = call_count w + (k + 1) /\
  (state cb = CLOSED -> res.1.2 = cb).
Proof.
  intros Hadm Hk Hfail Hok res.
  pose proof (retry_loop_recovers script errs (max_retries + 1) 2 v k
                (Z.to_nat (max_retries + 1)) 1%Z initial_delay None w
                ltac:(lia) ltac:(lia) Hfail Hok) as (H1 & H2).
  fold (retry_with_backoff (scripted script) max_retries initial_delay 2 w)
    in H1, H2.
  unfold res, protected_call, call. rewrite Hadm. unfold guarded.
  cbn [with_retry].
  destruct (retry_with_backoff (scripted script) max_retries initial_delay
              2 w) as [r w1].
  cbn [fst snd] in H1, H2. subst r. cbn [fst snd].
  split; [reflexivity|]. split; [reflexivity|]. split.
  - unfold call_count. rewrite H2, calls_in_app, calls_in_attempts,
      length_backoff_delays. lia.
  - intros Hs. unfold admit_call in Hadm. rewrite Hs in Hadm.
    inversion Hadm; subst cbh. unfold on_success. rewrite Hs. reflexivity.
Qed.

End Absorbed.

(** Two time-outs, then 7, under three retries: the breaker that had
    counted one failure still counts one. *)
Lemma absorbed_failures_not_counted_witness :
  let cb := mkBreaker 5 60 "ai_career_service" 1 (Some 0%Q) CLOSED in
  let res := protected_call cb 3 1 (scripted failing_twice) 0 (mkWorld 0 []) in
  admit_call cb (mkWorld 0 []) = inl cb /\ (Z.of_nat 2 < 3 + 1)%Z /\
  res.1.1 = Ok 7 /\ res.1.2 = cb /\ call_count res.2 = 3.
Proof.
  cbv zeta. split; [reflexivity|]. split; [lia|].
  destruct (absorbed_failures_not_counted failing_twice
              (fun _ => timeout_error)
              (mkBreaker 5 60 "ai_career_service" 1 (Some 0%Q) CLOSED)
              (mkBreaker 5 60 "ai_career_service" 1 (Some 0%Q) CLOSED)
              3 1 2 7 (mkWorld 0 []) eq_refl ltac:(lia))
    as (H1 & _ & H3 & H4).
  - intros [|[|i]] Hi; [reflexivity | reflexivity | lia].
  - reflexivity.
  - split; [exact H1|]. split; [exact (H4 eq_refl) | exact H3].
Defined.

End ClientsTheory.

(** * Domain entities and mappers *)

Module EntitiesTheory.
Import EvaluationLogic Entities EvaluationTheory.

Lemma between_spec lo hi x :
  between lo hi x = true <-> (lo <= x <= hi)%Q.
Proof.
  unfold between. rewrite andb_true_iff, !Qle_bool_iff. reflexivity.
Qed.

Lemma between_score x : between 0.0 10.0 x = true <-> valid_score x.
Proof.
  rewrite between_spec. unfold valid_score.
  assert (E0 : (0.0 == 0)%Q) by reflexivity.
  assert (E10 : (10.0 == 10)%Q) by reflexivity.
  rewrite E0, E10. reflexivity.
Qed.

Lemma CompetencyScore_new_valid repr skill x comments :
  valid_score x ->
  CompetencyScore_new repr skill x comments = Ok (mkScore skill x comments).
Proof.
  intros H. unfold CompetencyScore_new.
  apply between_score in H. rewrite H. reflexivity.
Qed.

Lemma CompetencyScore_new_invalid repr skill x comments :
  ~ valid_score x ->
  CompetencyScore_new repr skill x comments
  = Raise (value_error ("Score must be between 0 and 10, got " +:+ repr x)).
Proof.
  intros H. unfold CompetencyScore_new.
  destruct (between 0.0 10.0 x) eqn:E; [|reflexivity].
  apply between_score in E. contradiction.
Qed.

Lemma valid_score_dec x : valid_score x \/ ~ valid_score x.
Proof.
  destruct (between 0.0 10.0 x) eqn:E.
  - left. apply between_score, E.
  - right. intros H. apply between_score in H. congruence.
Qed.

Lemma scores_of_orm_valid repr rows :
  Forall (fun row => valid_score (cso_score row)) rows ->
  scores_of_orm repr rows
  = Ok (map (fun row => mkScore (cso_skill_id row) (cso_score row)
                          (cso_comments row)) rows).
Proof.
  induction 1 as [|row rows Hrow _ IH]; [reflexivity|].
  cbn [scores_of_orm map].
  rewrite (CompetencyScore_new_valid repr _ _ _ Hrow), IH. reflexivity.
Qed.

Lemma scores_of_orm_invalid repr good bad rest :
  Forall (fun row => valid_score (cso_score row)) good ->
  ~ valid_score (cso_score bad) ->
  scores_of_orm repr (good ++ bad :: rest)
  = Raise (value_error ("Score must be between 0 and 10, got "
                        +:+ repr (cso_score bad))).
Proof.
  intros Hgood Hbad. induction Hgood as [|row rows Hrow _ IH].
  - cbn [app scores_of_orm].
    rewrite (CompetencyScore_new_invalid repr _ _ _ Hbad). reflexivity.
  - cbn [app scores_of_orm].
    rewrite (CompetencyScore_new_valid repr _ _ _ Hrow), IH. reflexivity.
Qed.

(** A list satisfies a decidable property everywhere, or has a first
    element that does not. *)
Lemma Forall_or_first {A} (P : A -> Prop) (l : list A) :
  (forall x, P x \/ ~ P x) ->
  Forall P l \/
  exists good bad rest, l = good ++ bad :: rest /\ Forall P good /\ ~ P bad.
Proof.
  intros Hdec. induction l as [|x l IH].
  - left. constructor.
  - destruct (Hdec x) as [Hx|Hx].
    + destruct IH as [IH|(good & bad & rest & -> & Hg & Hb)].
      * left. constructor; assumption.
      * right. exists (x :: good), bad, rest.
        split; [reflexivity|]. split; [constructor; assumption | exact Hb].
    + right. exists [], x, l. split; [reflexivity|].
      split; [constructor | exact Hx].
Qed.

(** X6. [EvaluationMapper.orm_to_entity] validates while it converts. A
    row whose scores all lie in [0, 10] becomes the entity with the same
    fields and the same scores in the same order; a row with a score
    outside raises the [ValueError] of [CompetencyScore.__post_init__] for
    the first such score. So every entity the mapper returns carries only
    scores within [0, 10]. *)
Theorem orm_to_entity_validates (float_repr : Q -> string)
  (orm : EvaluationORM) :
  (Forall (fun row => valid_score (cso_score row)) (eo_competency_scores orm)
   -> orm_to_entity float_repr orm = Ok (entity_of orm)) /\
  (forall good bad rest,
      eo_competency_scores orm = good ++ bad :: rest ->
      Forall (fun row => valid_score (cso_score row)) good ->
      ~ valid_score (cso_score bad) ->
      orm_to_entity float_repr orm
      = Raise (value_error ("Score must be between 0 and 10, got "
                            +:+ float_repr (cso_score bad)))) /\
  (forall e, orm_to_entity float_repr orm = Ok e ->
             e = entity_of orm /\ valid_scores e).
Proof.
  assert (Hok : Forall (fun row => valid_score (cso_score row))
                  (eo_competency_scores orm) ->
                orm_to_entity float_repr orm = Ok (entity_of orm)).
  { intros H. unfold orm_to_entity.
    rewrite (scores_of_orm_valid float_repr _ H). reflexivity. }
  assert (Hbad : forall good bad rest,
             eo_competency_scores orm = good ++ bad :: rest ->
             Forall (fun row => valid_score (cso_score row)) good ->
             ~ valid_score (cso_score bad) ->
             orm_to_entity float_repr orm
             = Raise (value_error ("Score must be between 0 and 10, got "
                                   +:+ float_repr (cso_score bad)))).
  { intros good bad rest E Hg Hb. unfold orm_to_entity. rewrite E.
    rewrite (scores_of_orm_invalid float_repr good bad rest Hg Hb).
    reflexivity. }
  split; [exact Hok|]. split; [exact Hbad|].
  intros e He.
  destruct (Forall_or_first (fun row => valid_score (cso_score row))
              (eo_competency_scores orm)
              (fun row => valid_score_dec (cso_score row)))
    as [H|(good & bad & rest & E & Hg & Hb)].
  - rewrite (Hok H) in He. inversion He; subst e. split; [reflexivity|].
    unfold valid_scores, entity_of. cbn [competency_scores].
    apply Forall_map. exact H.
  - rewrite (Hbad good bad rest E Hg Hb) in He. discriminate.
Qed.

(** X7. Looking a competency up in an evaluation. [has_competency] holds
    exactly when [get_competency_score] finds a score; the score found
    has the requested skill and is the first such score of the evaluation
    (a later score of the same skill is never returned); nothing is found
    exactly when no score has the skill. *)
Theorem competency_lookup (e : EvaluationEntity) (skill : UUID) :
  (has_competency e skill = true
   <-> is_Some (get_competency_score e skill)) /\
  (forall cs,
      get_competency_score e skill = Some cs ->
      skill_id cs = skill /\
      exists before after,
        competency_scores e = before ++ cs :: after /\
        Forall (fun c => skill_id c <> skill) before) /\
  (get_competency_score e skill = None
   <-> Forall (fun c => skill_id c <> skill) (competency_scores e)).
Proof.
  unfold has_competency, get_competency_score.
  induction (competency_scores e) as [|c l (IH1 & IH2 & IH3)].
  - split; [|split].
    + simpl. split; [discriminate | intros [x Hx]; discriminate].
    + intros cs H. discriminate.
    + split; [constructor | reflexivity].
  - cbn [existsb List.find].
    destruct (Nat.eqb_spec (skill_id c) skill) as [E|E].
    + split; [|split].
      * split; [eauto | reflexivity].
      * intros cs [= <-]. split; [exact E|].
        exists [], l. split; [reflexivity | constructor].
      * split; [discriminate|]. intros H. inversion H; subst. contradiction.
    + split; [|split].
      * exact IH1.
      * intros cs H. destruct (IH2 cs H) as (Hs & before & after & -> & Hb).
        split; [exact Hs|]. exists (c :: before), after.
        split; [reflexivity | constructor; assumption].
      * rewrite IH3. split; [intros H; constructor; assumption|].
        intros H. inversion H; assumption.
Qed.

(** *** The score store of the aggregation *)

Lemma od_get_In {V} k (v : V) d : od_get k d = Some v -> In (k, v) d.
Proof.
  induction d as [|[k1 v1] d IH]; simpl; [discriminate|].
  destruct (Nat.eqb_spec k1 k) as [->|Hne].
  - intros [= ->]. left. reflexivity.
  - intros H. right. apply IH, H.
Qed.

Lemma od_set_In {V} k (v : V) d k1 v1 :
  In (k1, v1) (od_set k v d) -> (k1, v1) = (k, v) \/ In (k1, v1) d.
Proof.
  induction d as [|[k2 v2] d IH]; simpl.
  - intros [H|[]]. left. symmetry. exact H.
  - destruct (Nat.eqb_spec k2 k) as [->|Hne]; simpl.
    + intros [H|H]; [left; symmetry; exact H | right; right; exact H].
    + intros [H|H]; [right; left; exact H|].
      destruct (IH H) as [E|E]; [left; exact E | right; right; exact E].
Qed.

Lemma empty_scores_keys kind :
  is_Some (empty_scores !! kind) <-> In kind relationship_kinds.
Proof.
  split.
  - unfold empty_scores. intros H.
    apply lookup_insert_is_Some in H as [<-|[_ H]]; [simpl; tauto|].
    apply lookup_insert_is_Some in H as [<-|[_ H]]; [simpl; tauto|].
    apply lookup_insert_is_Some in H as [<-|[_ H]]; [simpl; tauto|].
    apply lookup_insert_is_Some in H as [<-|[_ H]]; [simpl; tauto|].
    rewrite lookup_empty in H. destruct H; discriminate.
  - intros H. rewrite (empty_scores_lookup kind H). eauto.
Qed.

Lemma empty_scores_lists (P : Q -> Prop) kind l :
  empty_scores !! kind = Some l -> Forall P l.
Proof.
  intros H. assert (Hs : is_Some (empty_scores !! kind)) by eauto.
  apply empty_scores_keys in Hs.
  rewrite (empty_scores_lookup kind Hs) in H. inversion H. constructor.
Qed.

Lemma store_inv_nil P : store_inv P [].
Proof. intros skill by_rel []. Qed.

Lemma add_score_inv P rel d cs :
  store_inv P d -> In rel relationship_kinds -> P (score cs) ->
  exists d1, add_score rel d cs = Ok d1 /\ store_inv P d1.
Proof.
  intros Hinv Hrel HP. unfold add_score.
  set (by_rel := match od_get (skill_id cs) d with
                 | Some by_rel => by_rel
                 | None => empty_scores
                 end).
  assert (Hkeys : forall kind,
             is_Some (by_rel !! kind) <-> In kind relationship_kinds).
  { subst by_rel. destruct (od_get (skill_id cs) d) as [b|] eqn:E.
    - apply (Hinv _ _ (od_get_In _ _ _ E)).
    - apply empty_scores_keys. }
  assert (Hlists : forall kind l, by_rel !! kind = Some l -> Forall P l).
  { subst by_rel. destruct (od_get (skill_id cs) d) as [b|] eqn:E.
    - apply (Hinv _ _ (od_get_In _ _ _ E)).
    - apply empty_scores_lists. }
  destruct (proj2 (Hkeys rel) Hrel) as [scores Hs]. rewrite Hs.
  eexists. split; [reflexivity|].
  intros skill b Hin. apply od_set_In in Hin as [E|Hin];
    [|exact (Hinv _ _ Hin)].
  inversion E; subst skill b. split; [|split].
  - intros kind. rewrite lookup_insert_is_Some. split.
    + intros [<-|[_ H]]; [exact Hrel | apply Hkeys, H].
    + intros H. destruct (decide (rel = kind)) as [->|Hne];
        [left; reflexivity | right; split; [exact Hne | apply Hkeys, H]].
  - intros kind l Hl. destruct (decide (rel = kind)) as [->|Hne].
    + rewrite lookup_insert_eq in Hl. inversion Hl; subst l.
      apply Forall_app. split; [exact (Hlists _ _ Hs)|].
      constructor; [exact HP | constructor].
    + rewrite lookup_insert_ne in Hl by exact Hne. exact (Hlists _ _ Hl).
  - exists rel, (scores ++ [score cs]). split.
    + apply lookup_insert_eq.
    + intros H. apply app_eq_nil in H as [_ H]. discriminate.
Qed.

Lemma add_score_unknown P rel d cs :
  store_inv P d -> ~ In rel relationship_kinds ->
  add_score rel d cs = Raise (key_error rel).
Proof.
  intros Hinv Hrel. unfold add_score.
  set (by_rel := match od_get (skill_id cs) d with
                 | Some by_rel => by_rel
                 | None => empty_scores
                 end).
  assert (Hkeys : forall kind,
             is_Some (by_rel !! kind) <-> In kind relationship_kinds).
  { subst by_rel. destruct (od_get (skill_id cs) d) as [b|] eqn:E.
    - apply (Hinv _ _ (od_get_In _ _ _ E)).
    - apply empty_scores_keys. }
  destruct (by_rel !! rel) as [scores|] eqn:Hs; [|reflexivity].
  exfalso. apply Hrel, Hkeys. eauto.
Qed.

Lemma add_scores_inv P rel css : forall d,
  store_inv P d -> In rel relationship_kinds ->
  Forall (fun cs => P (score cs)) css ->
  exists d1, add_scores rel d css = Ok d1 /\ store_inv P d1.
Proof.
  induction css as [|cs css IH]; intros d Hinv Hrel Hall.
  - exists d. split; [reflexivity | exact Hinv].
  - inversion Hall as [|? ? Hcs Hrest]; subst.
    destruct (add_score_inv P rel d cs Hinv Hrel Hcs) as (d1 & H1 & Hinv1).
    cbn [add_scores]. rewrite H1. exact (IH d1 Hinv1 Hrel Hrest).
Qed.

Lemma aggregable_dec e : aggregable e \/ ~ aggregable e.
Proof.
  unfold aggregable, known_relationship.
  destruct (is_submitted e); [|left; intros; discriminate].
  destruct (competency_scores e); [left; intros _ H; congruence|].
  destruct (in_dec String.string_dec (evaluator_relationship e)
              relationship_kinds)
    as [H|H].
  - left. intros _ _. exact H.
  - right. intros Ha. apply H, Ha; [reflexivity | discriminate].
Qed.

Lemma collect_inv P evs : forall d,
  store_inv P d -> Forall aggregable evs ->
  Forall (submitted_scores P) evs ->
  exists d1, collect_scores d evs = Ok d1 /\ store_inv P d1.
Proof.
  induction evs as [|e evs IH]; intros d Hinv Hagg HP.
  - exists d. split; [reflexivity | exact Hinv].
  - inversion Hagg as [|? ? He Hagg']; subst.
    inversion HP as [|? ? HPe HP']; subst.
    cbn [collect_scores].
    destruct (is_submitted e) eqn:Hsub; cbn [negb];
      [|exact (IH d Hinv Hagg' HP')].
    destruct (competency_scores e) as [|cs css] eqn:Hcs.
    + cbn [add_scores]. exact (IH d Hinv Hagg' HP').
    + assert (Hrel : In (evaluator_relationship e) relationship_kinds).
      { apply He; [exact Hsub | rewrite Hcs; discriminate]. }
      assert (Hall : Forall (fun c => P (score c)) (cs :: css)).
      { rewrite <- Hcs. apply HPe, Hsub. }
      destruct (add_scores_inv P _ (cs :: css) d Hinv Hrel Hall)
        as (d1 & H1 & Hinv1).
      rewrite H1. exact (IH d1 Hinv1 Hagg' HP').
Qed.

Lemma collect_unknown P good bad rest : forall d,
  store_inv P d -> Forall aggregable good ->
  Forall (submitted_scores P) good -> ~ aggregable bad ->
  collect_scores d (good ++ bad :: rest)
  = Raise (key_error (evaluator_relationship bad)).
Proof.
  induction good as [|e good IH]; intros d Hinv Hagg HP Hbad.
  - cbn [app collect_scores].
    destruct (is_submitted bad) eqn:Hsub;
      [|exfalso; apply Hbad; intros H; congruence].
    cbn [negb].
    destruct (competency_scores bad) as [|cs css] eqn:Hcs;
      [exfalso; apply Hbad; intros _ H; congruence|].
    assert (Hrel : ~ In (evaluator_relationship bad) relationship_kinds).
    { intros H. apply Hbad. intros _ _. exact H. }
    cbn [add_scores].
    rewrite (add_score_unknown P _ d cs Hinv Hrel). reflexivity.
  - inversion Hagg as [|? ? He Hagg']; subst.
    inversion HP as [|? ? HPe HP']; subst.
    destruct (collect_inv P [e] d Hinv) as (d1 & H1 & Hinv1);
      [constructor; [exact He | constructor]
      | constructor; [exact HPe | constructor] |].
    cbn [app collect_scores]. cbn [collect_scores] in H1.
    destruct (is_submitted e); cbn [negb] in *.
    + destruct (add_scores (evaluator_relationship e) d (competency_scores e))
        as [d2|ex]; [|discriminate].
      inversion H1; subst d2. exact (IH d1 Hinv1 Hagg' HP' Hbad).
    + inversion H1; subst d1. exact (IH d Hinv Hagg' HP' Hbad).
Qed.

Lemma submitted_scores_trivial evs :
  Forall (submitted_scores (fun _ => True)) evs.
Proof.
  apply Forall_forall. intros e _ _. apply Forall_forall. intros; exact I.
Qed.

(** An aggregation that returns has met aggregable evaluations only. *)
Lemma aggregate_ok_aggregable evs aggregated :
  aggregate_competency_scores evs = Ok aggregated -> Forall aggregable evs.
Proof.
  intros Hok.
  destruct (Forall_or_first aggregable evs aggregable_dec)
    as [H|(good & bad & rest & -> & Hg & Hb)]; [exact H|].
  unfold aggregate_competency_scores in Hok.
  rewrite (collect_unknown (fun _ => True) good bad rest []
             (store_inv_nil _) Hg (submitted_scores_trivial good) Hb) in Hok.
  discriminate.
Qed.

(** The entries of an aggregation that returns. *)
Lemma aggregate_entries P evs aggregated :
  Forall (submitted_scores P) evs ->
  aggregate_competency_scores evs = Ok aggregated ->
  forall skill stats,
    In (skill, stats) aggregated ->
    exists by_rel,
      stats = skill_stats by_rel /\
      (forall kind, is_Some (by_rel !! kind) <-> In kind relationship_kinds) /\
      (forall kind l, by_rel !! kind = Some l -> Forall P l) /\
      (exists kind l, by_rel !! kind = Some l /\ l <> []).
Proof.
  intros HP Hok skill stats Hin.
  pose proof (aggregate_ok_aggregable evs aggregated Hok) as Hagg.
  destruct (collect_inv P evs [] (store_inv_nil P) Hagg HP)
    as (d1 & H1 & Hinv).
  unfold aggregate_competency_scores in Hok. rewrite H1 in Hok.
  inversion Hok; subst aggregated.
  apply in_map_iff in Hin as ([k b] & E & Hin).
  inversion E; subst skill stats.
  exists b. split; [reflexivity|]. exact (Hinv k b Hin).
Qed.

(** X8. What makes the aggregation raise. [aggregate_competency_scores]
    returns exactly when every submitted evaluation that carries a score
    has one of the four relationship kinds; otherwise it raises
    [KeyError] with the relationship of the first submitted, scored
    evaluation of another kind. Evaluations that are not submitted, or
    carry no score, never make it raise, whatever their relationship. *)
Theorem aggregation_key_error (evaluations : list EvaluationEntity) :
  (is_ok (aggregate_competency_scores evaluations) = true
   <-> Forall aggregable evaluations) /\
  (forall good bad rest,
      evaluations = good ++ bad :: rest ->
      Forall aggregable good -> ~ aggregable bad ->
      aggregate_competency_scores evaluations
      = Raise (key_error (evaluator_relationship bad))) /\
  (forall e, is_submitted e = false \/ competency_scores e = [] ->
             aggregable e).
Proof.
  split; [|split].
  - split.
    + intros H.
      destruct (aggregate_competency_scores evaluations) as [a|ex] eqn:E;
        [|discriminate].
      exact (aggregate_ok_aggregable evaluations a E).
    + intros H.
      destruct (collect_inv (fun _ => True) evaluations []
                  (store_inv_nil _) H (submitted_scores_trivial _))
        as (d1 & H1 & _).
      unfold aggregate_competency_scores. rewrite H1. reflexivity.
  - intros good bad rest -> Hg Hb.
    unfold aggregate_competency_scores.
    rewrite (collect_unknown (fun _ => True) good bad rest []
               (store_inv_nil _) Hg (submitted_scores_trivial good) Hb).
    reflexivity.
  - intros e [H|H] Hsub Hne; [congruence | contradiction].
Qed.

(** *** Means of valid scores *)

Lemma scores_at_lookup (by_rel : gmap string (list Q)) kind l :
  by_rel !! kind = Some l -> scores_at by_rel kind = l.
Proof. intros H. unfold scores_at. rewrite H. reflexivity. Qed.

Lemma Qlen_cons x l : (Qlen (x :: l) == Qlen l + 1)%Q.
Proof.
  unfold Qlen. cbn [length]. rewrite Nat2Z.inj_succ, <- Z.add_1_r.
  rewrite inject_Z_plus. reflexivity.
Qed.

Lemma Qlen_nonneg l : (0 <= Qlen l)%Q.
Proof.
  unfold Qlen. change 0%Q with (inject_Z 0). rewrite <- Zle_Qle. lia.
Qed.

Lemma Qlen_pos l : l <> [] -> (0 < Qlen l)%Q.
Proof.
  intros H. destruct l as [|x l]; [contradiction|].
  rewrite Qlen_cons. pose proof (Qlen_nonneg l) as Hn.
  apply Qlt_le_trans with (y := (0 + 1)%Q); [reflexivity|].
  apply Qplus_le_compat; [exact Hn | apply Qle_refl].
Qed.

Lemma sum_bounds l :
  Forall valid_score l ->
  (0 <= fold_right Qplus 0 l <= 10 * Qlen l)%Q.
Proof.
  induction 1 as [|x l [Hx0 Hx10] _ [IH0 IH10]].
  - split; [apply Qle_refl|]. unfold Qlen. simpl. apply Qle_refl.
  - cbn [fold_right]. split.
    + apply Qle_trans with (y := (0 + 0)%Q); [apply Qle_refl|].
      apply Qplus_le_compat; assumption.
    + rewrite Qlen_cons.
      assert (E : (10 * (Qlen l + 1) == 10 + 10 * Qlen l)%Q) by ring.
      rewrite E. apply Qplus_le_compat; assumption.
Qed.

Lemma Qsum_fold l : (Qsum l == fold_right Qplus 0 l)%Q.
Proof. unfold Qsum. rewrite foldl_Qplus. ring. Qed.

Lemma mean_valid l :
  l <> [] -> Forall valid_score l -> valid_score (Qsum l / Qlen l).
Proof.
  intros Hne Hall. pose proof (Qlen_pos l Hne) as Hpos.
  destruct (sum_bounds l Hall) as [H0 H10].
  unfold valid_score. rewrite Qsum_fold. split.
  - apply Qle_shift_div_l; [exact Hpos|]. rewrite Qmult_0_l. exact H0.
  - apply Qle_shift_div_r; [exact Hpos | exact H10].
Qed.

Lemma average_valid l : Forall valid_score l -> optional_valid (average l).
Proof.
  intros Hall. destruct l as [|x l]; [exact I|].
  cbn [average optional_valid]. apply mean_valid; [discriminate | exact Hall].
Qed.

Lemma confidence_graded n : 1 <= n -> graded_confidence (confidence_for n).
Proof.
  intros Hn. unfold graded_confidence, confidence_for.
  destruct (Nat.leb_spec 5 n); [left; reflexivity|].
  destruct (Nat.leb_spec 3 n); [right; left; reflexivity|].
  destruct (Nat.leb_spec 1 n); [right; right; reflexivity | lia].
Qed.

Lemma graded_between c : graded_confidence c -> between 0.0 1.0 c = true.
Proof. intros [->|[->| ->]]; reflexivity. Qed.




(** The score lists of an entry the aggregation built. *)
Lemma entry_scores (P : Q -> Prop) (by_rel : gmap string (list Q)) :
  (forall kind, is_Some (by_rel !! kind) <-> In kind relationship_kinds) ->
  (forall kind l, by_rel !! kind = Some l -> Forall P l) ->
  (exists kind l, by_rel !! kind = Some l /\ l <> []) ->
  let all := scores_at by_rel "self" ++ scores_at by_rel "peer"
             ++ scores_at by_rel "manager"
             ++ scores_at by_rel "direct_report" in
  (forall kind, Forall P (scores_at by_rel kind)) /\ Forall P all /\
  all <> [].
Proof.
  intros Hkeys Hlists (kind & l & Hl & Hne) all.
  assert (Hat : forall k, Forall P (scores_at by_rel k)).
  { intros k. unfold scores_at. destruct (by_rel !! k) as [x|] eqn:E.
    - exact (Hlists k x E).
    - constructor. }
  split; [exact Hat|]. split.
  - unfold all. repeat (apply Forall_app; split); apply Hat.
  - assert (Hk : In kind relationship_kinds) by (apply Hkeys; eauto).
    pose proof (scores_at_lookup by_rel kind l Hl) as Hs.
    unfold all. simpl in Hk.
    destruct Hk as [<-|[<-|[<-|[<-|[]]]]]; rewrite Hs;
      destruct l; try contradiction;
      destruct (scores_at by_rel "self"), (scores_at by_rel "peer"),
        (scores_at by_rel "manager"); discriminate.
Qed.

(** The bounds of one aggregated entry. *)
Lemma aggregated_entry_in_range (float_repr : Q -> string)
  (evaluations : list EvaluationEntity)
  (aggregated : list (UUID * SkillStats)) :
  Forall (submitted_scores valid_score) evaluations ->
  aggregate_competency_scores evaluations = Ok aggregated ->
  forall skill stats,
    In (skill, stats) aggregated ->
    valid_score (overall_avg stats) /\
    optional_valid (self_avg stats) /\ optional_valid (peer_avg stats) /\
    optional_valid (manager_avg stats) /\
    optional_valid (direct_report_avg stats) /\
    graded_confidence (confidence stats) /\
    UserSkillScore_new float_repr skill (overall_avg stats)
      (confidence stats) "360_aggregated" (raw_stats stats)
    = Ok (mkSkillScore skill (overall_avg stats) (confidence stats)
            "360_aggregated" (raw_stats stats)).
Proof.
  intros Hvalid Hok skill stats Hin.
  destruct (aggregate_entries valid_score evaluations aggregated Hvalid Hok
              skill stats Hin) as (by_rel & -> & Hkeys & Hlists & Hne).
  destruct (entry_scores valid_score by_rel Hkeys Hlists Hne)
    as (Hat & Hall & Hnil).
  cbv zeta in Hall, Hnil.
  set (all := scores_at by_rel "self" ++ scores_at by_rel "peer"
              ++ scores_at by_rel "manager"
              ++ scores_at by_rel "direct_report") in *.
  assert (Hov : valid_score (overall_avg (skill_stats by_rel))).
  { unfold skill_stats. cbn [overall_avg]. fold all.
    destruct all as [|x rest] eqn:E; [contradiction|].
    apply mean_valid; [discriminate | exact Hall]. }
  assert (Hconf : graded_confidence (confidence (skill_stats by_rel))).
  { unfold skill_stats. cbn [confidence]. fold all.
    apply confidence_graded. destruct all; [contradiction | simpl; lia]. }
  split; [exact Hov|].
  split; [apply average_valid, Hat|]. split; [apply average_valid, Hat|].
  split; [apply average_valid, Hat|]. split; [apply average_valid, Hat|].
  split; [exact Hconf|].
  unfold UserSkillScore_new.
  rewrite (proj2 (between_score _) Hov), (graded_between _ Hconf).
  reflexivity.
Qed.

(** X9. The aggregation stays within the bounds of the data model. When
    the scores of the submitted evaluations lie in [0, 10] (what
    [CompetencyScore] enforces), every aggregated skill has [overall_avg]
    in [0, 10], per-kind averages in [0, 10] where present, and a
    [confidence] of 0.9, 0.7 or 0.5; so the aggregated values pass the
    validation of the domain's [UserSkillScore] (score in [0, 10],
    confidence in [0, 1]). *)
Theorem aggregated_scores_in_range (float_repr : Q -> string)
  (evaluations : list EvaluationEntity)
  (aggregated : list (UUID * SkillStats)) :
  Forall (submitted_scores valid_score) evaluations ->
  aggregate_competency_scores evaluations = Ok aggregated ->
  forall skill stats,
    In (skill, stats) aggregated ->
    valid_score (overall_avg stats) /\
    optional_valid (self_avg stats) /\ optional_valid (peer_avg stats) /\
    optional_valid (manager_avg stats) /\
    optional_valid (direct_report_avg stats) /\
    graded_confidence (confidence stats) /\
    UserSkillScore_new float_repr skill (overall_avg stats)
      (confidence stats) "360_aggregated" (raw_stats stats)
    = Ok (mkSkillScore skill (overall_avg stats) (confidence stats)
            "360_aggregated" (raw_stats stats)).
Proof.
  exact (aggregated_entry_in_range float_repr evaluations aggregated).
Qed.


(** The scenario: valid scores; the one aggregated skill has 7.75 and
    confidence 0.7, and 7.75 * 4 = 9 * 1 + 7 * 2 + 8 * 1. *)
Lemma aggregated_scores_in_range_witness :
  Forall (submitted_scores valid_score) scenario_evaluations /\
  exists stats,
    aggregate_competency_scores scenario_evaluations = Ok [(100, stats)] /\
    valid_score (overall_avg stats) /\ confidence stats = 0.7%Q.
Proof.
  assert (Hv : Forall (submitted_scores valid_score) scenario_evaluations).
  { repeat constructor; unfold Qle; simpl; lia. }
  split; [exact Hv|].
  eexists. split; [vm_compute; reflexivity|].
  split; [|reflexivity].
  eapply (aggregated_scores_in_range (fun _ => "") scenario_evaluations _ Hv
            ltac:(vm_compute; reflexivity) 100).
  left. reflexivity.
Defined.


(** *** The completion check as a function of four counts *)

Lemma complete_by_counts evs evs' min_peers min_direct_reports :
  (forall kind, In kind relationship_kinds ->
                submitted_count kind evs = submitted_count kind evs') ->
  is_cycle_complete_for_user evs min_peers min_direct_reports
  = is_cycle_complete_for_user evs' min_peers min_direct_reports.
Proof.
  intros H. unfold is_cycle_complete_for_user, missing_parts_of. cbv zeta.
  rewrite !count_of_fold by (simpl; tauto).
  rewrite (H "self"), (H "manager"), (H "peer"), (H "direct_report")
    by (simpl; tauto).
  reflexivity.
Qed.

Lemma complete_iff evs min_peers min_direct_reports :
  is_cycle_complete_for_user evs min_peers min_direct_reports = (true, None)
  <-> (1 <= submitted_count "self" evs /\
       1 <= submitted_count "manager" evs /\
       min_peers <= submitted_count "peer" evs /\
       min_direct_reports <= submitted_count "direct_report" evs)%Z.
Proof.
  pose proof (missing_parts_spec (foldl count_step initial_counts evs)
                min_peers min_direct_reports) as Hspec.
  cbv zeta in Hspec. rewrite !count_of_fold in Hspec by (simpl; tauto).
  destruct Hspec as (Hnil & _).
  unfold is_cycle_complete_for_user. cbv zeta.
  destruct (missing_parts_of (foldl count_step initial_counts evs) min_peers
              min_direct_reports) as [|part parts].
  - split; [intros _; apply Hnil; reflexivity | reflexivity].
  - split; [discriminate|]. intros H. apply Hnil in H. discriminate.
Qed.

Lemma complete_flag evs min_peers min_direct_reports :
  (is_cycle_complete_for_user evs min_peers min_direct_reports).1 = true
  <-> is_cycle_complete_for_user evs min_peers min_direct_reports
      = (true, None).
Proof.
  unfold is_cycle_complete_for_user. cbv zeta.
  destruct (missing_parts_of (foldl count_step initial_counts evs) min_peers
              min_direct_reports); simpl.
  - split; reflexivity.
  - split; discriminate.
Qed.

Lemma submitted_count_app kind evs more :
  submitted_count kind (evs ++ more)
  = (submitted_count kind evs + submitted_count kind more)%Z.
Proof.
  unfold submitted_count. rewrite List.filter_app, length_app. lia.
Qed.

Lemma submitted_count_nonneg kind evs : (0 <= submitted_count kind evs)%Z.
Proof. unfold submitted_count. lia. Qed.

Lemma submitted_count_perm kind evs evs' :
  Permutation evs evs' ->
  submitted_count kind evs = submitted_count kind evs'.
Proof.
  intros H. unfold submitted_count. f_equal.
  induction H as [|x l l' _ IH|x y l|l l' l'' _ IH1 _ IH2]; simpl.
  - reflexivity.
  - destruct (submitted_of_kind kind x); simpl; rewrite IH; reflexivity.
  - destruct (submitted_of_kind kind x), (submitted_of_kind kind y);
      reflexivity.
  - rewrite IH1. exact IH2.
Qed.

(** X11. The completion check counts, and nothing else. Its result is
    the same for any two orders of the same evaluations; an evaluation
    that is not submitted, or whose relationship is none of the four
    kinds, leaves the result unchanged (where the aggregation raises
    [KeyError] on such a relationship, the check skips it); a user who is
    complete stays complete when evaluations are added; and being complete
    for some minimum numbers of peers and direct reports implies being
    complete for any lower ones. *)
Theorem completion_counts_only (min_peers min_direct_reports : Z) :
  (forall evs evs',
      Permutation evs evs' ->
      is_cycle_complete_for_user evs min_peers min_direct_reports
      = is_cycle_complete_for_user evs' min_peers min_direct_reports) /\
  (forall evs e,
      is_submitted e = false \/ ~ known_relationship e ->
      is_cycle_complete_for_user (e :: evs) min_peers min_direct_reports
      = is_cycle_complete_for_user evs min_peers min_direct_reports) /\
  (forall evs more,
      (is_cycle_complete_for_user evs min_peers min_direct_reports).1 = true ->
      is_cycle_complete_for_user (evs ++ more) min_peers min_direct_reports
      = (true, None)) /\
  (forall evs lower_peers lower_direct_reports,
      (lower_peers <= min_peers)%Z ->
      (lower_direct_reports <= min_direct_reports)%Z ->
      (is_cycle_complete_for_user evs min_peers min_direct_reports).1 = true ->
      is_cycle_complete_for_user evs lower_peers lower_direct_reports
      = (true, None)).
Proof.
  split; [|split; [|split]].
  - intros evs evs' Hp. apply complete_by_counts.
    intros kind _. apply submitted_count_perm, Hp.
  - intros evs e He. apply complete_by_counts. intros kind Hk.
    rewrite submitted_count_cons.
    assert (Hno : submitted_of_kind kind e = false).
    { unfold submitted_of_kind. destruct He as [->|Hun]; [reflexivity|].
      destruct (String.eqb_spec (evaluator_relationship e) kind) as [E|E];
        [|apply andb_false_r].
      exfalso. apply Hun. unfold known_relationship. rewrite E. exact Hk. }
    rewrite Hno. lia.
  - intros evs more H. apply complete_flag, complete_iff in H.
    apply complete_iff. rewrite !submitted_count_app.
    pose proof (submitted_count_nonneg "self" more).
    pose proof (submitted_count_nonneg "manager" more).
    pose proof (submitted_count_nonneg "peer" more).
    pose proof (submitted_count_nonneg "direct_report" more).
    lia.
  - intros evs lp ld Hp Hd H. apply complete_flag, complete_iff in H.
    apply complete_iff. lia.
Qed.

(** *** Skill profiles *)

Lemma minus_nonpos (t x : Q) : (t - x <= 0.0 <-> t <= x)%Q.
Proof.
  assert (E0 : (0.0 == 0)%Q) by reflexivity. rewrite E0.
  rewrite <- (Qplus_le_l (t - x) 0 x).
  assert (E1 : (t - x + x == t)%Q) by ring.
  assert (E2 : (0 + x == x)%Q) by ring.
  rewrite E1, E2. reflexivity.
Qed.

(** X12. Reading a skill profile. For one threshold, a skill of the
    profile is a strength exactly when it is not a development area; with
    the strength threshold at or above the development threshold (the
    defaults are 8.0 and 6.0) no skill is both; a strong skill is among
    the strengths at 8.0 and among the high-confidence skills, and does not
    need development. [skill_gap] is [None] exactly for a skill the
    profile lacks; otherwise it is never negative: 0.0 when the score has
    reached the target, the difference when it has not. All lookups go
    to the first entry of the skill. *)
Theorem profile_strengths_and_gaps (p : SkillProfile) :
  (forall t s, In s (sp_skills p) ->
               (In s (get_strengths p t)
                <-> ~ In s (get_development_areas p t))) /\
  (forall hi lo s, (lo <= hi)%Q ->
                   In s (get_strengths p hi) ->
                   ~ In s (get_development_areas p lo)) /\
  (forall s, In s (sp_skills p) -> is_strong_skill s = true ->
             In s (get_strengths p 8.0) /\
             In s (get_high_confidence_skills p) /\
             needs_development s = false) /\
  (forall skill target,
      skill_gap p skill target = None <-> has_skill p skill = false) /\
  (forall skill target gap,
      skill_gap p skill target = Some gap ->
      exists s,
        get_skill_score p skill = Some s /\ v_skill_id s = skill /\
        (0 <= gap)%Q /\
        ((target <= v_score s)%Q -> gap = 0.0%Q) /\
        ((v_score s < target)%Q -> gap = (target - v_score s)%Q)).
Proof.
  split; [|split; [|split; [|split]]].
  - intros t s Hin. unfold get_strengths, get_development_areas.
    rewrite !filter_In.
    destruct (Qle_bool t (v_score s)); simpl; split.
    + intros _ [_ H]. discriminate.
    + intros _. split; [exact Hin | reflexivity].
    + intros [_ H]. discriminate.
    + intros H. exfalso. apply H. split; [exact Hin | reflexivity].
  - intros hi lo s Hle Hs Hd. unfold get_strengths in Hs.
    unfold get_development_areas in Hd.
    apply filter_In in Hs as [_ Hs]. apply filter_In in Hd as [_ Hd].
    apply Qle_bool_iff in Hs.
    assert (Hlo : Qle_bool lo (v_score s) = true).
    { apply Qle_bool_iff. apply Qle_trans with (y := hi); assumption. }
    rewrite Hlo in Hd. discriminate.
  - intros s Hin Hstrong. unfold is_strong_skill in Hstrong.
    apply andb_true_iff in Hstrong as [Hsc Hc].
    split; [|split].
    + unfold get_strengths. apply filter_In. split; assumption.
    + unfold get_high_confidence_skills. apply filter_In. split; assumption.
    + unfold needs_development. apply Qle_bool_iff in Hsc.
      assert (H6 : Qle_bool 6.0 (v_score s) = true).
      { apply Qle_bool_iff. apply Qle_trans with (y := 8.0%Q); [|exact Hsc].
        unfold Qle; simpl; lia. }
      rewrite H6. reflexivity.
  - intros skill target. unfold skill_gap, get_skill_score, has_skill.
    induction (sp_skills p) as [|s l IH]; simpl; [tauto|].
    destruct (Nat.eqb (v_skill_id s) skill); simpl; [|exact IH].
    split; discriminate.
  - intros skill target gap. unfold skill_gap.
    destruct (get_skill_score p skill) as [s|] eqn:Hget; [|discriminate].
    intros [= <-]. exists s. split; [reflexivity|].
    assert (Hid : v_skill_id s = skill).
    { unfold get_skill_score in Hget. apply find_some in Hget as [_ H].
      apply Nat.eqb_eq, H. }
    split; [exact Hid|]. unfold py_max.
    destruct (Qle_bool (target - v_score s) 0.0) eqn:E.
    + apply Qle_bool_iff in E. apply (proj1 (minus_nonpos _ _)) in E.
      split; [unfold Qle; simpl; lia|]. split; [reflexivity|].
      intros Hlt. exfalso. exact (Qlt_not_le _ _ Hlt E).
    + assert (Hn : ~ (target - v_score s <= 0.0)%Q).
      { intros H. apply Qle_bool_iff in H. congruence. }
      split; [|split].
      * apply Qnot_le_lt in Hn. apply Qlt_le_weak.
        apply Qle_lt_trans with (y := 0.0%Q); [|exact Hn].
        unfold Qle; simpl; lia.
      * intros Hle. exfalso. apply Hn. apply (proj2 (minus_nonpos _ _)), Hle.
      * reflexivity.
Qed.

Lemma unit_sum_bounds l :
  Forall (fun c => 0 <= c <= 1)%Q l ->
  (0 <= fold_right Qplus 0 l <= Qlen l)%Q.
Proof.
  induction 1 as [|x l [Hx0 Hx1] _ [IH0 IH1]].
  - split; [apply Qle_refl|]. unfold Qlen. simpl. apply Qle_refl.
  - cbn [fold_right]. split.
    + apply Qle_trans with (y := (0 + 0)%Q); [apply Qle_refl|].
      apply Qplus_le_compat; assumption.
    + rewrite Qlen_cons.
      assert (E : (Qlen l + 1 == 1 + Qlen l)%Q) by ring.
      rewrite E. apply Qplus_le_compat; assumption.
Qed.

Lemma unit_mean l :
  l <> [] -> Forall (fun c => 0 <= c <= 1)%Q l ->
  (0 <= Qsum l / Qlen l <= 1)%Q.
Proof.
  intros Hne Hall. pose proof (Qlen_pos l Hne) as Hpos.
  destruct (unit_sum_bounds l Hall) as [H0 H1].
  rewrite Qsum_fold. split.
  - apply Qle_shift_div_l; [exact Hpos|]. rewrite Qmult_0_l. exact H0.
  - apply Qle_shift_div_r; [exact Hpos|]. rewrite Qmult_1_l. exact H1.
Qed.

Lemma UserSkillScore_new_ok repr skill x c source stats v :
  UserSkillScore_new repr skill x c source stats = Ok v ->
  v = mkSkillScore skill x c source stats /\ valid_score x /\ (0 <= c <= 1)%Q.
Proof.
  unfold UserSkillScore_new. intros H.
  destruct (between 0.0 10.0 x) eqn:Hx; cbn [negb] in H; [|discriminate].
  destruct (between 0.0 1.0 c) eqn:Hc; cbn [negb] in H; [|discriminate].
  split; [congruence|]. split; [apply between_score, Hx|].
  apply between_spec in Hc.
  assert (E0 : (0.0 == 0)%Q) by reflexivity.
  assert (E1 : (1.0 == 1)%Q) by reflexivity.
  rewrite E0, E1 in Hc. exact Hc.
Qed.

Lemma UserSkillScore_new_valid repr skill x c source stats :
  valid_score x -> (0 <= c <= 1)%Q ->
  UserSkillScore_new repr skill x c source stats
  = Ok (mkSkillScore skill x c source stats).
Proof.
  intros Hx Hc. unfold UserSkillScore_new.
  rewrite (proj2 (between_score x) Hx). cbn [negb].
  assert (Hb : between 0.0 1.0 c = true).
  { apply between_spec.
    assert (E0 : (0.0 == 0)%Q) by reflexivity.
    assert (E1 : (1.0 == 1)%Q) by reflexivity.
    rewrite E0, E1. exact Hc. }
  rewrite Hb. reflexivity.
Qed.

End EntitiesTheory.

(** * Services *)

Module ServicesTheory.
Import EvaluationLogic Persistence PersistenceTheory.

(** *** From the aggregation writer to the skill profile *)






(** *** Refused acceptances *)

Import ServiceSpec.



Lemma accept_path_conflict s path_id user_id path :
  paths_with_id path_id s = [path] -> cp_user_id path = user_id ->
  cp_status path <> "proposed" ->
  accept_path path_id user_id s = (Raise not_proposed, s).
Proof.
  intros Hrow Hu Hst. unfold accept_path, bind at 1.
  rewrite (get_by_id_found s path_id path Hrow). cbv beta iota.
  rewrite Hu, Nat.eqb_refl. cbn [negb].
  destruct (String.eqb_spec (cp_status path) "proposed"); [contradiction|].
  reflexivity.
Qed.


Lemma filter_id_map (f : CareerPath -> CareerPath) k l :
  (forall row, cp_id (f row) = cp_id row) ->
  List.filter (fun p => Nat.eqb (cp_id p) k) (map f l)
  = map f (List.filter (fun p => Nat.eqb (cp_id p) k) l).
Proof.
  intros Hid. induction l as [|row l IH]; [reflexivity|].
  cbn [map List.filter]. rewrite Hid.
  destruct (Nat.eqb (cp_id row) k); cbn [map]; rewrite IH; reflexivity.
Qed.

Lemma accepted_transition_id path_id user_id row :
  cp_id (accepted_transition path_id user_id row) = cp_id row.
Proof.
  unfold accepted_transition.
  destruct (Nat.eqb (cp_id row) path_id); [reflexivity|].
  destruct (Nat.eqb (cp_user_id row) user_id
            && (String.eqb (cp_status row) "proposed"
                || String.eqb (cp_status row) "accepted")); reflexivity.
Qed.

Lemma accepted_transition_owner path_id user_id row :
  cp_user_id (accepted_transition path_id user_id row) = cp_user_id row.
Proof.
  unfold accepted_transition.
  destruct (Nat.eqb (cp_id row) path_id); [reflexivity|].
  destruct (Nat.eqb (cp_user_id row) user_id
            && (String.eqb (cp_status row) "proposed"
                || String.eqb (cp_status row) "accepted")); reflexivity.
Qed.

(** X15. An acceptance is final among the paths the subject has. After
    [accept_path] has accepted a path, a second [accept_path] by the same
    subject is refused with [ConflictError], leaving the session
    unchanged, for the accepted path itself and for every other path of
    the subject that was proposed or accepted before: the first is now
    accepted, the others discarded, and only proposed paths can be
    accepted. *)
Theorem accepted_path_is_final (s : Session) (path_id user_id : UUID)
  (path : CareerPath) :
  paths_with_id path_id s = [path] ->
  cp_user_id path = user_id ->
  cp_status path = "proposed" ->
  let s1 := (accept_path path_id user_id s).2 in
  forall other row,
    paths_with_id other s = [row] ->
    cp_user_id row = user_id ->
    other = path_id \/ cp_status row = "proposed"
    \/ cp_status row = "accepted" ->
    accept_path other user_id s1 = (Raise not_proposed, s1).
Proof.
  intros Hrow Hu Hst s1 other row Hother Hou Hcase.
  assert (Hs1 : career_paths (working s1)
                = map (accepted_transition path_id user_id)
                    (career_paths (working s))).
  { unfold s1. rewrite (accept_path_run s path_id user_id path Hrow Hu Hst).
    reflexivity. }
  assert (Hrows1 : paths_with_id other s1
                   = [accepted_transition path_id user_id row]).
  { unfold paths_with_id. rewrite Hs1.
    rewrite filter_id_map by apply accepted_transition_id.
    unfold paths_with_id in Hother. rewrite Hother. reflexivity. }
  apply (accept_path_conflict s1 other user_id _ Hrows1).
  - rewrite accepted_transition_owner. exact Hou.
  - unfold accepted_transition.
    destruct (filter_singleton_in _ _ _ Hother) as [_ Hid].
    apply Nat.eqb_eq in Hid.
    destruct (Nat.eqb_spec (cp_id row) path_id) as [E|E]; [discriminate|].
    rewrite Hou, Nat.eqb_refl.
    destruct Hcase as [->|[-> | ->]]; [congruence | |]; discriminate.
Qed.

(** After path 101 of the demo subject is accepted, accepting the sibling
    110, or 101 again, is refused. *)
Lemma accepted_path_is_final_witness :
  let s1 := (accept_path 101 1 demo_generated).2 in
  paths_with_id 101 demo_generated = [demo_first_path] /\
  accept_path 110 1 s1 = (Raise not_proposed, s1) /\
  accept_path 101 1 s1 = (Raise not_proposed, s1).
Proof.
  cbv zeta.
  assert (H : paths_with_id 101 demo_generated = [demo_first_path])
    by (vm_compute; reflexivity).
  split; [exact H|].
  pose proof (accepted_path_is_final demo_generated 101 1 demo_first_path H
                eq_refl eq_refl) as Hfinal.
  cbv zeta in Hfinal. split.
  - eapply (Hfinal 110); [vm_compute; reflexivity | reflexivity|].
    right; left. reflexivity.
  - eapply (Hfinal 101); [exact H | reflexivity|]. left. reflexivity.
Defined.

(** *** The gate of [process_evaluation] *)

Lemma process_evaluation_found s evaluation_id ev :
  evaluations_with_id evaluation_id s = [ev] ->
  process_evaluation evaluation_id s
  = match is_cycle_complete_for_user (evaluations_beside ev s) 2 0 with
    | (false, reason) => (Raise (cycle_incomplete reason), s)
    | (true, _) =>
        (_aggregate_user_skill_scores (EvaluationLogic.user_id ev)
           (evaluation_cycle_id ev) ;;;
         commit ;;;
         ret (EvaluationLogic.user_id ev, evaluation_cycle_id ev)) s
    end.
Proof.
  intros Hrow. unfold process_evaluation, bind at 1.
  unfold evaluations_get_by_id, bind at 1, read, lift. cbv beta iota.
  unfold evaluations_with_id in Hrow. rewrite Hrow.
  cbn [scalar_one_or_none]. cbv zeta.
  unfold bind at 1, evaluations_get_by_user_and_cycle, bind at 1, read, ret.
  cbv beta iota. fold (evaluations_beside ev s).
  destruct (is_cycle_complete_for_user (evaluations_beside ev s) 2 0)
    as [[|] reason]; reflexivity.
Qed.

(** X16. [process_evaluation] aggregates for complete cycles only, and
    all or nothing. An unknown evaluation raises [NotFoundError]; a
    subject whose cycle is not complete (defaults: one self, one manager,
    two peer evaluations submitted) raises [ConflictError] with the reason
    of the completion check. Whenever the call raises, also with the
    [KeyError] of the aggregation, the session is exactly as before:
    nothing deleted, nothing written, nothing committed. When it returns,
    the evaluation exists, its subject has at least one self, one manager
    and two peer evaluations submitted in the cycle, and the result of the
    aggregation is committed. (The evaluations of the model are entities:
    rows whose scores satisfy the check constraint of their table, which
    [orm_to_entity] converts without raising.) *)
Theorem process_evaluation_gate (s : Session) (evaluation_id : UUID) :
  (evaluations_with_id evaluation_id s = [] ->
   process_evaluation evaluation_id s
   = (Raise (not_found ("Evaluation " +:+ pretty evaluation_id
                        +:+ " not found")), s)) /\
  (forall ev reason,
      evaluations_with_id evaluation_id s = [ev] ->
      is_cycle_complete_for_user (evaluations_beside ev s) 2 0
      = (false, reason) ->
      process_evaluation evaluation_id s
      = (Raise (cycle_incomplete reason), s)) /\
  (forall e s1,
      process_evaluation evaluation_id s = (Raise e, s1) -> s1 = s) /\
  (forall r s1,
      process_evaluation evaluation_id s = (Ok r, s1) ->
      exists ev,
        evaluations_with_id evaluation_id s = [ev] /\
        r = (EvaluationLogic.user_id ev, evaluation_cycle_id ev) /\
        (1 <= submitted_count "self" (evaluations_beside ev s))%Z /\
        (1 <= submitted_count "manager" (evaluations_beside ev s))%Z /\
        (2 <= submitted_count "peer" (evaluations_beside ev s))%Z /\
        committed s1 = working s1 /\
        commits s1 = commits s ++ [committed s1]).
Proof.
  assert (Hnone : evaluations_with_id evaluation_id s = [] ->
                  process_evaluation evaluation_id s
                  = (Raise (not_found ("Evaluation " +:+ pretty evaluation_id
                                       +:+ " not found")), s)).
  { intros Hrow. unfold process_evaluation, bind at 1.
    unfold evaluations_get_by_id, bind at 1, read, lift. cbv beta iota.
    unfold evaluations_with_id in Hrow. rewrite Hrow. reflexivity. }
  assert (Hmany : forall a b rest,
             evaluations_with_id evaluation_id s = a :: b :: rest ->
             exists e, process_evaluation evaluation_id s = (Raise e, s)).
  { intros a b rest Hrow. unfold process_evaluation, bind at 1.
    unfold evaluations_get_by_id, bind at 1, read, lift. cbv beta iota.
    unfold evaluations_with_id in Hrow. rewrite Hrow. eexists. reflexivity. }
  split; [exact Hnone|]. split; [|split].
  - intros ev reason Hrow Hinc.
    rewrite (process_evaluation_found s evaluation_id ev Hrow), Hinc.
    reflexivity.
  - intros e s1 Hrun.
    destruct (evaluations_with_id evaluation_id s) as [|ev [|b rest]] eqn:Hrow.
    + rewrite (Hnone eq_refl) in Hrun. inversion Hrun; reflexivity.
    + rewrite (process_evaluation_found s evaluation_id ev Hrow) in Hrun.
      destruct (is_cycle_complete_for_user (evaluations_beside ev s) 2 0)
        as [[|] reason]; [|inversion Hrun; reflexivity].
      unfold bind at 1 in Hrun.
      destruct (aggregate_competency_scores
                  (List.filter
                     (submitted_for (EvaluationLogic.user_id ev)
                        (evaluation_cycle_id ev))
                     (evaluations (working s)))) as [agg|ex] eqn:Hagg.
      * destruct (aggregate_run _ _ s agg Hagg) as (rows & n & Hr & _).
        rewrite Hr in Hrun. unfold bind, commit, ret in Hrun. discriminate.
      * rewrite (aggregate_raises _ _ s ex Hagg) in Hrun.
        inversion Hrun; reflexivity.
    + destruct (Hmany ev b rest eq_refl) as [ex Hex]. rewrite Hex in Hrun.
      inversion Hrun; reflexivity.
  - intros r s1 Hrun.
    destruct (evaluations_with_id evaluation_id s) as [|ev [|b rest]] eqn:Hrow.
    + rewrite (Hnone eq_refl) in Hrun. discriminate.
    + exists ev. split; [reflexivity|].
      rewrite (process_evaluation_found s evaluation_id ev Hrow) in Hrun.
      destruct (is_cycle_complete_for_user (evaluations_beside ev s) 2 0)
        as [[|] reason] eqn:Hc; [|discriminate].
      assert (Hflag : (is_cycle_complete_for_user (evaluations_beside ev s)
                         2 0).1 = true) by (rewrite Hc; reflexivity).
      apply EntitiesTheory.complete_flag, EntitiesTheory.complete_iff in Hflag.
      destruct Hflag as (Hself & Hman & Hpeer & _).
      unfold bind at 1 in Hrun.
      destruct (aggregate_competency_scores
                  (List.filter
                     (submitted_for (EvaluationLogic.user_id ev)
                        (evaluation_cycle_id ev))
                     (evaluations (working s)))) as [agg|ex] eqn:Hagg.
      * destruct (aggregate_run _ _ s agg Hagg) as (rows & n & Hr & _).
        rewrite Hr in Hrun. unfold bind, commit, ret in Hrun.
        inversion Hrun; subst; clear Hrun.
        cbn [committed working commits]. repeat split; assumption.
      * rewrite (aggregate_raises _ _ s ex Hagg) in Hrun. discriminate.
    + destruct (Hmany ev b rest eq_refl) as [ex Hex]. rewrite Hex in Hrun.
      discriminate.
Qed.

(** *** Nothing is committed while a response is persisted *)

Lemma no_commit_bind {A B} (m : M A) (k : A -> M B) :
  no_commit m -> (forall a, no_commit (k a)) -> no_commit (bind m k).
Proof.
  intros Hm Hk s. unfold bind. destruct (Hm s) as [H1 H2].
  destruct (m s) as [[a|e] s1]; cbn [snd] in *.
  - destruct (Hk a s1) as [H3 H4]. split; congruence.
  - split; assumption.
Qed.

Lemma no_commit_ret {A} (a : A) : no_commit (ret a).
Proof. intros s. split; reflexivity. Qed.

Lemma no_commit_raise {A} e : no_commit (raise (A:=A) e).
Proof. intros s. split; reflexivity. Qed.

Lemma no_commit_lift {A} (r : Result A) : no_commit (lift r).
Proof. intros s. split; reflexivity. Qed.

Lemma no_commit_read {A} (f : Database -> A) : no_commit (read f).
Proof. intros s. split; reflexivity. Qed.

Lemma no_commit_uuid4 : no_commit uuid4.
Proof. intros s. split; reflexivity. Qed.

Lemma no_commit_write f : no_commit (write f).
Proof. intros s. split; reflexivity. Qed.

Ltac nocommit :=
  repeat first
    [ apply no_commit_ret | apply no_commit_raise | apply no_commit_lift
    | apply no_commit_read | apply no_commit_uuid4 | apply no_commit_write
    | apply no_commit_bind; [|intros] ].

Lemma no_commit_build_step path_id step_data :
  no_commit (build_step path_id step_data).
Proof.
  unfold build_step. apply no_commit_bind; [|intros; nocommit].
  destruct (sd_target_role step_data) as [[|c rest]|]; try apply no_commit_ret.
  unfold roles_get_by_name. nocommit.
Qed.

Lemma no_commit_build_steps path_id steps_data :
  no_commit (build_steps path_id steps_data).
Proof.
  induction steps_data as [|sd rest IH]; simpl; [apply no_commit_ret|].
  apply no_commit_bind; [apply no_commit_build_step|]. intros step.
  apply no_commit_bind; [exact IH | intros; nocommit].
Qed.

Lemma no_commit_build_actions step_id skill_id titles :
  no_commit (build_actions step_id skill_id titles).
Proof.
  induction titles as [|t rest IH]; simpl; [apply no_commit_ret|].
  apply no_commit_bind; [apply no_commit_uuid4|]. intros a.
  apply no_commit_bind; [exact IH | intros; nocommit].
Qed.

Lemma no_commit_step_actions step_id competencies :
  no_commit (step_actions step_id competencies).
Proof.
  induction competencies as [|c rest IH]; simpl; [apply no_commit_ret|].
  apply no_commit_bind.
  - destruct (cd_name c) as [[|ch nm]|]; try apply no_commit_ret.
    unfold skills_get_by_name. nocommit.
  - intros skill_id.
    apply no_commit_bind; [apply no_commit_build_actions|]. intros actions.
    apply no_commit_bind; [exact IH | intros; nocommit].
Qed.

Lemma no_commit_persist_actions pairs : no_commit (persist_actions pairs).
Proof.
  induction pairs as [|[step sd] rest IH]; simpl; [apply no_commit_ret|].
  apply no_commit_bind; [apply no_commit_step_actions|]. intros actions.
  apply no_commit_bind; [|intros; exact IH].
  destruct actions; [apply no_commit_ret|].
  unfold development_actions_create_bulk. nocommit.
Qed.

Lemma no_commit_persist_path user_id assessment_id path_data :
  no_commit (persist_path user_id assessment_id path_data).
Proof.
  unfold persist_path.
  apply no_commit_bind; [apply no_commit_uuid4|]. intros path_id.
  apply no_commit_bind; [unfold career_paths_create; nocommit|].
  intros created_path.
  apply no_commit_bind; [apply no_commit_build_steps|]. intros steps.
  apply no_commit_bind.
  - destruct steps; [apply no_commit_ret|].
    unfold career_path_steps_create_bulk. nocommit.
  - intros _. apply no_commit_bind; [apply no_commit_persist_actions|].
    intros; apply no_commit_ret.
Qed.

Lemma no_commit_persist_paths user_id assessment_id paths :
  no_commit (persist_paths user_id assessment_id paths).
Proof.
  induction paths as [|pd rest IH]; simpl; [apply no_commit_ret|].
  apply no_commit_bind; [apply no_commit_persist_path|]. intros cp.
  apply no_commit_bind; [exact IH | intros; apply no_commit_ret].
Qed.

(** *** The audit table is not touched while a response is persisted *)

Lemma keeps_audit_bind {A B} (m : M A) (k : A -> M B) :
  keeps_audit m -> (forall a, keeps_audit (k a)) -> keeps_audit (bind m k).
Proof.
  intros Hm Hk s. unfold bind. specialize (Hm s).
  destruct (m s) as [[a|e] s1]; cbn [snd] in *.
  - rewrite (Hk a s1). exact Hm.
  - exact Hm.
Qed.

Lemma keeps_audit_ret {A} (a : A) : keeps_audit (ret a).
Proof. intros s. reflexivity. Qed.

Lemma keeps_audit_lift {A} (r : Result A) : keeps_audit (lift r).
Proof. intros s. reflexivity. Qed.

Lemma keeps_audit_read {A} (f : Database -> A) : keeps_audit (read f).
Proof. intros s. reflexivity. Qed.

Lemma keeps_audit_uuid4 : keeps_audit uuid4.
Proof. intros s. reflexivity. Qed.

Lemma keeps_audit_write f :
  (forall db, ai_calls_log (f db) = ai_calls_log db) -> keeps_audit (write f).
Proof. intros Hf s. apply Hf. Qed.

Ltac keepsaudit :=
  repeat first
    [ apply keeps_audit_ret | apply keeps_audit_lift | apply keeps_audit_read
    | apply keeps_audit_uuid4
    | apply keeps_audit_write; intros; reflexivity
    | apply keeps_audit_bind; [|intros] ].

Lemma keeps_audit_build_step path_id step_data :
  keeps_audit (build_step path_id step_data).
Proof.
  unfold build_step. apply keeps_audit_bind; [|intros; keepsaudit].
  destruct (sd_target_role step_data) as [[|c rest]|];
    try apply keeps_audit_ret.
  unfold roles_get_by_name. keepsaudit.
Qed.

Lemma keeps_audit_build_steps path_id steps_data :
  keeps_audit (build_steps path_id steps_data).
Proof.
  induction steps_data as [|sd rest IH]; simpl; [apply keeps_audit_ret|].
  apply keeps_audit_bind; [apply keeps_audit_build_step|]. intros step.
  apply keeps_audit_bind; [exact IH | intros; keepsaudit].
Qed.

Lemma keeps_audit_build_actions step_id skill_id titles :
  keeps_audit (build_actions step_id skill_id titles).
Proof.
  induction titles as [|t rest IH]; simpl; [apply keeps_audit_ret|].
  apply keeps_audit_bind; [apply keeps_audit_uuid4|]. intros a.
  apply keeps_audit_bind; [exact IH | intros; keepsaudit].
Qed.

Lemma keeps_audit_step_actions step_id competencies :
  keeps_audit (step_actions step_id competencies).
Proof.
  induction competencies as [|c rest IH]; simpl; [apply keeps_audit_ret|].
  apply keeps_audit_bind.
  - destruct (cd_name c) as [[|ch nm]|]; try apply keeps_audit_ret.
    unfold skills_get_by_name. keepsaudit.
  - intros skill_id.
    apply keeps_audit_bind; [apply keeps_audit_build_actions|]. intros actions.
    apply keeps_audit_bind; [exact IH | intros; keepsaudit].
Qed.

Lemma keeps_audit_persist_actions pairs : keeps_audit (persist_actions pairs).
Proof.
  induction pairs as [|[step sd] rest IH]; simpl; [apply keeps_audit_ret|].
  apply keeps_audit_bind; [apply keeps_audit_step_actions|]. intros actions.
  apply keeps_audit_bind; [|intros; exact IH].
  destruct actions; [apply keeps_audit_ret|].
  unfold development_actions_create_bulk. keepsaudit.
Qed.

Lemma keeps_audit_persist_path user_id assessment_id path_data :
  keeps_audit (persist_path user_id assessment_id path_data).
Proof.
  unfold persist_path.
  apply keeps_audit_bind; [apply keeps_audit_uuid4|]. intros path_id.
  apply keeps_audit_bind; [unfold career_paths_create; keepsaudit|].
  intros created_path.
  apply keeps_audit_bind; [apply keeps_audit_build_steps|]. intros steps.
  apply keeps_audit_bind.
  - destruct steps; [apply keeps_audit_ret|].
    unfold career_path_steps_create_bulk. keepsaudit.
  - intros _. apply keeps_audit_bind; [apply keeps_audit_persist_actions|].
    intros; apply keeps_audit_ret.
Qed.

Lemma keeps_audit_persist_paths user_id assessment_id paths :
  keeps_audit (persist_paths user_id assessment_id paths).
Proof.
  induction paths as [|pd rest IH]; simpl; [apply keeps_audit_ret|].
  apply keeps_audit_bind; [apply keeps_audit_persist_path|]. intros cp.
  apply keeps_audit_bind; [exact IH | intros; apply keeps_audit_ret].
Qed.

(** X17. A generation that cannot start writes nothing. Without the
    user, and without the assessment asked for or, when none is asked for,
    without a completed assessment of the user, [generate_career_paths]
    raises [NotFoundError] and leaves the session exactly as it was: no
    audit row is created, nothing is committed, the external service is
    not called (the result does not depend on it). *)
Theorem generation_needs_user_and_assessment (s : Session)
  (ai_call : CareerRequest -> Result CareerPathsResponse) (latency_ms : Z)
  (user_id : UUID) (skills_assessment_id : option UUID)
  (interests : option (list string)) (horizon : Z) :
  let run :=
    generate_career_paths ai_call latency_ms user_id skills_assessment_id
      interests horizon s in
  (users_with_id user_id s = [] ->
   run = (Raise (not_found ("User " +:+ pretty user_id +:+ " not found")), s)) /\
  (forall user assessment_id,
      users_with_id user_id s = [user] ->
      skills_assessment_id = Some assessment_id ->
      List.filter (fun a => Nat.eqb (sa_id a) assessment_id)
        (skills_assessments (working s)) = [] ->
      exists e, exn_class e = "NotFoundError" /\ run = (Raise e, s)) /\
  (forall user,
      users_with_id user_id s = [user] ->
      skills_assessment_id = None ->
      List.filter
        (fun a => Nat.eqb (sa_user_id a) user_id
                  && String.eqb (sa_status a) "completed")
        (skills_assessments (working s)) = [] ->
      exists e, exn_class e = "NotFoundError" /\ run = (Raise e, s)).
Proof.
  cbv zeta. split; [|split].
  - intros Hu. unfold generate_career_paths, bind at 1.
    unfold users_get_by_id, bind at 1, read, lift. cbv beta iota.
    unfold users_with_id in Hu. rewrite Hu. reflexivity.
  - intros user aid Hu -> Ha. unfold generate_career_paths, bind at 1.
    rewrite (users_get_by_id_found s user_id user Hu). cbv beta iota.
    unfold bind at 1, bind at 1, skills_assessments_get_by_id, bind at 1,
      read, lift.
    cbv beta iota. rewrite Ha. cbn [scalar_one_or_none].
    eexists. split; [|reflexivity]. reflexivity.
  - intros user Hu -> Ha. unfold generate_career_paths, bind at 1.
    rewrite (users_get_by_id_found s user_id user Hu). cbv beta iota.
    unfold bind at 1, bind at 1, skills_assessments_get_latest_by_user_id,
      bind at 1, read, ret.
    cbv beta iota. rewrite Ha. cbn [latest_assessment].
    eexists. split; [|reflexivity]. reflexivity.
Qed.

(** *** A response of any shape *)

Lemma actions_total (R : StepData -> CareerPathStep -> Prop) sds steps :
  Forall2 R sds steps ->
  forall actss,
    Forall2 (fun pr actions => actions_match pr.1 pr.2 actions)
      (zip steps sds) actss ->
    length (concat actss) = titles_in_steps sds.
Proof.
  induction 1 as [|sd step sds steps _ _ IH]; intros actss Ha.
  - cbn [zip zip_with] in Ha. apply Forall2_nil_inv_l in Ha as ->.
    reflexivity.
  - cbn [zip zip_with] in Ha.
    apply Forall2_cons_inv_l in Ha as (x & rest & Hx & Hrest & ->).
    cbn [concat]. rewrite length_app, (IH rest Hrest).
    unfold actions_match in Hx. cbn [fst snd] in Hx.
    apply (f_equal length) in Hx. rewrite !length_map in Hx.
    unfold titles_in_steps. cbn [sum_list_with]. rewrite Hx. reflexivity.
Qed.

Lemma persist_paths_run user_id assessment_id pds : forall s,
  unique_names (working s) ->
  exists paths steps actions s1,
    persist_paths user_id assessment_id pds s = (Ok paths, s1) /\
    extends s s1 paths steps actions /\
    Forall2 (path_matches user_id) pds paths /\
    Forall (fun p => next_uuid s <= cp_id p < next_uuid s1) paths /\
    NoDup (map cp_id paths) /\
    length steps = steps_in pds /\
    length actions = titles_in pds.
Proof.
  induction pds as [|pd pds IH]; intros s Hn.
  - exists [], [], [], s. split; [reflexivity|].
    split; [apply same_data_extends, same_data_refl|].
    repeat split; constructor.
  - destruct (persist_path_run user_id assessment_id pd s Hn)
      as (path & steps & actss & sA & R1 & E1 & L1 & I1 & P1 & S1 & A1).
    destruct (IH sA (extends_names _ _ _ _ _ E1 Hn))
      as (paths & steps2 & actions2 & sB & R2 & E2 & P2 & B2 & N2 & C2 & T2).
    exists (path :: paths), (steps ++ steps2), (concat actss ++ actions2), sB.
    assert (HsB : next_uuid sA <= next_uuid sB).
    { destruct E2 as (_ & _ & H & _). exact H. }
    split.
    { cbn [persist_paths]. unfold bind at 1. rewrite R1. cbv beta iota.
      unfold bind at 1. rewrite R2. reflexivity. }
    split; [exact (extends_trans _ _ _ _ _ _ _ _ _ E1 E2)|].
    split; [constructor; assumption|].
    split.
    { constructor; [lia|]. eapply Forall_impl; [exact B2|].
      intros p Hp. cbv beta in Hp |- *. lia. }
    split.
    { cbn [map]. constructor; [|exact N2].
      intros Hin. apply list_elem_of_In, in_map_iff in Hin
        as (p & Hid & Hp).
      apply list_elem_of_In in Hp.
      apply (proj1 (Forall_forall _ _) B2) in Hp. lia. }
    split.
    { rewrite length_app, C2. unfold steps_in. cbn [sum_list_with].
      rewrite (Forall2_length _ _ _ S1). reflexivity. }
    rewrite length_app, T2. unfold titles_in. cbn [sum_list_with].
    rewrite (actions_total _ _ _ S1 actss A1). reflexivity.
Qed.

(** X18. What a failed generation leaves behind. Once the user and the
    assessment are found, a request of [generate_career_paths] that raises
    ends with nothing pending and exactly one more audit row, the one of
    this request. Either the career-path, step and action tables are as
    they were before the call, and the audit row has status "error" (the
    external call raised) or is still "pending" (the call answered and the
    persistence of the answer raised; the rows written until then are
    rolled back). Or the answer was persisted and committed and the
    exception is the validation error of [CareerPathResponse] for one of
    the created paths, raised after the commit: the audit row then has
    status "success" and refers to the first created path, and, names
    being unique in the catalogues, the created paths are in the committed
    table. That second case is excluded when every generated path has a
    name of at least one character, a feasibility in 0..1 and no negative
    duration. *)
Theorem failed_generation_keeps_paths (s : Session)
  (ai_call : CareerRequest -> Result CareerPathsResponse) (latency_ms : Z)
  (user_id : UUID) (skills_assessment_id : option UUID)
  (interests : option (list string)) (horizon : Z) (user : User)
  (assessment : SkillsAssessment) :
  users_with_id user_id s = [user] ->
  assessment_selected (working s) user_id skills_assessment_id assessment ->
  role_lookup_ok (working s) user ->
  forall e s1,
    request (generate_career_paths ai_call latency_ms user_id
               skills_assessment_id interests horizon) s = (Raise e, s1) ->
    exists rq logs log,
      working s1 = committed s1 /\
      ai_calls_log (committed s1) = logs ++ [log] /\
      length logs = length (ai_calls_log (working s)) /\
      log_id log = next_uuid s /\
      log_request_payload log = CareerRequestPayload rq /\
      ((same_path_tables (working s) (committed s1) /\
        log_status log = failed_status (ai_call rq))
       \/
       (exists response paths path,
          ai_call rq = Ok response /\
          orms_to_responses paths = Raise e /\
          In path paths /\ validation_errors path <> 0 /\
          e = response_validation_error (validation_errors path) /\
          log_status log = "success" /\
          log_career_path_id log = head (map cp_id paths) /\
          (unique_names (working s) ->
           Forall2 (path_matches user_id) (generated_paths response) paths /\
           career_paths (committed s1) = career_paths (working s) ++ paths)))
      /\
      (unique_names (working s) ->
       (forall response,
          ai_call rq = Ok response ->
          Forall (fun pd => presentable_path pd = true)
            (generated_paths response)) ->
       same_path_tables (working s) (committed s1) /\
       log_status log = failed_status (ai_call rq)).
Proof.
  intros Huser Hsel Hrole e s1 Hrun.
  destruct (generate_prefix s ai_call latency_ms user_id skills_assessment_id
              interests horizon user assessment Huser Hsel Hrole)
    as [rq Hprefix].
  cbv zeta in Hprefix. unfold request in Hrun. rewrite Hprefix in Hrun.
  clear Hprefix.
  set (log0 := pending_log (next_uuid s) user_id assessment rq) in *.
  set (w1 := set_ai_calls_log (ai_calls_log (working s) ++ [log0]) (working s))
    in *.
  set (sc := mkSession w1 w1 (S (next_uuid s)) (commits s ++ [w1])) in *.
  exists rq.
  unfold ingest_career_paths in Hrun.
  destruct (ai_call rq) as [response|ex] eqn:Hcall.
  - unfold bind at 1 in Hrun.
    pose proof (no_commit_persist_paths user_id (sa_id assessment)
                  (generated_paths response) sc) as [Hc _].
    pose proof (keeps_audit_persist_paths user_id (sa_id assessment)
                  (generated_paths response) sc) as Hlog.
    assert (Hdet : unique_names (working s) ->
                   exists paths sB,
                     persist_paths user_id (sa_id assessment)
                       (generated_paths response) sc = (Ok paths, sB) /\
                     Forall2 (path_matches user_id)
                       (generated_paths response) paths /\
                     career_paths (working sB)
                     = career_paths (working s) ++ paths).
    { intros Hn.
      destruct (persist_paths_run user_id (sa_id assessment)
                  (generated_paths response) sc Hn)
        as (paths & steps & actions & sB & R & E & P & _).
      exists paths, sB. split; [exact R|]. split; [exact P|].
      destruct E as (_ & _ & _ & _ & Ep & _). exact Ep. }
    destruct (persist_paths user_id (sa_id assessment)
                (generated_paths response) sc) as [[paths|ex] sX].
    + cbn [snd] in Hc, Hlog.
      unfold bind, ai_calls_log_update, write, commit, ret, lift in Hrun.
      destruct (orms_to_responses paths) as [rs|e'] eqn:Hval; [discriminate|].
      inversion Hrun; subst e' s1; clear Hrun.
      destruct (orms_to_responses_raise _ _ Hval) as (path & Hin & Hv & He).
      unfold rollback. cbn [working committed commits next_uuid].
      change (ai_calls_log (working sc))
        with (ai_calls_log (working s) ++ [log0]) in Hlog.
      cbn [ai_calls_log set_ai_calls_log]. rewrite Hlog.
      rewrite map_app. cbn [map log_id log0 pending_log with_outcome].
      rewrite Nat.eqb_refl.
      eexists _, _. split; [reflexivity|]. split; [reflexivity|].
      split; [apply length_map|]. split; [reflexivity|].
      split; [reflexivity|]. split.
      * right. exists response, paths, path.
        split; [reflexivity|]. split; [exact Hval|].
        split; [exact Hin|]. split; [exact Hv|]. split; [exact He|].
        split; [reflexivity|].
        split; [destruct paths; reflexivity|].
        intros Hn. destruct (Hdet Hn) as (paths' & sB & R & P & Ep).
        inversion R; subst paths' sB. split; [exact P | exact Ep].
      * intros Hn Hpres. exfalso.
        destruct (Hdet Hn) as (paths' & sB & R & P & _).
        inversion R; subst paths' sB.
        destruct (orms_to_responses_presentable _ _ _ P
                    (Hpres response eq_refl)) as (rs & Hrs & _).
        rewrite Hrs in Hval. discriminate Hval.
    + inversion Hrun; subst e s1; clear Hrun. cbn [snd] in Hc.
      unfold rollback. cbn [working committed]. rewrite Hc.
      exists (ai_calls_log (working s)), log0.
      split; [reflexivity|]. split; [reflexivity|]. split; [reflexivity|].
      split; [reflexivity|]. split; [reflexivity|].
      split; [left|intros _ _]; (split; [repeat split | reflexivity]).
  - unfold bind, ret, raise, ai_calls_log_update, write, commit in Hrun.
    unfold sc in Hrun. cbn [committed working commits next_uuid] in Hrun.
    inversion Hrun; subst e s1; clear Hrun.
    unfold rollback. cbn [working committed].
    cbn [ai_calls_log set_ai_calls_log]. unfold w1 at 1.
    cbn [ai_calls_log set_ai_calls_log].
    rewrite map_app. cbn [map log_id log0 pending_log].
    rewrite Nat.eqb_refl.
    eexists _, _. split; [reflexivity|]. split; [reflexivity|].
    split; [apply length_map|]. split; [reflexivity|].
    split; [reflexivity|].
    split; [left|intros _ _]; (split; [repeat split | reflexivity]).
Qed.

(** The demo user asks for career paths. When the service times out the
    audit row says "error"; when it answers and a role of the answer has
    two rows in the catalogue, the persistence raises and the audit row
    stays "pending". Neither leaves a career path. When it answers with a
    path without a name, the path is committed and the validation of the
    response raises. *)
Lemma failed_generation_keeps_paths_witness :
  let failed := request (generate_career_paths timing_out 42 1 None None 3)
                  demo_session in
  let broken := request (generate_career_paths answering 42 1 None None 3)
                  clashing_session in
  let unnamed := request (generate_career_paths nameless 42 1 None None 3)
                   demo_session in
  users_with_id 1 demo_session = [mkUser 1 (Some 2)] /\
  is_ok failed.1 = false /\ is_ok broken.1 = false /\
  is_ok unnamed.1 = false /\
  career_paths (committed failed.2) = [] /\
  career_paths (committed broken.2) = [] /\
  length (career_paths (committed unnamed.2)) = 1 /\
  map log_status (ai_calls_log (committed failed.2)) = ["error"] /\
  map log_status (ai_calls_log (committed broken.2)) = ["pending"] /\
  map log_status (ai_calls_log (committed unnamed.2)) = ["success"].
Proof.
  cbv zeta. split; [reflexivity|].
  destruct (request (generate_career_paths timing_out 42 1 None None 3)
              demo_session) as [[r|e] s1] eqn:E1;
    [vm_compute in E1; discriminate|].
  destruct (request (generate_career_paths answering 42 1 None None 3)
              clashing_session) as [[r|e2] s2] eqn:E2;
    [vm_compute in E2; discriminate|].
  destruct (request (generate_career_paths nameless 42 1 None None 3)
              demo_session) as [[r|e3] s3] eqn:E3;
    [vm_compute in E3; discriminate|].
  destruct (failed_generation_keeps_paths demo_session timing_out 42 1 None
              None 3 (mkUser 1 (Some 2))
              (mkAssessment 5 1 (Some 6) "completed" 0) eq_refl eq_refl
              ltac:(unfold role_lookup_ok; simpl; lia) e s1 E1)
    as (rq1 & logs1 & log1 & _ & L1 & N1 & _ & _ & D1 & _).
  destruct (failed_generation_keeps_paths clashing_session answering 42 1
              None None 3 (mkUser 1 (Some 2))
              (mkAssessment 5 1 (Some 6) "completed" 0) eq_refl eq_refl
              ltac:(unfold role_lookup_ok; simpl; lia) e2 s2 E2)
    as (rq2 & logs2 & log2 & _ & L2 & N2 & _ & _ & D2 & _).
  destruct (failed_generation_keeps_paths demo_session nameless 42 1
              None None 3 (mkUser 1 (Some 2))
              (mkAssessment 5 1 (Some 6) "completed" 0) eq_refl eq_refl
              ltac:(unfold role_lookup_ok; simpl; lia) e3 s3 E3)
    as (rq3 & logs3 & log3 & _ & L3 & N3 & _ & _ & D3 & _).
  destruct logs1; [|discriminate N1]. destruct logs2; [|discriminate N2].
  destruct logs3; [|discriminate N3].
  cbn [fst snd is_ok]. rewrite L1, L2, L3. cbn [app map].
  destruct D1 as [((P1 & _) & S1)|(r1 & ps1 & p1 & C1 & _)];
    [|discriminate C1].
  destruct D2 as [((P2 & _) & S2)|(r2 & ps2 & p2 & _ & _ & _ & _ & He2 & _)];
    [|vm_compute in E2; inversion E2 as [[Hx Hy]]; rewrite <- Hx in He2;
      unfold response_validation_error in He2; discriminate He2].
  destruct D3 as [(_ & S3)|(r3 & ps3 & p3 & C3 & _ & _ & _ & _ & S3 & _ & T3)].
  { vm_compute in E3. inversion E3 as [[He3 Hs3]]. subst s3.
    vm_compute in L3. inversion L3 as [HL]. subst log3.
    vm_compute in S3. discriminate S3. }
  destruct (T3 demo_names) as (F3 & K3).
  rewrite P1, P2, K3, S1, S2, S3.
  rewrite length_app, <- (Forall2_length _ _ _ F3).
  inversion C3; subst r3. repeat split.
Defined.



(** *** The latest completed assessment *)

Lemma latest_assessment_spec rows :
  match latest_assessment rows with
  | None => rows = []
  | Some a =>
      In a rows /\
      forall b, In b rows -> (sa_processed_at b <= sa_processed_at a)%Z
  end.
Proof.
  induction rows as [|a rows IH]; [reflexivity|].
  cbn [latest_assessment].
  destruct (latest_assessment rows) as [b|].
  - destruct IH as [Hin Hmax].
    destruct (Z.ltb_spec (sa_processed_at a) (sa_processed_at b)).
    + split; [right; exact Hin|]. intros c [<-|Hc]; [lia | apply Hmax, Hc].
    + split; [left; reflexivity|].
      intros c [<-|Hc]; [lia|]. specialize (Hmax c Hc). lia.
  - subst rows. split; [left; reflexivity|].
    intros c [<-|[]]. lia.
Qed.

(** X20. Which assessment career paths are generated from when none is
    named. [get_latest_by_user_id] never raises and never writes; it
    returns nothing exactly when the user has no completed assessment;
    otherwise it returns a completed assessment of that user whose
    [processed_at] no other completed assessment of the user exceeds.
    Assessments of other users, and assessments that are not completed,
    are never returned. ([processed_at] is a number in the model: every
    assessment the service creates carries one.) *)
Theorem latest_completed_assessment (s : Session) (user_id : UUID) :
  exists found,
    skills_assessments_get_latest_by_user_id user_id s = (Ok found, s) /\
    (found = None <-> completed_of user_id s = []) /\
    (forall a,
        found = Some a ->
        In a (skills_assessments (working s)) /\
        sa_user_id a = user_id /\ sa_status a = "completed" /\
        forall b, In b (completed_of user_id s) ->
                  (sa_processed_at b <= sa_processed_at a)%Z).
Proof.
  unfold skills_assessments_get_latest_by_user_id, bind, read, ret.
  fold (completed_of user_id s).
  pose proof (latest_assessment_spec (completed_of user_id s)) as Hspec.
  destruct (latest_assessment (completed_of user_id s)) as [a|].
  - exists (Some a). split; [reflexivity|]. destruct Hspec as [Hin Hmax].
    split.
    + split; [discriminate|]. intros H. rewrite H in Hin. destruct Hin.
    + intros a' [= <-]. unfold completed_of in Hin.
      apply filter_In in Hin as [Hin Hf].
      apply andb_true_iff in Hf as [Hu Hst].
      apply Nat.eqb_eq in Hu. apply String.eqb_eq in Hst.
      repeat split; assumption.
  - exists None. split; [reflexivity|]. split; [tauto | discriminate].
Qed.

(** *** Skills assessments *)

Lemma made_items_map {A B} (make : UUID -> A -> SkillsAssessmentItem)
  (f : SkillsAssessmentItem -> B) (g : A -> B) entries items :
  (forall item_id entry, f (make item_id entry) = g entry) ->
  Forall2 (fun entry item => exists item_id, item = make item_id entry)
    entries items ->
  map f items = map g entries.
Proof.
  intros Hfg. induction 1 as [|e item es items [item_id ->] _ IH];
    [reflexivity|].
  cbn [map]. rewrite Hfg, IH. reflexivity.
Qed.

Lemma map_const_replicate {A B} (b : B) (l : list A) :
  map (fun _ => b) l = replicate (length l) b.
Proof. induction l as [|x l IH]; [reflexivity|]. simpl. rewrite IH. reflexivity. Qed.

(** The items built from a response: types, labels, readiness and parent,
    in the order strengths, growth areas, hidden talents, readiness. *)
Lemma build_assessment_items_all aid response s :
  exists items n,
    build_assessment_items aid response s
    = (Ok items, mkSession (committed s) (working s) n (commits s)) /\
    map it_item_type items = item_types response /\
    map it_label items = item_labels response /\
    map it_readiness_percentage items = item_readiness response /\
    Forall (fun item => it_skills_assessment_id item = aid) items.
Proof.
  unfold build_assessment_items.
  destruct (items_of_run (strength_item aid) (strengths response) s)
    as (i1 & n1 & R1 & F1).
  unfold bind at 1. rewrite R1.
  destruct (items_of_run (growth_area_item aid) (growth_areas response)
              (mkSession (committed s) (working s) n1 (commits s)))
    as (i2 & n2 & R2 & F2).
  cbn [committed working commits] in R2.
  unfold bind at 1. rewrite R2.
  destruct (items_of_run (hidden_talent_item aid) (hidden_talents response)
              (mkSession (committed s) (working s) n2 (commits s)))
    as (i3 & n3 & R3 & F3).
  cbn [committed working commits] in R3.
  unfold bind at 1. rewrite R3.
  destruct (items_of_run (role_readiness_item aid)
              (readiness_for_roles response)
              (mkSession (committed s) (working s) n3 (commits s)))
    as (i4 & n4 & R4 & F4).
  cbn [committed working commits] in R4.
  unfold bind at 1. rewrite R4.
  unfold ret. eexists _, n4. split; [reflexivity|].
  split; [|split; [|split]].
  - rewrite !map_app. unfold item_types.
    rewrite (made_items_map (strength_item aid) it_item_type (fun _ => "strength") _ _
               (fun _ _ => eq_refl) F1).
    rewrite (made_items_map (growth_area_item aid) it_item_type (fun _ => "growth_area") _ _
               (fun _ _ => eq_refl) F2).
    rewrite (made_items_map (hidden_talent_item aid) it_item_type (fun _ => "hidden_talent") _ _
               (fun _ _ => eq_refl) F3).
    rewrite (made_items_map (role_readiness_item aid) it_item_type (fun _ => "role_readiness") _ _
               (fun _ _ => eq_refl) F4).
    rewrite !map_const_replicate. reflexivity.
  - rewrite !map_app. unfold item_labels.
    rewrite (made_items_map (strength_item aid) it_label str_skill _ _ (fun _ _ => eq_refl) F1).
    rewrite (made_items_map (growth_area_item aid) it_label ga_skill _ _ (fun _ _ => eq_refl) F2).
    rewrite (made_items_map (hidden_talent_item aid) it_label ht_skill _ _ (fun _ _ => eq_refl) F3).
    rewrite (made_items_map (role_readiness_item aid) it_label rd_role _ _ (fun _ _ => eq_refl) F4).
    reflexivity.
  - rewrite !map_app. unfold item_readiness.
    rewrite (made_items_map (strength_item aid) it_readiness_percentage (fun _ => None) _ _
               (fun _ _ => eq_refl) F1).
    rewrite (made_items_map (growth_area_item aid) it_readiness_percentage (fun _ => None) _ _
               (fun _ _ => eq_refl) F2).
    rewrite (made_items_map (hidden_talent_item aid) it_readiness_percentage (fun _ => None) _ _
               (fun _ _ => eq_refl) F3).
    rewrite (made_items_map (role_readiness_item aid) it_readiness_percentage
               (fun entry => normalized_readiness
                               (rd_readiness_percentage entry)) _ _
               (fun _ _ => eq_refl) F4).
    rewrite !map_const_replicate, !replicate_add, <- !app_assoc.
    reflexivity.
  - repeat (apply Forall_app; split).
    + clear -F1. induction F1 as [|e item es items [item_id ->] _ IH];
        constructor; [reflexivity | exact IH].
    + clear -F2. induction F2 as [|e item es items [item_id ->] _ IH];
        constructor; [reflexivity | exact IH].
    + clear -F3. induction F3 as [|e item es items [item_id ->] _ IH];
        constructor; [reflexivity | exact IH].
    + clear -F4. induction F4 as [|e item es items [item_id ->] _ IH];
        constructor; [reflexivity | exact IH].
Qed.

Lemma position_lookup s user :
  role_lookup_ok (working s) user ->
  exists position,
    (match u_role_id user with
     | Some role_id =>
         role <- roles_get_by_id role_id ;;
         ret (match role with
              | Some r => r_name r
              | None => "Unknown"
              end)
     | None => ret "Unknown"
     end) s = (Ok position, s).
Proof.
  intros Hrole. unfold role_lookup_ok in Hrole.
  destruct (u_role_id user) as [rid|].
  - destruct (roles_get_by_id_total s rid Hrole) as [role Hr].
    unfold bind. rewrite Hr. eexists. reflexivity.
  - eexists. reflexivity.
Qed.

Lemma normalized_in_range entry :
  percentage_in_range entry ->
  readiness_in_range (normalized_readiness (rd_readiness_percentage entry)).
Proof.
  unfold percentage_in_range, readiness_in_range, normalized_readiness.
  destruct (rd_readiness_percentage entry) as [p|]; [|trivial].
  intros [H0 H100].
  assert (Hpos : (0 < 100.0)%Q) by reflexivity.
  split.
  - apply Qle_shift_div_l; [exact Hpos|]. rewrite Qmult_0_l. exact H0.
  - apply Qle_shift_div_r; [exact Hpos|].
    assert (E : (1 * 100.0 == 100)%Q) by reflexivity.
    rewrite E. exact H100.
Qed.

(** The readiness percentages of a response that the item table admits
    lie on the external scale. *)
Lemma storable_percentage response entry :
  storable_assessment response = true ->
  In entry (readiness_for_roles response) ->
  percentage_in_range entry.
Proof.
  unfold storable_assessment. rewrite !andb_true_iff, !forallb_forall.
  intros (_ & H4) Hin. specialize (H4 entry Hin).
  apply andb_true_iff in H4 as [_ H4].
  unfold percentage_in_range.
  destruct (rd_readiness_percentage entry) as [p|]; [|exact I].
  cbn [optional] in H4. unfold within in H4.
  apply andb_true_iff in H4. rewrite !Qle_bool_iff in H4. exact H4.
Qed.

(** Rows that satisfy the check constraints of their table pass the
    validation of the domain: the conversion [generate_assessment] makes
    of the rows it has read does not raise. *)
Lemma rows_make_profile repr rows :
  rows <> [] -> Forall Mappers.row_in_range rows ->
  is_ok (Mappers.orms_to_profile repr rows) = true.
Proof.
  intros Hne Hall.
  assert (Hs : exists skills, Mappers.skill_scores_of repr rows = Ok skills).
  { clear Hne. induction Hall as [|row rows [Hsc Hcf] _ [skills IH]].
    - exists []. reflexivity.
    - cbn [Mappers.skill_scores_of]. unfold Mappers.orm_to_skill_score.
      rewrite EntitiesTheory.UserSkillScore_new_valid; [| exact Hsc |].
      + rewrite IH. eexists. reflexivity.
      + destruct (Qeq_bool (uss_confidence row) 0);
          [split; unfold Qle; simpl; lia | exact Hcf]. }
  destruct Hs as [skills Hs]. unfold Mappers.orms_to_profile.
  destruct rows as [|first rows]; [contradiction|].
  rewrite Hs. reflexivity.
Qed.

(** The external call fails: the audit row is marked and committed, the
    service error raised. *)
Lemma assessment_failure_run s ex latency_ms now user_id cycle_id user :
  users_with_id user_id s = [user] ->
  scores_of_pair user_id cycle_id s <> [] ->
  role_lookup_ok (working s) user ->
  exists s1 db0 logs log,
    generate_assessment (Raise ex) latency_ms now user_id cycle_id s
    = (Raise (service_error
                ("AI Skills Assessment service failed: " +:+ exn_msg ex)),
       s1) /\
    working s1 = committed s1 /\
    commits s1 = commits s ++ [db0; committed s1] /\
    skills_assessments (committed s1) = skills_assessments (working s) /\
    skills_assessment_items (committed s1)
    = skills_assessment_items (working s) /\
    ai_calls_log (committed s1) = logs ++ [log] /\
    length logs = length (ai_calls_log (working s)) /\
    log_id log = next_uuid s /\ log_status log = "error" /\
    log_error_message log = Some (exn_msg ex).
Proof.
  intros Huser Hscores Hrole.
  unfold generate_assessment. unfold bind at 1.
  rewrite (users_get_by_id_found s user_id user Huser).
  unfold scores_of_pair in Hscores.
  destruct (scores_query_run s user_id cycle_id Hscores)
    as (row & rows & Hquery & Hsorted).
  unfold bind at 1. rewrite Hquery. cbv beta iota.
  destruct (position_lookup s user Hrole) as [position Hpos].
  unfold bind at 1. rewrite Hpos.
  unfold bind at 1, uuid4. cbv beta iota.
  unfold bind at 1, ai_calls_log_create, bind at 1, write, ret.
  cbv beta iota.
  unfold bind at 1, commit. cbv beta iota.
  unfold bind, raise, ai_calls_log_update, write, ret.
  cbn [committed working next_uuid commits].
  eexists _, _, _, _. split; [reflexivity|].
  cbn [committed working commits].
  split; [reflexivity|].
  split; [rewrite <- app_assoc; reflexivity|].
  split; [reflexivity|]. split; [reflexivity|].
  cbn [ai_calls_log set_ai_calls_log].
  rewrite map_app. cbn [map log_id with_outcome].
  rewrite Nat.eqb_refl.
  split; [reflexivity|]. split; [apply length_map|]. repeat split.
Qed.

(** X21. When a skills assessment is refused or fails. Without the
    user, or without aggregated scores of the subject for the cycle,
    [generate_assessment] raises [NotFoundError] and leaves the session
    as it was: no audit row, no call of the service. With scores that
    satisfy the check constraints of their table (so that their
    conversion into a profile, which the model leaves out, does not
    raise), when the external call raises, the pending audit row,
    committed before the call, is marked "error" with the message of the
    exception and committed, a service error carrying that message is
    raised, and no assessment and no assessment item is stored. *)
Theorem assessment_failure (float_repr : Q -> string) (s : Session)
  (ai_call : Result AssessmentResponse) (latency_ms now : Z)
  (user_id cycle_id : UUID) :
  let run := generate_assessment ai_call latency_ms now user_id cycle_id s in
  (users_with_id user_id s = [] ->
   run = (Raise (not_found ("User " +:+ pretty user_id +:+ " not found")), s)) /\
  (forall user,
      users_with_id user_id s = [user] ->
      scores_of_pair user_id cycle_id s = [] ->
      exists e, exn_class e = "NotFoundError" /\ run = (Raise e, s)) /\
  (forall user ex,
      users_with_id user_id s = [user] ->
      scores_of_pair user_id cycle_id s <> [] ->
      Forall Mappers.row_in_range (scores_of_pair user_id cycle_id s) ->
      role_lookup_ok (working s) user ->
      ai_call = Raise ex ->
      is_ok (Mappers.orms_to_profile float_repr
               (scores_of_pair user_id cycle_id s)) = true /\
      exists s1 db0 logs log,
        run = (Raise (service_error
                        ("AI Skills Assessment service failed: "
                         +:+ exn_msg ex)), s1) /\
        working s1 = committed s1 /\
        commits s1 = commits s ++ [db0; committed s1] /\
        skills_assessments (committed s1) = skills_assessments (working s) /\
        skills_assessment_items (committed s1)
        = skills_assessment_items (working s) /\
        ai_calls_log (committed s1) = logs ++ [log] /\
        length logs = length (ai_calls_log (working s)) /\
        log_id log = next_uuid s /\ log_status log = "error" /\
        log_error_message log = Some (exn_msg ex)).
Proof.
  cbv zeta. split; [|split].
  - intros Hu. unfold generate_assessment, bind at 1.
    unfold users_get_by_id, bind at 1, read, lift. cbv beta iota.
    unfold users_with_id in Hu. rewrite Hu. reflexivity.
  - intros user Hu Hs. unfold generate_assessment, bind at 1.
    rewrite (users_get_by_id_found s user_id user Hu).
    unfold bind at 1. unfold scores_of_pair in Hs.
    rewrite (scores_query_none s user_id cycle_id Hs). cbv beta iota.
    eexists. split; [|reflexivity]. reflexivity.
  - intros user ex Hu Hs Hrange Hrole ->.
    split; [exact (rows_make_profile float_repr _ Hs Hrange)|].
    exact (assessment_failure_run s ex latency_ms now user_id cycle_id user
             Hu Hs Hrole).
Qed.

(** X22. Ingestion of a skills assessment. For a user that exists,
    with aggregated scores for the cycle that satisfy the check
    constraints of their table (so that the conversion into a profile of
    the rows read, which the model of the service leaves out, does not
    raise), and a response of the service that the item table admits
    (labels of at most 150 characters, priorities of at most 50, scores
    and gap scores in 0..10, readiness percentages in 0..100):
    [generate_assessment] returns a new assessment of that user and cycle
    with status "completed"; of its two commits the first holds the pending
    audit row only, the second adds the assessment and one item per entry
    of the response, in the order strengths, growth areas, hidden talents,
    role readiness, each with the type of its category, the label of its
    entry and the new assessment as parent; only role-readiness items
    carry a readiness, the entry's percentage divided by 100, which lies
    within the column's bounds 0..1; every item satisfies the constraints
    of its table; the audit row ends with status "success" and refers to
    the assessment. *)
Theorem assessment_ingestion (float_repr : Q -> string) (s : Session)
  (response : AssessmentResponse) (latency_ms now : Z)
  (user_id cycle_id : UUID) (user : User) :
  users_with_id user_id s = [user] ->
  scores_of_pair user_id cycle_id s <> [] ->
  Forall Mappers.row_in_range (scores_of_pair user_id cycle_id s) ->
  role_lookup_ok (working s) user ->
  storable_assessment response = true ->
  (exists skill_scores,
     user_skill_scores_get_by_user_and_cycle user_id cycle_id s
     = (Ok skill_scores, s) /\
     is_ok (Mappers.orms_to_profile float_repr skill_scores) = true) /\
  exists assessment s1 items db0 logs log,
    generate_assessment (Ok response) latency_ms now user_id cycle_id s
    = (Ok assessment, s1) /\
    sa_user_id assessment = user_id /\
    sa_evaluation_cycle_id assessment = Some cycle_id /\
    sa_status assessment = "completed" /\
    working s1 = committed s1 /\
    commits s1 = commits s ++ [db0; committed s1] /\
    skills_assessments db0 = skills_assessments (working s) /\
    skills_assessment_items db0 = skills_assessment_items (working s) /\
    skills_assessments (committed s1)
    = skills_assessments (working s) ++ [assessment] /\
    skills_assessment_items (committed s1)
    = skills_assessment_items (working s) ++ items /\
    map it_item_type items = item_types response /\
    map it_label items = item_labels response /\
    map it_readiness_percentage items = item_readiness response /\
    Forall (fun item => it_skills_assessment_id item = sa_id assessment)
      items /\
    Forall readiness_in_range (map it_readiness_percentage items) /\
    Forall (fun item => item_admitted item = true) items /\
    ai_calls_log (committed s1) = logs ++ [log] /\
    length logs = length (ai_calls_log (working s)) /\
    log_id log = next_uuid s /\ log_status log = "success" /\
    log_skills_assessment_id log = Some (sa_id assessment).
Proof.
  intros Huser Hscores Hrows Hrole Hstorable.
  unfold scores_of_pair in Hscores, Hrows.
  destruct (scores_query_run s user_id cycle_id Hscores)
    as (row & rows & Hquery & Hsorted).
  split.
  { exists (row :: rows). split; [exact Hquery|].
    apply rows_make_profile; [discriminate|].
    rewrite Hsorted. apply order_by_score_Forall, Hrows. }
  clear Hrows.
  unfold generate_assessment. unfold bind at 1.
  rewrite (users_get_by_id_found s user_id user Huser).
  unfold bind at 1. rewrite Hquery. cbv beta iota.
  destruct (position_lookup s user Hrole) as [position Hpos].
  unfold bind at 1. rewrite Hpos.
  unfold bind at 1, uuid4. cbv beta iota.
  unfold bind at 1, ai_calls_log_create, bind at 1, write, ret.
  cbv beta iota.
  unfold bind at 1, commit. cbv beta iota.
  unfold bind at 1, uuid4. cbv beta iota.
  unfold bind at 1, skills_assessments_create, bind at 1, write, ret.
  cbv beta iota.
  cbn [committed working next_uuid commits sa_id].
  match goal with
  | |- context [bind (build_assessment_items ?aid response) _ ?s0] =>
      destruct (build_assessment_items_all aid response s0)
        as (items & n & Hrun & Hty & Hlab & Hrd & Hpar);
      pose proof (build_assessment_items_admitted aid response s0 items _
                    Hstorable Hrun) as Hadm
  end.
  unfold bind at 1. rewrite Hrun.
  cbn [committed working next_uuid commits].
  exists (mkAssessment (S (next_uuid s)) user_id (Some cycle_id) "completed"
            now).
  assert (Hrange : Forall readiness_in_range
                     (map it_readiness_percentage items)).
  { rewrite Hrd. unfold item_readiness.
    apply Forall_app. split.
    - apply Forall_forall. intros x Hx.
      apply elem_of_replicate in Hx as [-> _]. exact I.
    - apply Forall_map. apply Forall_forall. intros entry Hin.
      apply normalized_in_range, (storable_percentage response).
      + exact Hstorable.
      + apply list_elem_of_In. exact Hin. }
  destruct items as [|item items].
  - eexists _, [], _, _, _. split; [reflexivity|].
    unfold bind, ret, ai_calls_log_update, write, commit.
    cbn [committed working commits sa_user_id sa_evaluation_cycle_id
         sa_status sa_id].
    split; [reflexivity|]. split; [reflexivity|]. split; [reflexivity|].
    split; [reflexivity|].
    split; [rewrite <- app_assoc; reflexivity|].
    split; [reflexivity|]. split; [reflexivity|].
    split; [reflexivity|].
    split; [cbn; rewrite app_nil_r; reflexivity|].
    split; [exact Hty|]. split; [exact Hlab|]. split; [exact Hrd|].
    split; [exact Hpar|]. split; [exact Hrange|]. split; [exact Hadm|].
    cbn [ai_calls_log set_ai_calls_log set_skills_assessments].
    rewrite map_app. cbn [map log_id].
    rewrite Nat.eqb_refl.
    split; [reflexivity|]. split; [apply length_map|]. repeat split.
  - eexists _, (item :: items), _, _, _.
    unfold bind, ret, ai_calls_log_update, write, commit,
      skills_assessment_items_create_bulk, bind, write, ret.
    cbn [committed working commits sa_user_id sa_evaluation_cycle_id
         sa_status sa_id].
    split; [reflexivity|].
    split; [reflexivity|]. split; [reflexivity|]. split; [reflexivity|].
    split; [reflexivity|].
    split; [rewrite <- app_assoc; reflexivity|].
    split; [reflexivity|]. split; [reflexivity|].
    split; [reflexivity|]. split; [reflexivity|].
    split; [exact Hty|]. split; [exact Hlab|]. split; [exact Hrd|].
    split; [exact Hpar|]. split; [exact Hrange|]. split; [exact Hadm|].
    cbn [ai_calls_log set_ai_calls_log set_skills_assessments
         set_skills_assessment_items].
    rewrite map_app. cbn [map log_id].
    rewrite Nat.eqb_refl.
    split; [reflexivity|]. split; [apply length_map|]. repeat split.
Qed.

(** The demo request: one strength and two readiness entries, 85 stored
    as 85/100 and the missing percentage as none. *)
Lemma assessment_ingestion_witness :
  users_with_id 10 demo_assessment_session = [mkUser 10 None] /\
  scores_of_pair 10 20 demo_assessment_session <> [] /\
  Forall Mappers.row_in_range (scores_of_pair 10 20 demo_assessment_session) /\
  storable_assessment demo_assessment_response = true /\
  exists assessment s1,
    generate_assessment (Ok demo_assessment_response) 42 7 10 20
      demo_assessment_session = (Ok assessment, s1) /\
    map it_item_type (skills_assessment_items (committed s1))
    = ["strength"; "role_readiness"; "role_readiness"] /\
    map it_readiness_percentage (skills_assessment_items (committed s1))
    = [None; Some (85 / 100.0)%Q; None].
Proof.
  assert (Hrows : Forall Mappers.row_in_range
                    (scores_of_pair 10 20 demo_assessment_session)).
  { repeat constructor; unfold Qle; simpl; lia. }
  split; [reflexivity|]. split; [discriminate|]. split; [exact Hrows|].
  split; [reflexivity|].
  destruct (assessment_ingestion (fun _ => "") demo_assessment_session
              demo_assessment_response 42 7 10 20 (mkUser 10 None) eq_refl
              ltac:(discriminate) Hrows I eq_refl)
    as (_ & assessment & s1 & items & db0 & logs & log & Hrun & _ & _ & _ & _
        & _ & _ & _ & _ & Hi & Hty & _ & Hrd & _).
  exists assessment, s1. split; [exact Hrun|].
  rewrite Hi. cbn [app skills_assessment_items working demo_assessment_session].
  rewrite Hty, Hrd. split; reflexivity.
Defined.

(** A time-out of the service for the demo request: a service error, an
    audit row "error", no assessment. *)
Lemma assessment_failure_witness :
  exists s1 log,
    generate_assessment (Raise (mkExn "TimeoutError" "timed out")) 42 7 10 20
      demo_assessment_session
    = (Raise (service_error
                "AI Skills Assessment service failed: timed out"), s1) /\
    skills_assessments (committed s1) = [] /\
    ai_calls_log (committed s1) = [log] /\ log_status log = "error".
Proof.
  destruct (proj2 (proj2 (assessment_failure (fun _ => "")
                            demo_assessment_session
                            (Raise (mkExn "TimeoutError" "timed out"))
                            42 7 10 20))
              (mkUser 10 None) (mkExn "TimeoutError" "timed out") eq_refl
              ltac:(discriminate)
              ltac:(repeat constructor; unfold Qle; simpl; lia) I eq_refl)
    as (_ & s1 & db0 & logs & log & Hrun & _ & _ & Ha & _ & Hl & Hn & _ & Hs
        & _).
  destruct logs; [|discriminate Hn].
  exists s1, log. split; [exact Hrun|]. split; [exact Ha|].
  split; [exact Hl | exact Hs].
Defined.

(** The external call fails for every request: a service error, and the
    career-path tables as before. *)
Lemma generation_failure_run s ai_call latency_ms user_id skills_assessment_id
  interests horizon user assessment ex :
  users_with_id user_id s = [user] ->
  assessment_selected (working s) user_id skills_assessment_id assessment ->
  role_lookup_ok (working s) user ->
  (forall rq, ai_call rq = Raise ex) ->
  exists s1,
    generate_career_paths ai_call latency_ms user_id skills_assessment_id
      interests horizon s
    = (Raise (service_error ("AI Career Path service failed: " +:+ exn_msg ex)),
       s1) /\
    working s1 = committed s1 /\
    same_path_tables (working s) (committed s1).
Proof.
  intros Huser Hsel Hrole Hcall.
  destruct (generate_prefix s ai_call latency_ms user_id skills_assessment_id
              interests horizon user assessment Huser Hsel Hrole)
    as [rq Hprefix].
  cbv zeta in Hprefix. rewrite Hprefix. clear Hprefix.
  unfold ingest_career_paths. rewrite Hcall.
  unfold bind, ret, raise, ai_calls_log_update, write, commit.
  cbn [committed working commits next_uuid].
  eexists. split; [reflexivity|]. cbn [committed working].
  split; [reflexivity|]. repeat split.
Qed.

(** X23. With the production clients nothing the services generate is
    ever stored. Outside dummy mode [AISkillsClient.assess_skills] and
    [AICareerClient.generate_career_paths] raise for every request, every
    breaker and every behaviour of the HTTP service: the rejection of an
    open circuit, or the [TypeError] of the retry wrapper. So, for a user
    that exists (and skill scores within the check constraints of their
    table), [generate_assessment] and [generate_career_paths] end in
    their service error with the message of that exception, and leave no
    assessment, no assessment item, no career path, no step and no
    action. *)
Theorem production_mode_stores_nothing (cb : Resilience.CircuitBreaker)
  (float_repr : Q -> string) (max_retries : Z) (initial_delay : Q) (w : Resilience.World) (s : Session)
  (user_id : UUID) (user : User) :
  users_with_id user_id s = [user] ->
  role_lookup_ok (working s) user ->
  let ex := Clients.production_exn cb w in
  (forall cbh, Resilience.admit_call cb w = inl cbh ->
               ex = Clients.retry_type_error) /\
  (forall (dummy : AssessmentResponse)
          (http_post : Resilience.Computation AssessmentResponse)
          (latency_ms now : Z) (cycle_id : UUID),
      scores_of_pair user_id cycle_id s <> [] ->
      Forall Mappers.row_in_range (scores_of_pair user_id cycle_id s) ->
      let answer :=
        (Clients.AISkillsClient_assess_skills false dummy cb max_retries
           initial_delay http_post w).1.1 in
      is_ok (Mappers.orms_to_profile float_repr
               (scores_of_pair user_id cycle_id s)) = true /\
      exists s1,
        generate_assessment answer latency_ms now user_id cycle_id s
        = (Raise (service_error
                    ("AI Skills Assessment service failed: " +:+ exn_msg ex)),
           s1) /\
        skills_assessments (committed s1) = skills_assessments (working s) /\
        skills_assessment_items (committed s1)
        = skills_assessment_items (working s)) /\
  (forall (dummy : CareerPathsResponse)
          (http_post : CareerRequest
                       -> Resilience.Computation CareerPathsResponse)
          (latency_ms : Z) (skills_assessment_id : option UUID)
          (interests : option (list string)) (horizon : Z)
          (assessment : SkillsAssessment),
      assessment_selected (working s) user_id skills_assessment_id assessment ->
      let ai_call := fun rq =>
        (Clients.AICareerClient_generate_career_paths false dummy cb
           max_retries initial_delay (http_post rq) w).1.1 in
      exists s1,
        generate_career_paths ai_call latency_ms user_id skills_assessment_id
          interests horizon s
        = (Raise (service_error
                    ("AI Career Path service failed: " +:+ exn_msg ex)), s1) /\
        same_path_tables (working s) (committed s1)).
Proof.
  intros Huser Hrole ex. split; [|split].
  - intros cbh Hadm. unfold ex, Clients.production_exn. rewrite Hadm.
    reflexivity.
  - intros dummy http_post latency_ms now cycle_id Hscores Hrows answer.
    split; [exact (rows_make_profile float_repr _ Hscores Hrows)|].
    assert (Ha : answer = Raise ex).
    { unfold answer, Clients.AISkillsClient_assess_skills,
        Clients.AISkillsClient_call_production_api.
      apply ClientsTheory.production_branch_raises. }
    rewrite Ha.
    destruct (assessment_failure_run s ex latency_ms now user_id cycle_id user
                Huser Hscores Hrole)
      as (s1 & db0 & logs & log & Hrun & _ & _ & H1 & H2 & _).
    exists s1. split; [exact Hrun|]. split; assumption.
  - intros dummy http_post latency_ms said interests horizon assessment Hsel
      ai_call.
    destruct (generation_failure_run s ai_call latency_ms user_id said
                interests horizon user assessment ex Huser Hsel Hrole)
      as (s1 & Hrun & _ & Hsame).
    { intros rq. unfold ai_call, Clients.AICareerClient_generate_career_paths,
        Resilience._call_production_api.
      apply ClientsTheory.production_branch_raises. }
    exists s1. split; assumption.
Qed.

(** The demo user, a fresh breaker and an HTTP service that would
    answer: both requests end in the service error of the [TypeError]. *)
Lemma production_mode_stores_nothing_witness :
  let cb := Resilience.CircuitBreaker_init 5 60 "ai_skills_service" in
  let w := Resilience.mkWorld 0 [] in
  users_with_id 10 demo_assessment_session = [mkUser 10 None] /\
  exists s1,
    generate_assessment
      (Clients.AISkillsClient_assess_skills false demo_assessment_response
         cb 3 1 (fun w => (Ok demo_assessment_response, w)) w).1.1
      42 7 10 20 demo_assessment_session
    = (Raise (service_error
                ("AI Skills Assessment service failed: "
                 +:+ exn_msg Clients.retry_type_error)), s1) /\
    skills_assessments (committed s1) = [].
Proof.
  cbv zeta. split; [reflexivity|].
  destruct (proj1 (proj2 (production_mode_stores_nothing
                            (Resilience.CircuitBreaker_init 5 60
                               "ai_skills_service")
                            (fun _ => "")
                            3 1 (Resilience.mkWorld 0 [])
                            demo_assessment_session 10 (mkUser 10 None)
                            eq_refl I))
              demo_assessment_response
              (fun w => (Ok demo_assessment_response, w)) 42%Z 7%Z 20
              ltac:(discriminate)
              ltac:(repeat constructor; unfold Qle; simpl; lia))
    as (_ & s1 & Hrun & Ha & _).
  exists s1. split; [exact Hrun | exact Ha].
Defined.
Lemma skill_scores_of_ok repr rows : forall skills,
  Mappers.skill_scores_of repr rows = Ok skills ->
  length skills = length rows /\
  Forall (fun v => Entities.valid_score (Entities.v_score v)) skills /\
  Forall (fun v => 0 <= Entities.v_confidence v <= 1)%Q skills.
Proof.
  induction rows as [|row rows IH]; intros skills H; cbn in H.
  - inversion H; subst. repeat constructor.
  - destruct (Mappers.orm_to_skill_score repr row) as [v|e] eqn:Hv;
      [|discriminate].
    destruct (Mappers.skill_scores_of repr rows) as [vs|e]; [|discriminate].
    inversion H; subst skills; clear H.
    destruct (IH vs eq_refl) as (Hl & Hs & Hc).
    unfold Mappers.orm_to_skill_score in Hv.
    apply EntitiesTheory.UserSkillScore_new_ok in Hv as (-> & Hx & Hcf).
    cbn [length]. split; [congruence|].
    split; constructor; assumption.
Qed.

(** X24. What the mappers return has averages on the scale. The
    average score of an evaluation [EvaluationMapper.orm_to_entity]
    returns lies in [0, 10] (0.0 for an evaluation without scores). A
    profile [SkillProfileMapper.orms_to_profile] returns has one skill per
    row, so at least one: its averages are means of actual values, never
    the 0.0 of the empty case, with [average_score] in [0, 10] and
    [average_confidence] in [0, 1]. *)
Theorem mapped_averages_in_range (float_repr : Q -> string) :
  (forall orm e,
      Entities.orm_to_entity float_repr orm = Ok e ->
      Entities.valid_score (Entities.average_score e)) /\
  (forall rows profile,
      Mappers.orms_to_profile float_repr rows = Ok profile ->
      rows <> [] /\
      length (Entities.sp_skills profile) = length rows /\
      (Entities.profile_average_score profile
       == Qsum (map Entities.v_score (Entities.sp_skills profile))
          / Qlen (map Entities.v_score (Entities.sp_skills profile)))%Q /\
      Entities.valid_score (Entities.profile_average_score profile) /\
      (0 <= Entities.average_confidence profile <= 1)%Q).
Proof.
  split.
  - intros orm e H. unfold Entities.orm_to_entity in H.
    destruct (Entities.scores_of_orm float_repr
                (Entities.eo_competency_scores orm)) as [scores|ex] eqn:Hs;
      [|discriminate].
    inversion H; subst e; clear H.
    assert (Hall : Forall (fun cs => Entities.valid_score (score cs)) scores).
    { destruct (EntitiesTheory.Forall_or_first
                  (fun row => Entities.valid_score (Entities.cso_score row))
                  (Entities.eo_competency_scores orm)
                  (fun row => EntitiesTheory.valid_score_dec _))
        as [Hv|Hbad].
      - rewrite (EntitiesTheory.scores_of_orm_valid float_repr _ Hv) in Hs.
        inversion Hs; subst scores. apply Forall_map.
        eapply Forall_impl; [exact Hv|]. intros row Hr. exact Hr.
      - destruct Hbad as (good & bad & rest & Hsplit & Hgood & Hnot).
        rewrite Hsplit,
          (EntitiesTheory.scores_of_orm_invalid float_repr good bad rest
             Hgood Hnot) in Hs.
        discriminate. }
    unfold Entities.average_score. cbn [competency_scores].
    destruct scores as [|cs scores].
    + split; unfold Qle; simpl; lia.
    + apply EntitiesTheory.mean_valid; [discriminate|].
      apply Forall_map. exact Hall.
  - intros rows profile H. unfold Mappers.orms_to_profile in H.
    destruct rows as [|first rows]; [discriminate|].
    destruct (Mappers.skill_scores_of float_repr (first :: rows))
      as [skills|ex] eqn:Hs; [|discriminate].
    inversion H; subst profile; clear H.
    destruct (skill_scores_of_ok float_repr _ _ Hs) as (Hl & Hsc & Hcf).
    cbn [Entities.sp_skills].
    split; [discriminate|]. split; [exact Hl|].
    unfold Entities.profile_average_score, Entities.average_confidence.
    cbn [Entities.sp_skills].
    destruct skills as [|v skills]; [discriminate Hl|].
    split; [reflexivity|]. split.
    + apply EntitiesTheory.mean_valid; [discriminate|].
      apply Forall_map. exact Hsc.
    + apply EntitiesTheory.unit_mean; [discriminate|].
      apply Forall_map. exact Hcf.
Qed.

End ServicesTheory.
